(** * The nostrdb JNI bridge (ndk-nostrdb/src/main/cpp/ndb_jni.c)

    A shallow embedding of the native methods of
    [io.nostr.ndk.cache.nostrdb.NostrDB] and of the helper
    [json_escape_string], with the properties the specification states
    about them.

    Conventions of the embedding.
    - C integers are [Z] with the conversions written out ([to_jlong],
      [to_uint64], [to_uint16], [size_t]).
    - A handle passed as [jlong] and cast to a pointer is an [option]:
      [None] is the null pointer, [Some x] points to the live object [x].
    - A Java reference returned by a native method is an [option] as well:
      [None] is Java's [null].
    - The handle of the engine stays a [jlong]: zero is the null pointer,
      any other value is the engine of the process.
    - Requests for memory ([malloc], [NewLongArray], [NewStringUTF], ...)
      may fail; which ones do is decided by the [process] the method runs
      in. A store through a pointer the source does not check is a
      [Fault].
    - The engine ([nostrdb.h]) is an interface, [Nostrdb]; its reference
      instance [spec_engine] follows the specification. *)

From Stdlib Require Import ZArith List String Ascii Lia Bool.
From Stdlib.Strings Require Import Byte.
From Stdlib Require Import DecimalString.
From stdpp Require Import base option list sorting gmap.
Import ListNotations.
Open Scope Z_scope.

(** ** Machine integers *)

Definition wrap_unsigned (bits z : Z) : Z := z mod 2 ^ bits.

Definition wrap_signed (bits z : Z) : Z :=
  (z + 2 ^ (bits - 1)) mod 2 ^ bits - 2 ^ (bits - 1).

(** [size_t] and [uint64_t] are 64 bits wide (arm64-v8a, x86_64). *)
Definition size_t : Z → Z := wrap_unsigned 64.
Definition to_uint64 : Z → Z := wrap_unsigned 64.
Definition to_uint16 : Z → Z := wrap_unsigned 16.
Definition to_jlong : Z → Z := wrap_signed 64.
Definition to_jint : Z → Z := wrap_signed 32.

(** ** Character buffers *)

Definition NUL : ascii := "000"%char.
Definition DQUOTE : ascii := "034"%char.
Definition BACKSLASH : ascii := "\"%char.
Definition LF : ascii := "010"%char.
Definition CR : ascii := "013"%char.
Definition TAB : ascii := "009"%char.

(** [(unsigned char)c] *)
Definition uchar (c : ascii) : Z := Z.of_N (N_of_ascii c).

(** [buf[i] = c]; [None] when the index is outside the buffer. *)
Definition store (buf : list ascii) (i : Z) (c : ascii) : option (list ascii) :=
  if (0 <=? i) && (i <? Z.of_nat (length buf))
  then Some (<[Z.to_nat i := c]> buf)
  else None.

(** The C string held by a buffer: the characters before the first NUL. *)
Fixpoint c_str (buf : list ascii) : list ascii :=
  match buf with
  | [] => []
  | c :: buf' => if Ascii.eqb c NUL then [] else c :: c_str buf'
  end.

(** ** json_escape_string (ndb_jni.c, lines 181-213) *)

(** The body of the [for] loop, from index [si] on: [src] is what remains
    of the source at [si], the end of the list standing for its
    terminating NUL. *)
Fixpoint json_escape_loop (dest_size : Z) (src dest : list ascii) (di : Z)
  : option (list ascii * Z) :=
  match src with
  | [] => Some (dest, di)
  | c :: src' =>
    if Ascii.eqb c NUL then Some (dest, di)
    else if negb (di <? size_t (dest_size - 2)) then Some (dest, di)
    else if Ascii.eqb c DQUOTE || Ascii.eqb c BACKSLASH then
      if size_t (di + 2) >=? dest_size then Some (dest, di)
      else
        d1 ← store dest di BACKSLASH;
        d2 ← store d1 (size_t (di + 1)) c;
        json_escape_loop dest_size src' d2 (size_t (di + 2))
    else if Ascii.eqb c LF then
      if size_t (di + 2) >=? dest_size then Some (dest, di)
      else
        d1 ← store dest di BACKSLASH;
        d2 ← store d1 (size_t (di + 1)) "n"%char;
        json_escape_loop dest_size src' d2 (size_t (di + 2))
    else if Ascii.eqb c CR then
      if size_t (di + 2) >=? dest_size then Some (dest, di)
      else
        d1 ← store dest di BACKSLASH;
        d2 ← store d1 (size_t (di + 1)) "r"%char;
        json_escape_loop dest_size src' d2 (size_t (di + 2))
    else if Ascii.eqb c TAB then
      if size_t (di + 2) >=? dest_size then Some (dest, di)
      else
        d1 ← store dest di BACKSLASH;
        d2 ← store d1 (size_t (di + 1)) "t"%char;
        json_escape_loop dest_size src' d2 (size_t (di + 2))
    else if uchar c <? 32 then
      json_escape_loop dest_size src' dest di
    else
      d1 ← store dest di c;
      json_escape_loop dest_size src' d1 (size_t (di + 1))
  end.

(** [json_escape_string dest dest_size src] is the buffer [dest] after the
    call, or [None] when the call writes outside of it. [src = None] is
    the null pointer. *)
Definition json_escape_string (dest : list ascii) (dest_size : Z)
    (src : option (list ascii)) : option (list ascii) :=
  match src with
  | None => store dest 0 NUL
  | Some s =>
    '(d, di) ← json_escape_loop dest_size s dest 0;
    store d di NUL
  end.

(** [buf[i] = c0; buf[i+1] = c1; ...] *)
Fixpoint store_all (buf : list ascii) (i : Z) (cs : list ascii)
  : option (list ascii) :=
  match cs with
  | [] => Some buf
  | c :: cs' => b ← store buf i c; store_all b (i + 1) cs'
  end.

(** What the loop makes of one source character. *)
Definition escape_char (c : ascii) : list ascii :=
  if Ascii.eqb c DQUOTE || Ascii.eqb c BACKSLASH then [BACKSLASH; c]
  else if Ascii.eqb c LF then [BACKSLASH; "n"%char]
  else if Ascii.eqb c CR then [BACKSLASH; "r"%char]
  else if Ascii.eqb c TAB then [BACKSLASH; "t"%char]
  else if uchar c <? 32 then []
  else [c].

(** ** The engine's data, as the bridge reads it (nostrdb.h) *)

#[global] Instance byte_eq_dec : EqDecision byte := Byte.byte_eq_dec.

(** Modelled from the spec: [struct ndb_str] of nostrdb.h, the tag element
    (section 3: "either an inline UTF-8 string, or a packed 32-byte
    identifier"). The constructor is the [flag] field, its argument the
    pointer [str] or [id] of the union, which the bridge tests for null. *)
Inductive ndb_str : Type :=
  | NDB_PACKED_STR (str : option string)
  | NDB_PACKED_ID (id : option (list byte)).

(** Modelled from the spec: [struct ndb_note] of nostrdb.h, the event
    record of section 3. *)
Record ndb_note : Type := {
  note_id : list byte;
  note_pubkey : list byte;
  note_sig : list byte;
  note_created_at : Z;
  note_kind : Z;
  note_content : string;
  note_tags : list (list ndb_str)
}.

(** Modelled from the spec: the field accessors of nostrdb.h. Each one
    returns a pointer into the record (or the integer field). *)
Definition ndb_note_content (note : ndb_note) : option string :=
  Some (note_content note).
Definition ndb_note_id (note : ndb_note) : option (list byte) :=
  Some (note_id note).
Definition ndb_note_pubkey (note : ndb_note) : option (list byte) :=
  Some (note_pubkey note).
Definition ndb_note_sig (note : ndb_note) : option (list byte) :=
  Some (note_sig note).
Definition ndb_note_created_at (note : ndb_note) : Z := note_created_at note.
Definition ndb_note_kind (note : ndb_note) : Z := note_kind note.
Definition ndb_note_tags (note : ndb_note) : option (list (list ndb_str)) :=
  Some (note_tags note).
Definition ndb_tags_count (tags : list (list ndb_str)) : Z :=
  Z.of_nat (length tags).
Definition ndb_tag_count (tag : list ndb_str) : Z := Z.of_nat (length tag).

(** Modelled from the spec: [struct ndb_iterator] with
    [ndb_tags_iterate_start], [ndb_tags_iterate_next] and
    [ndb_iter_tag_str] (section 4.1: tag iteration is a sequence of tags,
    each a sequence of elements). [iter_tag] is the field [tag]. *)
Record ndb_iterator : Type := {
  iter_tag : list ndb_str;
  iter_rest : list (list ndb_str)
}.

Definition ndb_tags_iterate_start (note : ndb_note) : ndb_iterator :=
  {| iter_tag := []; iter_rest := note_tags note |}.

Definition ndb_tags_iterate_next (iter : ndb_iterator) : bool * ndb_iterator :=
  match iter_rest iter with
  | [] => (false, iter)
  | tag :: rest => (true, {| iter_tag := tag; iter_rest := rest |})
  end.

Definition ndb_iter_tag_str (iter : ndb_iterator) (i : Z) : option ndb_str :=
  if 0 <=? i then iter_tag iter !! Z.to_nat i else None.

(** Modelled from the spec: [struct ndb_query_result] of nostrdb.h; the
    bridge reads its field [note_id], the record key (section 6: query
    returns a sequence of keys). *)
Record ndb_query_result : Type := {
  result_note : ndb_note;
  result_note_id : Z
}.

(** Modelled from the spec: [struct ndb_stat] of nostrdb.h (section 3,
    Statistics Snapshot): one triple per physical table in [dbs], one per
    well-known kind in [common_kinds], one for the other kinds. *)
Record ndb_stat_counts : Type := {
  count : Z;
  key_size : Z;
  value_size : Z
}.

Record ndb_stat_t : Type := {
  dbs : list ndb_stat_counts;
  common_kinds : list ndb_stat_counts;
  other_kinds : ndb_stat_counts
}.

(** ** The engine's interface (nostrdb.h)

    The functions of the engine the bridge calls, with the output
    parameters of the C functions turned into components of the result.
    A function that changes the engine takes its state and returns the new
    one. *)
Class Nostrdb : Type := {
  ndb : Type;
  ndb_txn : Type;
  ndb_filter : Type;
  NDB_DBS : Z;
  NDB_CKIND_COUNT : Z;
  (* void ndb_destroy(ndb) *)
  ndb_destroy : ndb → ndb;
  (* int ndb_begin_query(ndb, txn): result, *txn *)
  ndb_begin_query : ndb → Z * ndb_txn * ndb;
  ndb_end_query : ndb_txn → ndb → ndb;
  (* ndb_get_note_by_id(txn, id, &len, &primkey): note, len, primkey *)
  ndb_get_note_by_id : ndb_txn → list byte → option ndb_note * Z * Z;
  (* ndb_get_note_by_key(txn, key, &len): note, len *)
  ndb_get_note_by_key : ndb_txn → Z → option ndb_note * Z;
  (* the bytes of a note in memory, read by nativeGetNoteById *)
  ndb_note_bytes : ndb_note → list byte;
  (* int ndb_query(txn, filter, 1, results, capacity, &count): result and
     the entries written to results; count is their number *)
  ndb_query : ndb_txn → ndb_filter → Z → Z * list ndb_query_result;
  ndb_subscribe : ndb → ndb_filter → Z * ndb;
  (* int ndb_poll_for_notes(ndb, subid, note_keys, capacity): result and
     the keys written to note_keys *)
  ndb_poll_for_notes : ndb → Z → Z → Z * list Z * ndb;
  ndb_unsubscribe : ndb → Z → Z * ndb;
  (* int ndb_stat(ndb, &stat) *)
  ndb_stat : ndb → Z * ndb_stat_t;
  ndb_db_name : Z → option string
}.

(** ** The process a native method runs in *)

(** How a native method ends: it returns, or it goes wrong (a store
    through a null pointer, an index outside an array). *)
Inductive outcome (A : Type) : Type :=
  | Done (a : A)
  | Fault.
Arguments Done {A} a.
Arguments Fault {A}.

Inductive log_priority : Type := ANDROID_LOG_INFO | ANDROID_LOG_ERROR.

(** [alloc_ok n] tells whether the [n]-th request for memory from now on
    succeeds; [logcat] is what [__android_log_print] has written; [engine]
    is the state of the engine every non-null [ndb] handle points to. *)
Record process `{Nostrdb} : Type := {
  alloc_ok : nat → bool;
  logcat : list (log_priority * string);
  engine : ndb
}.

Definition jni `{Nostrdb} (A : Type) : Type := process → outcome A * process.

#[global] Instance jni_ret `{Nostrdb} : MRet jni := λ A a p, (Done a, p).

#[global] Instance jni_bind `{Nostrdb} : MBind jni := λ A B f m p,
  match m p with
  | (Done a, p') => f a p'
  | (Fault, p') => (Fault, p')
  end.

Definition fault `{Nostrdb} {A : Type} : jni A := λ p, (Fault, p).

(** One request for memory. *)
Definition alloc `{Nostrdb} : jni bool := λ p,
  (Done (alloc_ok p 0%nat),
   {| alloc_ok := λ n, alloc_ok p (S n);
      logcat := logcat p;
      engine := engine p |}).

(** [malloc(size)]: whether a block was obtained. The model does not
    look at the size. *)
Definition malloc `{Nostrdb} : jni bool := alloc.

(** [NewLongArray], [NewByteArray], [NewObjectArray]: a negative length is
    refused, otherwise the array is a request for memory like another. *)
Definition NewArray `{Nostrdb} (len : Z) : jni bool :=
  if len <? 0 then mret false else alloc.

(** [FindClass(env, name)]: a local reference, or null. *)
Definition FindClass `{Nostrdb} (name : string) : jni bool := alloc.

(** [NewStringUTF(env, s)] *)
Definition NewStringUTF `{Nostrdb} (s : string) : jni (option string) :=
  ok ← alloc; mret (if ok : bool then Some s else None).

Definition __android_log_print `{Nostrdb} (prio : log_priority) (msg : string)
  : jni unit :=
  λ p, (Done tt,
        {| alloc_ok := alloc_ok p;
           logcat := logcat p ++ [(prio, msg)];
           engine := engine p |}).

Definition LOGI `{Nostrdb} : string → jni unit :=
  __android_log_print ANDROID_LOG_INFO.
Definition LOGE `{Nostrdb} : string → jni unit :=
  __android_log_print ANDROID_LOG_ERROR.

(** Reading and replacing the state of the engine. *)
Definition get_engine `{Nostrdb} : jni ndb := λ p, (Done (engine p), p).

Definition set_engine `{Nostrdb} (e : ndb) : jni unit := λ p,
  (Done tt, {| alloc_ok := alloc_ok p; logcat := logcat p; engine := e |}).

(** The value a call returns, and the process it leaves. *)
Definition returned `{Nostrdb} {A : Type} (m : jni A) (p : process)
  : outcome A := fst (m p).
Definition process_after `{Nostrdb} {A : Type} (m : jni A) (p : process)
  : process := snd (m p).

(** A process in which no request for memory fails. *)
Definition never_fails `{Nostrdb} (p : process) : Prop :=
  ∀ n, alloc_ok p n = true.

(** [pure_run m a]: in every process [m] returns [a] and leaves the
    process as it was. *)
Definition pure_run `{Nostrdb} {A : Type} (m : jni A) (a : A) : Prop :=
  ∀ p, m p = (Done a, p).

(** [quiet m a]: where no request for memory fails, [m] returns [a],
    leaves the engine and the log as they were, and leaves a process in
    which requests still succeed. *)
Definition quiet `{Nostrdb} {A : Type} (m : jni A) (a : A) : Prop :=
  ∀ p, never_fails p →
    ∃ p', m p = (Done a, p') ∧ never_fails p'
          ∧ engine p' = engine p ∧ logcat p' = logcat p.

(** [a[i] = x] on an array the method owns: a [Fault] outside of it. *)
Definition array_set `{Nostrdb} {A : Type} (a : list A) (i : Z) (x : A)
  : jni (list A) :=
  if (0 <=? i) && (i <? Z.of_nat (length a))
  then mret (<[Z.to_nat i := x]> a)
  else fault.

(** [a[i]] read from an array; a [Fault] outside of it. *)
Definition array_get `{Nostrdb} {A : Type} (a : list A) (i : Z) : jni A :=
  if 0 <=? i then
    match a !! Z.to_nat i with
    | Some x => mret x
    | None => fault
    end
  else fault.

(** [for (int i = from; i < from + n; i++) s = body(i, s);] *)
Fixpoint for_upto `{Nostrdb} {S : Type} (n : nat) (i : Z)
    (body : Z → S → jni S) (s : S) : jni S :=
  match n with
  | O => mret s
  | S n' => s' ← body i s; for_upto n' (i + 1) body s'
  end.

(** [for (int i = 0; i < bound; i++) s = body(i, s);] *)
Definition for_loop `{Nostrdb} {S : Type} (bound : Z)
    (body : Z → S → jni S) (s : S) : jni S :=
  for_upto (Z.to_nat bound) 0 body s.

(** A block of [n] cells from [malloc], or the null pointer. What the
    cells hold before they are written is not specified; here it is [x]. *)
Definition malloc_cells `{Nostrdb} {A : Type} (n : Z) (x : A)
  : jni (option (list A)) :=
  ok ← malloc;
  mret (if ok : bool then Some (replicate (Z.to_nat n) x) else None).

(** [block[i] = x] through a pointer that may be null. *)
Definition store_at `{Nostrdb} {A : Type} (block : option (list A)) (i : Z)
    (x : A) : jni (option (list A)) :=
  match block with
  | None => fault
  | Some cells => cells' ← array_set cells i x; mret (Some cells')
  end.

(** ** Hexadecimal rendering of a packed identifier *)

Definition hex_digit (n : N) : ascii :=
  match String.get (N.to_nat n) "0123456789abcdef" with
  | Some c => c
  | None => "?"%char
  end.

(** [sprintf(buf, "%02x", b)] for an [unsigned char b]. *)
Definition sprintf_02x (b : byte) : string :=
  String (hex_digit (Byte.to_N b / 16))
    (String (hex_digit (Byte.to_N b mod 16)) EmptyString).

(** The buffer [hex] after the loop over [j < 32] and [hex[64] = 0]. *)
Definition hex_of_id (id : list byte) : string :=
  fold_right (λ j hex, sprintf_02x (nth j id Byte.x00) ++ hex)%string
    EmptyString (seq 0 32).

(** Reading hexadecimal text back: the value of a digit, and the bytes of
    a string of two-digit groups. *)
Definition hex_value (c : ascii) : option N :=
  N.of_nat <$> (fst <$> list_find (λ d, d = c)
                          (list_ascii_of_string "0123456789abcdef")).

Fixpoint unhex (s : string) : option (list byte) :=
  match s with
  | EmptyString => Some []
  | String hi (String lo rest) =>
    h ← hex_value hi;
    l ← hex_value lo;
    b ← Byte.of_N (16 * h + l);
    bs ← unhex rest;
    Some (b :: bs)
  | String _ EmptyString => None
  end.

(** ** The native methods of io.nostr.ndk.cache.nostrdb.NostrDB *)

Definition Java_io_nostr_ndk_cache_nostrdb_NostrDB_nativeDestroy `{Nostrdb}
    (ndb_ptr : Z) : jni unit :=
  if ndb_ptr =? 0 then mret tt
  else
    e ← get_engine;
    set_engine (ndb_destroy e);;
    LOGI "NostrDB destroyed".

Definition Java_io_nostr_ndk_cache_nostrdb_NostrDB_nativeBeginQuery `{Nostrdb}
    (ndb_ptr : Z) : jni (option ndb_txn) :=
  if ndb_ptr =? 0 then mret None
  else
    (* malloc(sizeof(struct ndb_txn)) *)
    txn ← malloc;
    if negb txn then mret None
    else
      e ← get_engine;
      let '(result, t, e') := ndb_begin_query e in
      set_engine e';;
      if negb (result =? 1) then mret None else mret (Some t).

Definition Java_io_nostr_ndk_cache_nostrdb_NostrDB_nativeEndQuery `{Nostrdb}
    (txn_ptr : option ndb_txn) : jni unit :=
  match txn_ptr with
  | Some txn => e ← get_engine; set_engine (ndb_end_query txn e)
  | None => mret tt
  end.

(** [note_id] is the content of the Java byte array; the engine reads its
    first 32 bytes. *)
Definition Java_io_nostr_ndk_cache_nostrdb_NostrDB_nativeGetNoteById `{Nostrdb}
    (ndb_ptr : Z) (txn_ptr : option ndb_txn) (note_id : list byte)
  : jni (option (list byte)) :=
  match txn_ptr with
  | Some txn =>
    if ndb_ptr =? 0 then mret None
    else
      (* GetByteArrayElements(env, note_id, NULL) *)
      id_bytes ← alloc;
      if negb id_bytes then mret None
      else
        let '(note, len, primkey) := ndb_get_note_by_id txn note_id in
        match note with
        | Some n =>
          if len =? 0 then mret None
          else
            result ← NewArray (to_jint len);
            if result : bool
            then mret (Some (take (Z.to_nat (to_jint len)) (ndb_note_bytes n)))
            else mret None
        | None => mret None
        end
  | None => mret None
  end.

Definition Java_io_nostr_ndk_cache_nostrdb_NostrDB_nativeNoteContent `{Nostrdb}
    (ndb_ptr : Z) (txn_ptr : option ndb_txn) (note_key : Z)
  : jni (option string) :=
  match txn_ptr with
  | Some txn =>
    if ndb_ptr =? 0 then mret None
    else
      let '(note, len) := ndb_get_note_by_key txn (to_uint64 note_key) in
      match note with
      | Some n =>
        match ndb_note_content n with
        | Some content => NewStringUTF content
        | None => mret None
        end
      | None => mret None
      end
  | None => mret None
  end.

Definition Java_io_nostr_ndk_cache_nostrdb_NostrDB_nativeNoteId `{Nostrdb}
    (ndb_ptr : Z) (txn_ptr : option ndb_txn) (note_key : Z)
  : jni (option (list byte)) :=
  match txn_ptr with
  | Some txn =>
    if ndb_ptr =? 0 then mret None
    else
      let '(note, len) := ndb_get_note_by_key txn (to_uint64 note_key) in
      match note with
      | Some n =>
        match ndb_note_id n with
        | Some id =>
          result ← NewArray 32;
          if result : bool then mret (Some (take 32 id)) else mret None
        | None => mret None
        end
      | None => mret None
      end
  | None => mret None
  end.

Definition Java_io_nostr_ndk_cache_nostrdb_NostrDB_nativeNotePubkey `{Nostrdb}
    (ndb_ptr : Z) (txn_ptr : option ndb_txn) (note_key : Z)
  : jni (option (list byte)) :=
  match txn_ptr with
  | Some txn =>
    if ndb_ptr =? 0 then mret None
    else
      let '(note, len) := ndb_get_note_by_key txn (to_uint64 note_key) in
      match note with
      | Some n =>
        match ndb_note_pubkey n with
        | Some pubkey =>
          result ← NewArray 32;
          if result : bool then mret (Some (take 32 pubkey)) else mret None
        | None => mret None
        end
      | None => mret None
      end
  | None => mret None
  end.

Definition Java_io_nostr_ndk_cache_nostrdb_NostrDB_nativeNoteCreatedAt
    `{Nostrdb} (ndb_ptr : Z) (txn_ptr : option ndb_txn) (note_key : Z)
  : jni Z :=
  match txn_ptr with
  | Some txn =>
    if ndb_ptr =? 0 then mret 0
    else
      let '(note, len) := ndb_get_note_by_key txn (to_uint64 note_key) in
      match note with
      | Some n => mret (to_jlong (ndb_note_created_at n))
      | None => mret 0
      end
  | None => mret 0
  end.

Definition Java_io_nostr_ndk_cache_nostrdb_NostrDB_nativeNoteKind `{Nostrdb}
    (ndb_ptr : Z) (txn_ptr : option ndb_txn) (note_key : Z) : jni Z :=
  match txn_ptr with
  | Some txn =>
    if ndb_ptr =? 0 then mret 0
    else
      let '(note, len) := ndb_get_note_by_key txn (to_uint64 note_key) in
      match note with
      | Some n => mret (to_jint (ndb_note_kind n))
      | None => mret 0
      end
  | None => mret 0
  end.

Definition Java_io_nostr_ndk_cache_nostrdb_NostrDB_nativeQuery `{Nostrdb}
    (txn_ptr : option ndb_txn) (filter_ptr : option ndb_filter) (limit : Z)
  : jni (option (list Z)) :=
  match txn_ptr, filter_ptr with
  | Some txn, Some filter =>
    (* malloc(sizeof(struct ndb_query_result) * limit) *)
    results ← malloc;
    if negb results then mret None
    else
      let '(result, written) := ndb_query txn filter limit in
      let count := Z.of_nat (length written) in
      if negb (result =? 1) || (count =? 0) then mret None
      else
        keys ← NewArray count;
        if keys : bool then
          (* malloc(sizeof(jlong) * count), not tested for null *)
          key_values ← malloc_cells count 0;
          key_values ← for_loop count
            (λ i kv, r ← array_get written i;
                     store_at kv i (to_jlong (result_note_id r)))
            key_values;
          mret key_values
        else mret None
  | _, _ => mret None
  end.

Definition Java_io_nostr_ndk_cache_nostrdb_NostrDB_nativeSubscribe `{Nostrdb}
    (ndb_ptr : Z) (filter_ptr : option ndb_filter) : jni Z :=
  match filter_ptr with
  | Some filter =>
    if ndb_ptr =? 0 then mret 0
    else
      e ← get_engine;
      let '(subid, e') := ndb_subscribe e filter in
      set_engine e';;
      mret (to_jlong subid)
  | None => mret 0
  end.

Definition Java_io_nostr_ndk_cache_nostrdb_NostrDB_nativePollForNotes
    `{Nostrdb} (ndb_ptr : Z) (sub_id : Z) (max_notes : Z)
  : jni (option (list Z)) :=
  if ndb_ptr =? 0 then mret None
  else
    (* malloc(sizeof(uint64_t) * max_notes) *)
    note_keys ← malloc;
    if negb note_keys then mret None
    else
      e ← get_engine;
      let '(count, written, e') :=
        ndb_poll_for_notes e (to_uint64 sub_id) max_notes in
      set_engine e';;
      if count <=? 0 then mret None
      else
        keys ← NewArray count;
        if keys : bool then
          (* malloc(sizeof(jlong) * count), not tested for null *)
          long_keys ← malloc_cells count 0;
          long_keys ← for_loop count
            (λ i lk, k ← array_get written i; store_at lk i (to_jlong k))
            long_keys;
          mret long_keys
        else mret None.

Definition Java_io_nostr_ndk_cache_nostrdb_NostrDB_nativeUnsubscribe
    `{Nostrdb} (ndb_ptr : Z) (sub_id : Z) : jni Z :=
  if ndb_ptr =? 0 then mret 0
  else
    e ← get_engine;
    let '(result, e') := ndb_unsubscribe e (to_uint64 sub_id) in
    set_engine e';;
    mret result.

(** A Java [String[]] and a [String[][]]: every cell is a reference. *)
Definition jstring_array : Type := list (option string).
Definition jtag_array : Type := list (option jstring_array).

(** The string a tag element is read as: an inline string as it is, a
    packed identifier in hexadecimal; nothing for a null pointer. *)
Definition element_string (e : ndb_str) : option string :=
  match e with
  | NDB_PACKED_STR (Some str) => Some str
  | NDB_PACKED_ID (Some id) => Some (hex_of_id id)
  | _ => None
  end.

(** The Java array a tag is read as. *)
Definition tag_strings (tag : list ndb_str) : option jstring_array :=
  Some (element_string <$> tag).

(** The body of the loop over the elements of the tag at [iter]. *)
Definition tag_element `{Nostrdb} (iter : ndb_iterator) (i : Z)
    (tag_array : jstring_array) : jni jstring_array :=
  match ndb_iter_tag_str iter i with
  | Some (NDB_PACKED_STR (Some str)) =>
    elem ← NewStringUTF str;
    match elem with
    | Some s => array_set tag_array i (Some s)
    | None => mret tag_array
    end
  | Some (NDB_PACKED_ID (Some id)) =>
    elem ← NewStringUTF (hex_of_id id);
    match elem with
    | Some s => array_set tag_array i (Some s)
    | None => mret tag_array
    end
  | Some _ => mret tag_array
  | None => fault
  end.

(** The [while] loop over the tags: [rest] is what the iterator has not
    visited yet, so that taking its head is [ndb_tags_iterate_next]. *)
Fixpoint tags_loop `{Nostrdb} (tag_count : Z) (rest : list (list ndb_str))
    (result : jtag_array) (tag_index : Z) : jni jtag_array :=
  match rest with
  | [] => mret result
  | tag :: rest' =>
    let iter := {| iter_tag := tag; iter_rest := rest' |} in
    if negb (tag_index <? tag_count) then mret result
    else
      let elem_count := to_uint16 (ndb_tag_count tag) in
      tag_array ← NewArray elem_count;
      if negb tag_array then tags_loop tag_count rest' result tag_index
      else
        filled ← for_loop elem_count (tag_element iter)
                   (replicate (Z.to_nat elem_count) None);
        result' ← array_set result tag_index (Some filled);
        tags_loop tag_count rest' result' (tag_index + 1)
  end.

Definition Java_io_nostr_ndk_cache_nostrdb_NostrDB_nativeNoteTags `{Nostrdb}
    (ndb_ptr : Z) (txn_ptr : option ndb_txn) (note_key : Z)
  : jni (option jtag_array) :=
  match txn_ptr with
  | Some txn =>
    if ndb_ptr =? 0 then mret None
    else
      let '(note, len) := ndb_get_note_by_key txn (to_uint64 note_key) in
      match note with
      | Some n =>
        match ndb_note_tags n with
        | Some tags =>
          let tag_count := to_uint16 (ndb_tags_count tags) in
          if tag_count =? 0 then mret None
          else
            stringClass ← FindClass "java/lang/String";
            if negb stringClass then mret None
            else
              stringArrayClass ← FindClass "[Ljava/lang/String;";
              if negb stringArrayClass then mret None
              else
                result ← NewArray tag_count;
                if negb result then mret None
                else
                  let iter := ndb_tags_iterate_start n in
                  filled ← tags_loop tag_count (iter_rest iter)
                             (replicate (Z.to_nat tag_count) None) 0;
                  mret (Some filled)
        | None => mret None
        end
      | None => mret None
      end
  | None => mret None
  end.

Definition Java_io_nostr_ndk_cache_nostrdb_NostrDB_nativeNoteSig `{Nostrdb}
    (ndb_ptr : Z) (txn_ptr : option ndb_txn) (note_key : Z)
  : jni (option (list byte)) :=
  match txn_ptr with
  | Some txn =>
    if ndb_ptr =? 0 then mret None
    else
      let '(note, len) := ndb_get_note_by_key txn (to_uint64 note_key) in
      match note with
      | Some n =>
        match ndb_note_sig n with
        | Some sig =>
          result ← NewArray 64;
          if result : bool then mret (Some (take 64 sig)) else mret None
        | None => mret None
        end
      | None => mret None
      end
  | None => mret None
  end.

(** [values[idx++] = count; values[idx++] = key_size;
    values[idx++] = value_size;] *)
Definition put_counts `{Nostrdb} (c : ndb_stat_counts) (st : list Z * Z)
  : jni (list Z * Z) :=
  let '(values, idx) := st in
  v1 ← array_set values idx (to_jlong (count c));
  v2 ← array_set v1 (idx + 1) (to_jlong (key_size c));
  v3 ← array_set v2 (idx + 2) (to_jlong (value_size c));
  mret (v3, idx + 3).

(** The table nativeGetStats documents: the triples of the physical
    tables, then of the well-known kinds, then of the other kinds. *)
Definition triple (c : ndb_stat_counts) : list Z :=
  [to_jlong (count c); to_jlong (key_size c); to_jlong (value_size c)].

Definition stats_table (stat : ndb_stat_t) : list Z :=
  flat_map triple (dbs stat) ++ flat_map triple (common_kinds stat)
  ++ triple (other_kinds stat).

Definition Java_io_nostr_ndk_cache_nostrdb_NostrDB_nativeGetStats `{Nostrdb}
    (ndb_ptr : Z) : jni (option (list Z)) :=
  if ndb_ptr =? 0 then mret None
  else
    e ← get_engine;
    let '(result, stat) := ndb_stat e in
    if negb (result =? 1) then LOGE "ndb_stat failed";; mret None
    else
      let total_values := NDB_DBS * 3 + NDB_CKIND_COUNT * 3 + 3 in
      result ← NewArray total_values;
      if negb result then mret None
      else
        (* malloc(sizeof(jlong) * total_values) *)
        values ← malloc;
        if negb values then mret None
        else
          st ← for_loop NDB_DBS
                 (λ i st, c ← array_get (dbs stat) i; put_counts c st)
                 (replicate (Z.to_nat total_values) 0, 0);
          st ← for_loop NDB_CKIND_COUNT
                 (λ i st, c ← array_get (common_kinds stat) i; put_counts c st)
                 st;
          st ← put_counts (other_kinds stat) st;
          mret (Some (fst st)).

Definition Java_io_nostr_ndk_cache_nostrdb_NostrDB_nativeGetDbName `{Nostrdb}
    (db_index : Z) : jni (option string) :=
  if (db_index <? 0) || (db_index >=? NDB_DBS) then mret None
  else
    match ndb_db_name db_index with
    | Some name => NewStringUTF name
    | None => mret None
    end.

(** The table [names] of nativeGetCommonKindName. *)
Definition names : list string :=
  [ "Profile"; "Text"; "Contacts"; "DM"; "Delete"; "Repost"; "Reaction";
    "Zap"; "Zap Request"; "NWC Request"; "NWC Response"; "HTTP Auth";
    "List"; "Long-form"; "Status" ]%string.

Definition Java_io_nostr_ndk_cache_nostrdb_NostrDB_nativeGetCommonKindName
    `{Nostrdb} (kind_index : Z) : jni (option string) :=
  if (kind_index <? 0) || (kind_index >=? NDB_CKIND_COUNT) then mret None
  else name ← array_get names kind_index; NewStringUTF name.

Definition Java_io_nostr_ndk_cache_nostrdb_NostrDB_nativeGetDbCount
    `{Nostrdb} : jni Z := mret NDB_DBS.

Definition Java_io_nostr_ndk_cache_nostrdb_NostrDB_nativeGetCommonKindCount
    `{Nostrdb} : jni Z := mret NDB_CKIND_COUNT.

(** The keys a call of nativeQuery or nativePollForNotes hands to its
    caller: those of the array, none for null; nothing when the call goes
    wrong. *)
Definition keys_returned (r : outcome (option (list Z))) : option (list Z) :=
  match r with
  | Done (Some keys) => Some keys
  | Done None => Some []
  | Fault => None
  end.

(** ** The reference engine

    The engine itself is not part of the bridge. Its reference model
    follows the specification: sections 3 (data), 4.2 (close), 4.3
    (snapshots), 4.5 (filters and queries), 4.6 (subscriptions), 4.8
    (statistics). *)

(** Modelled from the spec: the field types and elements of a filter
    (section 3, Filter: "identifiers, authors, kinds, timestamp bounds, or
    a named tag", with elements "identifiers, integers, or strings"). *)
Inductive filter_field : Type :=
  | FIELD_IDS
  | FIELD_AUTHORS
  | FIELD_KINDS
  | FIELD_SINCE
  | FIELD_UNTIL
  | FIELD_TAG (name : string).

Inductive filter_element : Type :=
  | ELEM_ID (id : list byte)
  | ELEM_INT (n : Z)
  | ELEM_STRING (s : string).

Record field_criterion : Type := {
  field : filter_field;
  elements : list filter_element
}.

(** A finalized filter: its closed fields, in order. *)
Definition filter : Type := list field_criterion.

(** A tag [name, value, ...] carries the element as its value. *)
Definition tag_has (name : string) (e : filter_element) (tag : list ndb_str)
  : bool :=
  match tag with
  | NDB_PACKED_STR (Some k) :: v :: _ =>
    bool_decide (k = name) &&
    match e, v with
    | ELEM_STRING s, NDB_PACKED_STR (Some s') => bool_decide (s = s')
    | ELEM_ID id, NDB_PACKED_ID (Some id') => bool_decide (id = id')
    | _, _ => false
    end
  | _ => false
  end.

(** Modelled from the spec: when a record matches one listed element of a
    field (section 4.5). A timestamp bound is matched by the records on
    its side of the bound. *)
Definition element_matches (f : filter_field) (e : filter_element)
    (n : ndb_note) : bool :=
  match f, e with
  | FIELD_IDS, ELEM_ID id => bool_decide (note_id n = id)
  | FIELD_AUTHORS, ELEM_ID id => bool_decide (note_pubkey n = id)
  | FIELD_KINDS, ELEM_INT k => bool_decide (note_kind n = k)
  | FIELD_SINCE, ELEM_INT t => bool_decide (t ≤ note_created_at n)
  | FIELD_UNTIL, ELEM_INT t => bool_decide (note_created_at n ≤ t)
  | FIELD_TAG name, _ => existsb (tag_has name e) (note_tags n)
  | _, _ => false
  end.

(** Modelled from the spec: "a record matches a filter if it matches every
    present field criterion (logical AND across fields) and, within a
    field, matches any listed element (logical OR within a field)"
    (section 4.5). *)
Definition criterion_matches (c : field_criterion) (n : ndb_note) : bool :=
  existsb (λ e, element_matches (field c) e n) (elements c).

Definition filter_matches (f : filter) (n : ndb_note) : bool :=
  forallb (λ c, criterion_matches c n) f.

(** Modelled from the spec: the order of query results, "by creation
    timestamp, most recent first, ties broken by descending Record Key"
    (section 4.5). A record is a pair of its key and its note. *)
Definition newer_first (r1 r2 : Z * ndb_note) : Prop :=
  note_created_at r2.2 < note_created_at r1.2 ∨
  (note_created_at r1.2 = note_created_at r2.2 ∧ r2.1 ≤ r1.1).

#[global] Instance newer_first_dec : RelDecision newer_first.
Proof. intros r1 r2. unfold newer_first. apply _. Defined.

(** Modelled from the spec: the state of the engine. [records] maps
    record keys to event records (section 3); [subscriptions] maps the
    identifier of a live subscription to its filter and its queue of
    pending keys, oldest first (section 4.6); [snapshots] counts the open
    snapshots (section 4.3); [table_stats] is the table metadata the
    statistics are read from (section 4.8). *)
Record spec_ndb : Type := {
  records : gmap Z ndb_note;
  subscriptions : gmap Z (filter * list Z);
  next_subid : Z;
  snapshots : nat;
  table_stats : ndb_stat_t;
  closed : bool
}.

Inductive close_status : Type := Closed | Busy.

(** Modelled from the spec: close (section 4.2), which with snapshots
    still open is to "refuse and return Busy". *)
Definition spec_close (e : spec_ndb) : close_status * spec_ndb :=
  if (0 <? snapshots e)%nat then (Busy, e)
  else (Closed,
        {| records := records e; subscriptions := subscriptions e;
           next_subid := next_subid e; snapshots := snapshots e;
           table_stats := table_stats e; closed := true |}).

(** Modelled from the spec: begin_snapshot and end_snapshot (section 4.3);
    a snapshot is the records at the time it was begun. *)
Definition spec_begin_snapshot (e : spec_ndb) : Z * gmap Z ndb_note * spec_ndb :=
  if closed e then (0, ∅, e)
  else (1, records e,
        {| records := records e; subscriptions := subscriptions e;
           next_subid := next_subid e; snapshots := S (snapshots e);
           table_stats := table_stats e; closed := closed e |}).

Definition spec_end_snapshot (txn : gmap Z ndb_note) (e : spec_ndb) : spec_ndb :=
  {| records := records e; subscriptions := subscriptions e;
     next_subid := next_subid e; snapshots := pred (snapshots e);
     table_stats := table_stats e; closed := closed e |}.

(** Modelled from the spec: get_by_identifier and get_by_key (section 6),
    "(record, key)|not_found" and "record|not_found". *)
Definition spec_get_by_identifier (txn : gmap Z ndb_note) (id : list byte)
  : option (Z * ndb_note) :=
  snd <$> list_find (λ r : Z * ndb_note, note_id r.2 = take 32 id)
            (map_to_list txn).

Definition spec_get_by_key (txn : gmap Z ndb_note) (key : Z) : option ndb_note :=
  txn !! key.

(** Modelled from the spec: query (section 4.5): the matching records,
    most recent first, cut at the limit. *)
Definition spec_matches (txn : gmap Z ndb_note) (f : filter)
  : list (Z * ndb_note) :=
  List.filter (λ r, filter_matches f r.2) (map_to_list txn).

Definition spec_query (txn : gmap Z ndb_note) (f : filter) (limit : Z)
  : list (Z * ndb_note) :=
  take (Z.to_nat limit) (merge_sort newer_first (spec_matches txn f)).

(** Modelled from the spec: subscribe, poll and unsubscribe (section 4.6).
    The ingestion pipeline, which fills the queues, is not modelled. *)
Definition spec_subscribe (e : spec_ndb) (f : filter) : Z * spec_ndb :=
  (next_subid e,
   {| records := records e;
      subscriptions := <[next_subid e := (f, [])]> (subscriptions e);
      next_subid := next_subid e + 1; snapshots := snapshots e;
      table_stats := table_stats e; closed := closed e |}).

Inductive poll_result : Type :=
  | UnknownSubscription
  | Polled (keys : list Z).

Definition spec_poll (e : spec_ndb) (subid : Z) (max_count : Z)
  : poll_result * spec_ndb :=
  match subscriptions e !! subid with
  | None => (UnknownSubscription, e)
  | Some (f, pending) =>
    (Polled (take (Z.to_nat max_count) pending),
     {| records := records e;
        subscriptions :=
          <[subid := (f, drop (Z.to_nat max_count) pending)]> (subscriptions e);
        next_subid := next_subid e; snapshots := snapshots e;
        table_stats := table_stats e; closed := closed e |})
  end.

Definition spec_unsubscribe (e : spec_ndb) (subid : Z) : Z * spec_ndb :=
  match subscriptions e !! subid with
  | None => (0, e)
  | Some _ =>
    (1, {| records := records e;
           subscriptions := delete subid (subscriptions e);
           next_subid := next_subid e; snapshots := snapshots e;
           table_stats := table_stats e; closed := closed e |})
  end.

(** How the results of the reference engine reach the bridge through the
    C functions: an [int] that is 1 on success, a count, a null pointer.
    An unknown subscription is reported as the count [unknown_code]. *)
Definition count_of_poll (unknown_code : Z) (r : poll_result) : Z * list Z :=
  match r with
  | UnknownSubscription => (unknown_code, [])
  | Polled keys => (Z.of_nat (length keys), keys)
  end.

Definition result_of_record (r : Z * ndb_note) : ndb_query_result :=
  {| result_note := r.2; result_note_id := r.1 |}.

(** The reference engine as an instance of the interface. The physical
    tables and their names, the packed layout of a record and the count
    that stands for an unknown subscription are not fixed by the
    specification: they are parameters. *)
Definition spec_engine (db_names : list string)
    (note_bytes : ndb_note → list byte) (unknown_code : Z) : Nostrdb :=
  {| ndb := spec_ndb;
     ndb_txn := gmap Z ndb_note;
     ndb_filter := filter;
     NDB_DBS := Z.of_nat (length db_names);
     NDB_CKIND_COUNT := 15;
     ndb_destroy := λ e, (spec_close e).2;
     ndb_begin_query := spec_begin_snapshot;
     ndb_end_query := spec_end_snapshot;
     ndb_get_note_by_id := λ txn id,
       match spec_get_by_identifier txn id with
       | Some (key, n) => (Some n, Z.of_nat (length (note_bytes n)), key)
       | None => (None, 0, 0)
       end;
     ndb_get_note_by_key := λ txn key,
       match spec_get_by_key txn key with
       | Some n => (Some n, Z.of_nat (length (note_bytes n)))
       | None => (None, 0)
       end;
     ndb_note_bytes := note_bytes;
     ndb_query := λ txn f limit,
       (1, result_of_record <$> spec_query txn f limit);
     ndb_subscribe := spec_subscribe;
     ndb_poll_for_notes := λ e subid max_count,
       let '(r, e') := spec_poll e subid max_count in
       (count_of_poll unknown_code r, e');
     ndb_unsubscribe := spec_unsubscribe;
     ndb_stat := λ e, (1, table_stats e);
     ndb_db_name := λ i, if 0 <=? i then db_names !! Z.to_nat i else None |}.

(** ** Statements that the code does not meet

    The first is about json_escape_string; the others are stated over the
    reference engine, whose tables, record layout and count for an unknown
    subscription are parameters. *)

(** "all remaining characters are copied unchanged in input order
    (truncating when the output would exceed the buffer)": an escaped text
    that fits in the buffer with its NUL is produced whole. *)
Definition escapes_whatever_fits : Prop :=
  ∀ (dest src : list ascii) (dest_size : Z),
    2 ≤ dest_size → dest_size < 2 ^ 64 →
    dest_size ≤ Z.of_nat (length dest) →
    Z.of_nat (length (flat_map escape_char (c_str src))) < dest_size →
    c_str <$> json_escape_string dest dest_size (Some src)
    = Some (flat_map escape_char (c_str src)).

(** "close ... returns Busy": what nativeDestroy gives its caller (the
    value it returns, the log it leaves) tells whether snapshots were
    open. *)
Definition close_reports_busy (db_names : list string)
    (note_bytes : ndb_note → list byte) (unknown_code : Z) : Prop :=
  ∃ is_busy : outcome unit → list (log_priority * string) → bool,
    ∀ (ndb_ptr : Z) (p : @process (spec_engine db_names note_bytes unknown_code)),
      ndb_ptr ≠ 0 →
      is_busy
        (returned (Java_io_nostr_ndk_cache_nostrdb_NostrDB_nativeDestroy ndb_ptr) p)
        (logcat (process_after
                   (Java_io_nostr_ndk_cache_nostrdb_NostrDB_nativeDestroy ndb_ptr)
                   p))
      = true
      ↔ (0 < snapshots (engine p))%nat.

(** "poll on [an unknown or cancelled] identifier fails with a
    distinguishable UnknownSubscription error, rather than returning a
    result indistinguishable from a live subscription whose pending queue
    is empty". *)
Definition poll_tells_unknown_from_empty (db_names : list string)
    (note_bytes : ndb_note → list byte) (unknown_code : Z) : Prop :=
  ∀ (p : @process (spec_engine db_names note_bytes unknown_code))
    (ndb_ptr unknown_id live_id max_notes : Z) (f : filter),
    ndb_ptr ≠ 0 →
    subscriptions (engine p) !! to_uint64 unknown_id = None →
    subscriptions (engine p) !! to_uint64 live_id = Some (f, []) →
    returned (Java_io_nostr_ndk_cache_nostrdb_NostrDB_nativePollForNotes
                ndb_ptr unknown_id max_notes) p
    ≠ returned (Java_io_nostr_ndk_cache_nostrdb_NostrDB_nativePollForNotes
                  ndb_ptr live_id max_notes) p.

(** "Whenever a query has no matching records ... it returns an empty
    result sequence rather than a failure indication, and likewise a poll
    on a live subscription with no pending matches returns an empty
    sequence". *)
Definition nothing_found_is_an_empty_sequence (db_names : list string)
    (note_bytes : ndb_note → list byte) (unknown_code : Z) : Prop :=
  ∀ (p : @process (spec_engine db_names note_bytes unknown_code))
    (txn : gmap Z ndb_note) (f : filter) (limit : Z)
    (ndb_ptr live_id max_notes : Z),
    never_fails p → ndb_ptr ≠ 0 → 0 < limit → 0 < max_notes →
    (spec_matches txn f = [] →
     returned (@Java_io_nostr_ndk_cache_nostrdb_NostrDB_nativeQuery
                 (spec_engine db_names note_bytes unknown_code)
                 (Some txn) (Some f) limit) p = Done (Some []))
    ∧ (subscriptions (engine p) !! to_uint64 live_id = Some (f, []) →
       returned (Java_io_nostr_ndk_cache_nostrdb_NostrDB_nativePollForNotes
                   ndb_ptr live_id max_notes) p = Done (Some [])).

(** ** A small store to try the bridge on

    Sixteen tables (their names are placeholders), a layout that lays out
    the identifier, the author and the signature, 0 as the count for an
    unknown subscription; two authors; five notes. *)

Definition demo_engine : Nostrdb :=
  spec_engine (replicate 16 "db"%string)
    (λ n, note_id n ++ note_pubkey n ++ note_sig n) 0.

Definition alice : list byte := replicate 32 Byte.x0a.
Definition bob : list byte := replicate 32 Byte.x0b.

Definition demo_note (id : byte) (author : list byte) (created_at kind : Z)
    (tags : list (list ndb_str)) : ndb_note :=
  {| note_id := replicate 32 id;
     note_pubkey := author;
     note_sig := replicate 64 id;
     note_created_at := created_at;
     note_kind := kind;
     note_content := "gm";
     note_tags := tags |}.

Definition demo_tags : list (list ndb_str) :=
  [ [NDB_PACKED_STR (Some "e"%string); NDB_PACKED_ID (Some (replicate 32 Byte.xc3))];
    [NDB_PACKED_STR (Some "t"%string); NDB_PACKED_STR (Some "nostr"%string)] ].

Definition demo_txn : gmap Z ndb_note :=
  list_to_map
    [ (1, demo_note Byte.x01 alice 100 1 demo_tags);
      (2, demo_note Byte.x02 alice 300 1 []);
      (3, demo_note Byte.x03 bob 200 1 []);
      (4, demo_note Byte.x04 alice 200 0 []);
      (5, demo_note Byte.x05 alice 300 1 []) ].

(** kinds = {1} and authors = {alice} *)
Definition demo_filter : filter :=
  [ {| field := FIELD_KINDS; elements := [ELEM_INT 1] |};
    {| field := FIELD_AUTHORS; elements := [ELEM_ID alice] |} ].

(** kinds = {7}: no note of the store has it *)
Definition demo_filter_no_match : filter :=
  [ {| field := FIELD_KINDS; elements := [ELEM_INT 7] |} ].

Definition demo_stat : ndb_stat_t :=
  {| dbs := replicate 16 {| count := 5; key_size := 40; value_size := 900 |};
     common_kinds :=
       replicate 15 {| count := 1; key_size := 8; value_size := 180 |};
     other_kinds := {| count := 0; key_size := 0; value_size := 0 |} |}.

(** The engine with [open_snapshots] snapshots open and one live
    subscription, number 1, with nothing pending. *)
Definition demo_ndb (open_snapshots : nat) : spec_ndb :=
  {| records := demo_txn;
     subscriptions := {[ 1 := (demo_filter, []) ]};
     next_subid := 2;
     snapshots := open_snapshots;
     table_stats := demo_stat;
     closed := false |}.

(** A process with that engine, an empty log and memory to spare. *)
Definition demo_process (open_snapshots : nat) : @process demo_engine :=
  @Build_process demo_engine (λ _, true) [] (demo_ndb open_snapshots).

(** The engine of [demo_ndb] with keys 7, 8 and 9 pending on
    subscription 1. *)
Definition demo_ndb_pending : spec_ndb :=
  {| records := demo_txn;
     subscriptions := {[ 1 := (demo_filter, [7; 8; 9]) ]};
     next_subid := 2;
     snapshots := 0%nat;
     table_stats := demo_stat;
     closed := false |}.

(** The scenario of section 8: fifteen notes of kind 1 by alice, keys 1 to
    15, and five by bob, keys 16 to 20, each created at the time of its
    key. *)
Definition scenario_note (author : list byte) (key : nat) : Z * ndb_note :=
  (Z.of_nat key,
   demo_note (default Byte.x00 (Byte.of_nat key)) author (Z.of_nat key) 1 []).

Definition scenario_txn : gmap Z ndb_note :=
  list_to_map ((scenario_note alice <$> seq 1 15)
               ++ (scenario_note bob <$> seq 16 5)).

(** * Opening an engine, note keys and profiles

    nativeInit, nativeGetNoteKeyById and nativeGetProfileByPubkey, with
    the text json_escape_string writes, character by character. *)

(** ** The text json_escape_string writes *)

(** The characters the loop writes while [room] is left, [room] being
    [dest_size - 2 - di]: the loop stops at the NUL of the source, or as
    soon as [di < dest_size - 2] fails. *)
Fixpoint escape_upto (room : Z) (src : list ascii) : list ascii :=
  match src with
  | [] => []
  | c :: src' =>
    if Ascii.eqb c NUL then []
    else if room <=? 0 then []
    else escape_char c
         ++ escape_upto (room - Z.of_nat (length (escape_char c))) src'
  end.

(** A buffer that held [old] and now holds the C string [text]. *)
Definition holding (text old : list ascii) : list ascii :=
  text ++ NUL :: drop (S (length text)) old.

(** The characters of a source that the loop drops: those below 0x20
    other than the line feed, the carriage return and the tab. *)
Definition skipped (c : ascii) : bool :=
  (uchar c <? 32)
  && negb (Ascii.eqb c LF || Ascii.eqb c CR || Ascii.eqb c TAB).

(** The body of a JSON string (RFC 8259, section 7), as far as the bytes
    below 0x80 decide it: no bare double quote, no bare character below
    0x20, and after a backslash one of the letters the bridge uses. *)
Definition json_escape_letter (e : ascii) : bool :=
  Ascii.eqb e DQUOTE || Ascii.eqb e BACKSLASH || Ascii.eqb e "n"%char
  || Ascii.eqb e "r"%char || Ascii.eqb e "t"%char.

Fixpoint json_string_body (s : list ascii) : bool :=
  match s with
  | [] => true
  | c :: s' =>
    if Ascii.eqb c BACKSLASH then
      match s' with
      | e :: s'' => json_escape_letter e && json_string_body s''
      | [] => false
      end
    else negb (Ascii.eqb c DQUOTE) && (32 <=? uchar c) && json_string_body s'
  end.

(** What a JSON parser reads such a body as. *)
Definition unescape_letter (e : ascii) : ascii :=
  if Ascii.eqb e "n"%char then LF
  else if Ascii.eqb e "r"%char then CR
  else if Ascii.eqb e "t"%char then TAB
  else e.

Fixpoint json_unescape (s : list ascii) : list ascii :=
  match s with
  | [] => []
  | c :: s' =>
    if Ascii.eqb c BACKSLASH then
      match s' with
      | e :: s'' => unescape_letter e :: json_unescape s''
      | [] => []
      end
    else c :: json_unescape s'
  end.

(** ** More of the engine's interface (nostrdb.h) *)

(** The functions that open an engine and that find the key of a note.
    [ndb_init] returns its result, the pointer it stores in [*pndb] and
    the state of the engine that pointer leads to. *)
Class NostrdbOpen `{Nostrdb} : Type := {
  ndb_config : Type;
  (* void ndb_default_config(&config) *)
  ndb_default_config : ndb_config;
  ndb_config_set_mapsize : ndb_config → Z → ndb_config;
  ndb_config_set_ingest_threads : ndb_config → Z → ndb_config;
  (* int ndb_init(&ndb, path, &config) *)
  ndb_init : string → ndb_config → Z * Z * ndb;
  (* uint64_t ndb_get_notekey_by_id(txn, id) *)
  ndb_get_notekey_by_id : ndb_txn → list byte → Z
}.

(** The profile records (nostrdb.h and bindings/c/profile_reader.h): the
    lookup by author, the two steps from the stored bytes to the profile
    table, and the accessors of its fields, each a C string or null. *)
Class ProfileReader `{Nostrdb} : Type := {
  profile_bytes : Type;
  NdbProfileRecord_table_t : Type;
  NdbProfile_table_t : Type;
  (* ndb_get_profile_by_pubkey(txn, pk, &len, &primkey): pointer, len,
     primkey *)
  ndb_get_profile_by_pubkey :
    ndb_txn → list byte → option profile_bytes * Z * Z;
  NdbProfileRecord_as_root : profile_bytes → option NdbProfileRecord_table_t;
  NdbProfileRecord_profile :
    NdbProfileRecord_table_t → option NdbProfile_table_t;
  NdbProfile_name : NdbProfile_table_t → option (list ascii);
  NdbProfile_display_name : NdbProfile_table_t → option (list ascii);
  NdbProfile_about : NdbProfile_table_t → option (list ascii);
  NdbProfile_picture : NdbProfile_table_t → option (list ascii);
  NdbProfile_banner : NdbProfile_table_t → option (list ascii);
  NdbProfile_nip05 : NdbProfile_table_t → option (list ascii);
  NdbProfile_lud16 : NdbProfile_table_t → option (list ascii);
  NdbProfile_lud06 : NdbProfile_table_t → option (list ascii);
  NdbProfile_website : NdbProfile_table_t → option (list ascii)
}.

(** ** Strings borrowed from Java *)

(** The characters GetStringUTFChars hands out. They may be read until
    ReleaseStringUTFChars gives them back; reading them later is a
    [Fault]. *)
Record utf_chars : Type := {
  utf_text : string;
  utf_released : bool
}.

Definition GetStringUTFChars `{Nostrdb} (s : string) : jni (option utf_chars) :=
  ok ← alloc;
  mret (if ok : bool
        then Some {| utf_text := s; utf_released := false |}
        else None).

Definition ReleaseStringUTFChars (chars : utf_chars) : utf_chars :=
  {| utf_text := utf_text chars; utf_released := true |}.

(** Reading the characters through the pointer. *)
Definition read_utf `{Nostrdb} (chars : utf_chars) : jni string :=
  if utf_released chars then fault else mret (utf_text chars).

(** The text of an [int] under ["%d"]. *)
Definition sprintf_d (z : Z) : string := NilZero.string_of_int (Z.to_int z).

(** ** nativeInit (lines 23-53) *)

Definition Java_io_nostr_ndk_cache_nostrdb_NostrDB_nativeInit `{NostrdbOpen}
    (db_path : string) (map_size : Z) (ingester_threads : Z) : jni Z :=
  path ← GetStringUTFChars db_path;
  match path with
  | None => LOGE "Failed to get db_path string";; mret 0
  | Some path =>
    let config := ndb_default_config in
    let config := ndb_config_set_mapsize config (size_t map_size) in
    let config := ndb_config_set_ingest_threads config ingester_threads in
    (* ndb_init(&ndb, path, &config) *)
    text ← read_utf path;
    let '(result, ndb, e) := ndb_init text config in
    set_engine e;;
    let path := ReleaseStringUTFChars path in
    if negb (result =? 1) then
      LOGE ("ndb_init failed with result: " ++ sprintf_d result);;
      mret 0
    else
      (* LOGI("NostrDB initialized successfully at %s", path) *)
      text ← read_utf path;
      LOGI ("NostrDB initialized successfully at " ++ text);;
      mret (to_jlong ndb)
  end.

(** ** nativeGetNoteKeyById (lines 159-176) *)

Definition Java_io_nostr_ndk_cache_nostrdb_NostrDB_nativeGetNoteKeyById
    `{NostrdbOpen} (txn_ptr : option ndb_txn) (note_id : list byte) : jni Z :=
  match txn_ptr with
  | Some txn =>
    (* GetByteArrayElements(env, note_id, NULL) *)
    id_bytes ← alloc;
    if negb id_bytes then mret 0
    else mret (to_jlong (ndb_get_notekey_by_id txn note_id))
  | None => mret 0
  end.

(** ** nativeGetProfileByPubkey (lines 215-293) *)

(** [strlen(s)] *)
Definition strlen (s : list ascii) : Z := Z.of_nat (length (c_str s)).

(** [strcpy(dest, src)] and [strcat(dest, src)] on the block [dest]: the
    block after the call; a [Fault] when the characters and their NUL do
    not fit in it. *)
Definition strcpy `{Nostrdb} (dest src : list ascii) : jni (list ascii) :=
  match store_all dest 0 (c_str src ++ [NUL]) with
  | Some d => mret d
  | None => fault
  end.

Definition strcat `{Nostrdb} (dest src : list ascii) : jni (list ascii) :=
  match store_all dest (strlen dest) (c_str src ++ [NUL]) with
  | Some d => mret d
  | None => fault
  end.

(** The string literal that opens a member: a double quote, the name of
    the field, a double quote, a colon and a double quote. *)
Definition field_opening (field_name : string) : list ascii :=
  DQUOTE :: list_ascii_of_string field_name ++ [DQUOTE; ":"%char; DQUOTE].

(** The macro ADD_FIELD(field_name, value), on the variables it reads and
    writes: the block [json], the array [escaped] and the flag [first]. *)
Definition ADD_FIELD `{Nostrdb} (field_name : string)
    (value : option (list ascii)) (st : list ascii * list ascii * bool)
  : jni (list ascii * list ascii * bool) :=
  let '(json, escaped, first) := st in
  match value with
  | Some v =>
    (* json_escape_string(escaped, sizeof(escaped), value) *)
    match json_escape_string escaped (Z.of_nat (length escaped)) (Some v) with
    | Some escaped =>
      json ← (if first : bool then mret json else strcat json [","%char]);
      json ← strcat json (field_opening field_name);
      json ← strcat json escaped;
      json ← strcat json [DQUOTE];
      mret (json, escaped, false)
    | None => fault
    end
  | None => mret st
  end.

(** What the block from [malloc] and the array [escaped] hold before they
    are written is not specified; here it is NUL. *)
Definition Java_io_nostr_ndk_cache_nostrdb_NostrDB_nativeGetProfileByPubkey
    `{ProfileReader} (ndb_ptr : Z) (txn_ptr : option ndb_txn)
    (pubkey : list byte) : jni (option string) :=
  match txn_ptr with
  | Some txn =>
    if ndb_ptr =? 0 then mret None
    else
      (* GetByteArrayElements(env, pubkey, NULL) *)
      pk_bytes ← alloc;
      if negb pk_bytes then mret None
      else
        let '(profile_ptr, len, primkey) :=
          ndb_get_profile_by_pubkey txn pubkey in
        match profile_ptr with
        | Some ptr =>
          match NdbProfileRecord_as_root ptr with
          | Some record =>
            match NdbProfileRecord_profile record with
            | Some profile =>
              let name := NdbProfile_name profile in
              let display_name := NdbProfile_display_name profile in
              let about := NdbProfile_about profile in
              let picture := NdbProfile_picture profile in
              let banner := NdbProfile_banner profile in
              let nip05 := NdbProfile_nip05 profile in
              let lud16 := NdbProfile_lud16 profile in
              let lud06 := NdbProfile_lud06 profile in
              let website := NdbProfile_website profile in
              let buf_size := 32768 in
              json ← malloc_cells buf_size NUL;
              match json with
              | Some json =>
                let escaped := replicate (Z.to_nat 8192) NUL in
                json ← strcpy json ["{"%char];
                st ← ADD_FIELD "name" name (json, escaped, true);
                st ← ADD_FIELD "display_name" display_name st;
                st ← ADD_FIELD "about" about st;
                st ← ADD_FIELD "picture" picture st;
                st ← ADD_FIELD "banner" banner st;
                st ← ADD_FIELD "nip05" nip05 st;
                st ← ADD_FIELD "lud16" lud16 st;
                st ← ADD_FIELD "lud06" lud06 st;
                st ← ADD_FIELD "website" website st;
                json ← strcat st.1.1 ["}"%char];
                NewStringUTF (string_of_list_ascii (c_str json))
              | None => mret None
              end
            | None => mret None
            end
          | None => mret None
          end
        | None => mret None
        end
  | None => mret None
  end.

(** ** The JSON object of a profile *)

(** The fields of a profile, in the order the bridge writes them. *)
Definition profile_fields `{ProfileReader} (profile : NdbProfile_table_t)
  : list (string * option (list ascii)) :=
  [ ("name", NdbProfile_name profile);
    ("display_name", NdbProfile_display_name profile);
    ("about", NdbProfile_about profile);
    ("picture", NdbProfile_picture profile);
    ("banner", NdbProfile_banner profile);
    ("nip05", NdbProfile_nip05 profile);
    ("lud16", NdbProfile_lud16 profile);
    ("lud06", NdbProfile_lud06 profile);
    ("website", NdbProfile_website profile) ]%string.

(** A member: the opening, the value as json_escape_string leaves it in
    an array of 8192 characters, and a double quote. *)
Definition json_member (field_name : string) (v : list ascii) : list ascii :=
  field_opening field_name ++ escape_upto 8190 v ++ [DQUOTE].

(** The members of the fields that are present. *)
Definition json_members (fields : list (string * option (list ascii)))
  : list (list ascii) :=
  omap (λ f : string * option (list ascii), json_member f.1 <$> f.2) fields.

(** The parts one after the other, [sep] between two of them. *)
Fixpoint join (sep : list ascii) (parts : list (list ascii)) : list ascii :=
  match parts with
  | [] => []
  | [part] => part
  | part :: parts' => part ++ sep ++ join sep parts'
  end.

(** The object: the members between braces, separated by commas. *)
Definition json_object (fields : list (string * option (list ascii)))
  : list ascii :=
  "{"%char :: join [","%char] (json_members fields) ++ ["}"%char].

(** What ADD_FIELD appends for one field. *)
Definition member_text (first : bool) (field_name : string)
    (value : option (list ascii)) : list ascii :=
  match value with
  | Some v => (if first then [] else [","%char]) ++ json_member field_name v
  | None => []
  end.

(** The same text as the macro builds it, member after member; [first]
    is the flag of the macro. *)
Fixpoint members_text (first : bool)
    (fields : list (string * option (list ascii))) : list ascii :=
  match fields with
  | [] => []
  | (field_name, value) :: fields' =>
    member_text first field_name value
    ++ members_text (match value with Some _ => false | None => first end)
         fields'
  end.

(** A block that holds the C string [text]. *)
Definition holds (buf text : list ascii) : Prop :=
  Forall (λ x, x ≠ NUL) text ∧ ∃ rest, buf = text ++ NUL :: rest.

(** ** nativeNoteTags when memory runs out *)

(** A cell of a tag's array: the string of the element, or null. *)
Definition cell_of (e : ndb_str) (cell : option string) : Prop :=
  cell = None ∨ cell = element_string e.

(** A row of the result that was filled from the tag [tag]. *)
Definition row_of (tag : list ndb_str) (row : option jstring_array) : Prop :=
  ∃ cells, row = Some cells ∧ Forall2 cell_of tag cells.

(** ** Profiles and an opener to try the bridge on *)

Record demo_profile : Type := {
  profile_name : option (list ascii);
  profile_about : option (list ascii);
  profile_picture : option (list ascii);
  profile_website : option (list ascii)
}.

(** One profile, stored under every author. *)
Definition demo_profiles (profile : demo_profile) : @ProfileReader demo_engine :=
  {| profile_bytes := demo_profile;
     NdbProfileRecord_table_t := demo_profile;
     NdbProfile_table_t := demo_profile;
     ndb_get_profile_by_pubkey := λ txn pk, (Some profile, 0, 0);
     NdbProfileRecord_as_root := Some;
     NdbProfileRecord_profile := Some;
     NdbProfile_name := profile_name;
     NdbProfile_display_name := λ _, None;
     NdbProfile_about := profile_about;
     NdbProfile_picture := profile_picture;
     NdbProfile_banner := λ _, None;
     NdbProfile_nip05 := λ _, None;
     NdbProfile_lud16 := λ _, None;
     NdbProfile_lud06 := λ _, None;
     NdbProfile_website := profile_website |}.

Definition demo_short_profile : demo_profile :=
  {| profile_name := Some (list_ascii_of_string "fiatjaf");
     profile_about := Some [DQUOTE; "h"%char; "i"%char; DQUOTE; LF];
     profile_picture := None;
     profile_website := Some [] |}.

Definition demo_empty_profile : demo_profile :=
  {| profile_name := None;
     profile_about := None;
     profile_picture := None;
     profile_website := None |}.

(** Four fields of 9000 characters each. *)
Definition demo_long_profile : demo_profile :=
  {| profile_name := Some (replicate (Z.to_nat 9000) "a"%char);
     profile_about := Some (replicate (Z.to_nat 9000) "b"%char);
     profile_picture := Some (replicate (Z.to_nat 9000) "c"%char);
     profile_website := Some (replicate (Z.to_nat 9000) "d"%char) |}.

(** An opener that refuses the empty path with the result 0, and
    otherwise opens the store of [demo_ndb] at the address 4096; the key
    of a note is found as get_by_identifier does. *)
Definition demo_open : @NostrdbOpen demo_engine :=
  {| ndb_config := Z * Z;
     ndb_default_config := (0, 0);
     ndb_config_set_mapsize := λ config size, (size, config.2);
     ndb_config_set_ingest_threads := λ config threads, (config.1, threads);
     ndb_init := λ path config,
       if bool_decide (path = EmptyString)
       then (0, 0, demo_ndb 0 : @ndb demo_engine)
       else (1, 4096, demo_ndb 0 : @ndb demo_engine);
     ndb_get_notekey_by_id := λ txn id,
       match spec_get_by_identifier txn id with
       | Some (key, _) => key
       | None => 0
       end |}.

(** The small store with records that report a length 2^32 larger. *)
Definition demo_engine_wide : Nostrdb :=
  {| ndb := @ndb demo_engine;
     ndb_txn := @ndb_txn demo_engine;
     ndb_filter := @ndb_filter demo_engine;
     NDB_DBS := @NDB_DBS demo_engine;
     NDB_CKIND_COUNT := @NDB_CKIND_COUNT demo_engine;
     ndb_destroy := @ndb_destroy demo_engine;
     ndb_begin_query := @ndb_begin_query demo_engine;
     ndb_end_query := @ndb_end_query demo_engine;
     ndb_get_note_by_id := λ txn id,
       let '(note, len, primkey) := @ndb_get_note_by_id demo_engine txn id in
       (note, len + 2 ^ 32, primkey);
     ndb_get_note_by_key := @ndb_get_note_by_key demo_engine;
     ndb_note_bytes := @ndb_note_bytes demo_engine;
     ndb_query := @ndb_query demo_engine;
     ndb_subscribe := @ndb_subscribe demo_engine;
     ndb_poll_for_notes := @ndb_poll_for_notes demo_engine;
     ndb_unsubscribe := @ndb_unsubscribe demo_engine;
     ndb_stat := @ndb_stat demo_engine;
     ndb_db_name := @ndb_db_name demo_engine |}.

(** A process with the engine [e] in which the requests for memory listed
    in [failing] fail (counted from 0) and every other one succeeds. *)
Definition demo_process_failing (failing : list nat) (e : spec_ndb)
  : @process demo_engine :=
  @Build_process demo_engine (λ n, bool_decide (n ∉ failing)) [] e.

(** * Properties *)

(** ** Running native code in a process where memory never runs out *)

Section quiet.
Context `{Nostrdb}.

Lemma run_bind {A B : Type} (m : jni A) (f : A → jni B) (p : process) :
  (m ≫= f) p
  = match m p with
    | (Done a, p') => f a p'
    | (Fault, p') => (Fault, p')
    end.
Proof. reflexivity. Qed.

Lemma run_ret {A : Type} (a : A) (p : process) :
  (mret a : jni A) p = (Done a, p).
Proof. reflexivity. Qed.

Lemma run_get_engine (p : process) : get_engine p = (Done (engine p), p).
Proof. reflexivity. Qed.

Lemma pure_ret {A : Type} (a : A) : pure_run (mret a) a.
Proof. intros p. reflexivity. Qed.

Lemma pure_bind {A B : Type} (m : jni A) (f : A → jni B) (a : A) (b : B) :
  pure_run m a → pure_run (f a) b → pure_run (m ≫= f) b.
Proof.
  intros Hm Hf p. unfold mbind, jni_bind. rewrite Hm. apply Hf.
Qed.

Lemma pure_quiet {A : Type} (m : jni A) (a : A) : pure_run m a → quiet m a.
Proof. intros Hm p Hp. exists p. rewrite Hm. repeat split. exact Hp. Qed.

Lemma pure_array_set {A : Type} (a : list A) (i : nat) (x : A) :
  (i < length a)%nat → pure_run (array_set a (Z.of_nat i) x) (<[i := x]> a).
Proof.
  intros Hi. unfold array_set.
  replace (0 <=? Z.of_nat i) with true by (symmetry; apply Z.leb_le; lia).
  replace (Z.of_nat i <? Z.of_nat (length a)) with true
    by (symmetry; apply Z.ltb_lt; lia).
  simpl. rewrite Nat2Z.id. apply pure_ret.
Qed.

Lemma pure_array_set_middle {A : Type} (pre rest : list A) (x0 x : A) :
  pure_run (array_set (pre ++ x0 :: rest) (Z.of_nat (length pre)) x)
           (pre ++ x :: rest).
Proof.
  replace (pre ++ x :: rest) with (<[length pre := x]> (pre ++ x0 :: rest)).
  - apply pure_array_set. rewrite length_app. simpl. lia.
  - rewrite insert_app_r_alt by lia. rewrite Nat.sub_diag. reflexivity.
Qed.

Lemma pure_array_get {A : Type} (a : list A) (i : nat) (x : A) :
  a !! i = Some x → pure_run (array_get a (Z.of_nat i)) x.
Proof.
  intros Hi. unfold array_get.
  replace (0 <=? Z.of_nat i) with true by (symmetry; apply Z.leb_le; lia).
  rewrite Nat2Z.id, Hi. apply pure_ret.
Qed.

Lemma pure_store_at {A : Type} (cells : list A) (i : nat) (x : A) :
  (i < length cells)%nat →
  pure_run (store_at (Some cells) (Z.of_nat i) x) (Some (<[i := x]> cells)).
Proof.
  intros Hi. unfold store_at.
  eapply pure_bind; [apply pure_array_set; exact Hi | apply pure_ret].
Qed.

(** A loop whose state after [k] rounds is [g k]. *)
Lemma pure_for_upto {S : Type} (g : nat → S) (body : Z → S → jni S)
    (n from : nat) :
  (∀ k, (k < n)%nat →
        pure_run (body (Z.of_nat (from + k)) (g (from + k)%nat))
                 (g (Datatypes.S (from + k)))) →
  pure_run (for_upto n (Z.of_nat from) body (g from)) (g (from + n)%nat).
Proof.
  revert from. induction n as [|n IH]; intros from Hbody.
  - simpl. rewrite Nat.add_0_r. apply pure_ret.
  - simpl for_upto. eapply pure_bind.
    + specialize (Hbody 0%nat). rewrite Nat.add_0_r in Hbody.
      apply Hbody. lia.
    + replace (Z.of_nat from + 1) with (Z.of_nat (Datatypes.S from)) by lia.
      replace (from + Datatypes.S n)%nat with (Datatypes.S from + n)%nat by lia.
      apply IH. intros k Hk.
      replace (Datatypes.S from + k)%nat with (from + Datatypes.S k)%nat by lia.
      apply Hbody. lia.
Qed.

Lemma pure_for_loop {S : Type} (g : nat → S) (body : Z → S → jni S)
    (bound : Z) :
  (∀ k, (k < Z.to_nat bound)%nat →
        pure_run (body (Z.of_nat k) (g k)) (g (Datatypes.S k))) →
  pure_run (for_loop bound body (g 0%nat)) (g (Z.to_nat bound)).
Proof.
  intros Hbody. unfold for_loop.
  apply (pure_for_upto g body (Z.to_nat bound) 0). exact Hbody.
Qed.

Lemma quiet_returned {A : Type} (m : jni A) (a : A) (p : process) :
  quiet m a → never_fails p → returned m p = Done a.
Proof.
  intros Hm Hp. destruct (Hm p Hp) as (p' & Hrun & _).
  unfold returned. rewrite Hrun. reflexivity.
Qed.

Lemma quiet_ret {A : Type} (a : A) : quiet (mret a) a.
Proof. intros p Hp. exists p. repeat split; assumption. Qed.

Lemma quiet_bind {A B : Type} (m : jni A) (f : A → jni B) (a : A) (b : B) :
  quiet m a → quiet (f a) b → quiet (m ≫= f) b.
Proof.
  intros Hm Hf p Hp.
  destruct (Hm p Hp) as (p1 & Hrun1 & Hp1 & He1 & Hl1).
  destruct (Hf p1 Hp1) as (p2 & Hrun2 & Hp2 & He2 & Hl2).
  exists p2. unfold mbind, jni_bind. rewrite Hrun1, Hrun2.
  repeat split; [assumption|congruence|congruence].
Qed.

Lemma quiet_alloc : quiet alloc true.
Proof.
  intros p Hp. eexists. unfold alloc. rewrite (Hp 0%nat).
  repeat split. intros n. apply Hp.
Qed.

Lemma quiet_malloc : quiet malloc true.
Proof. exact quiet_alloc. Qed.

Lemma quiet_FindClass name : quiet (FindClass name) true.
Proof. exact quiet_alloc. Qed.

Lemma quiet_NewArray len : 0 ≤ len → quiet (NewArray len) true.
Proof.
  intros Hlen. unfold NewArray.
  replace (len <? 0) with false by (symmetry; apply Z.ltb_ge; lia).
  exact quiet_alloc.
Qed.

Lemma quiet_NewStringUTF s : quiet (NewStringUTF s) (Some s).
Proof.
  unfold NewStringUTF.
  eapply quiet_bind; [exact quiet_alloc | apply quiet_ret].
Qed.

Lemma quiet_malloc_cells {A : Type} (n : Z) (x : A) :
  quiet (malloc_cells n x) (Some (replicate (Z.to_nat n) x)).
Proof.
  unfold malloc_cells.
  eapply quiet_bind; [exact quiet_malloc | apply quiet_ret].
Qed.

(** A loop whose state after [k] rounds is [g k]. *)
Lemma quiet_for_upto {S : Type} (g : nat → S) (body : Z → S → jni S)
    (n from : nat) :
  (∀ k, (k < n)%nat →
        quiet (body (Z.of_nat (from + k)) (g (from + k)%nat))
              (g (Datatypes.S (from + k)))) →
  quiet (for_upto n (Z.of_nat from) body (g from)) (g (from + n)%nat).
Proof.
  revert from. induction n as [|n IH]; intros from Hbody.
  - simpl. rewrite Nat.add_0_r. apply quiet_ret.
  - simpl for_upto. eapply quiet_bind.
    + specialize (Hbody 0%nat). rewrite Nat.add_0_r in Hbody.
      apply Hbody. lia.
    + replace (Z.of_nat from + 1) with (Z.of_nat (Datatypes.S from)) by lia.
      replace (from + Datatypes.S n)%nat with (Datatypes.S from + n)%nat by lia.
      apply IH. intros k Hk.
      replace (Datatypes.S from + k)%nat with (from + Datatypes.S k)%nat by lia.
      apply Hbody. lia.
Qed.

Lemma quiet_for_loop {S : Type} (g : nat → S) (body : Z → S → jni S)
    (bound : Z) :
  (∀ k, (k < Z.to_nat bound)%nat →
        quiet (body (Z.of_nat k) (g k)) (g (Datatypes.S k))) →
  quiet (for_loop bound body (g 0%nat)) (g (Z.to_nat bound)).
Proof.
  intros Hbody. unfold for_loop.
  apply (quiet_for_upto g body (Z.to_nat bound) 0). exact Hbody.
Qed.

End quiet.

(** Writing the cells of an array in order. *)
Lemma insert_next_cell {A : Type} (v : nat → A) (x : A) (k n : nat) :
  (k < n)%nat →
  <[k := v k]> ((v <$> seq 0 k) ++ replicate (n - k) x)
  = (v <$> seq 0 (S k)) ++ replicate (n - S k) x.
Proof.
  intros Hk.
  rewrite insert_app_r_alt by (rewrite length_fmap, length_seq; lia).
  rewrite length_fmap, length_seq, Nat.sub_diag.
  destruct (n - k)%nat as [|m] eqn:Hm; [lia|].
  replace (n - S k)%nat with m by lia.
  rewrite seq_S, fmap_app. simpl. rewrite <- app_assoc. reflexivity.
Qed.

(** ** json_escape_string *)

Lemma size_t_small z : 0 ≤ z < 2 ^ 64 → size_t z = z.
Proof. intros Hz. unfold size_t, wrap_unsigned. apply Z.mod_small. exact Hz. Qed.

Lemma store_middle (out rest : list ascii) (c0 c : ascii) :
  store (out ++ c0 :: rest) (Z.of_nat (length out)) c = Some (out ++ c :: rest).
Proof.
  unfold store.
  rewrite length_app. simpl length.
  replace (0 <=? Z.of_nat (length out)) with true by (symmetry; apply Z.leb_le; lia).
  replace (Z.of_nat (length out) <? Z.of_nat (length out + S (length rest)))
    with true by (symmetry; apply Z.ltb_lt; lia).
  simpl. rewrite Nat2Z.id.
  f_equal. rewrite insert_app_r_alt by lia.
  rewrite Nat.sub_diag. reflexivity.
Qed.

Lemma store_all_middle (cs out rest : list ascii) :
  (length cs ≤ length rest)%nat →
  store_all (out ++ rest) (Z.of_nat (length out)) cs
  = Some (out ++ cs ++ drop (length cs) rest).
Proof.
  revert out rest. induction cs as [|c cs IH]; intros out rest Hlen.
  - simpl. rewrite drop_0. reflexivity.
  - destruct rest as [|c0 rest]; [simpl in Hlen; lia|].
    simpl store_all. rewrite store_middle. simpl.
    replace (out ++ c :: rest) with ((out ++ [c]) ++ rest)
      by (rewrite <- app_assoc; reflexivity).
    replace (Z.of_nat (length out) + 1) with (Z.of_nat (length (out ++ [c])))
      by (rewrite length_app; simpl; lia).
    rewrite IH by (simpl in Hlen; lia).
    rewrite <- app_assoc. reflexivity.
Qed.

Lemma escape_char_length c : (length (escape_char c) ≤ 2)%nat.
Proof.
  unfold escape_char.
  repeat match goal with |- context [if ?b then _ else _] => destruct b end;
    simpl; lia.
Qed.

Lemma escape_char_not_NUL c : c ≠ NUL → Forall (λ x, x ≠ NUL) (escape_char c).
Proof.
  intros Hc. unfold escape_char.
  repeat match goal with |- context [if ?b then _ else _] => destruct b end;
    repeat constructor; try exact Hc; discriminate.
Qed.

Lemma json_escape_loop_cons dest_size c src dest di :
  c ≠ NUL → 0 ≤ di → di + 2 < dest_size → dest_size < 2 ^ 64 →
  json_escape_loop dest_size (c :: src) dest di
  = d ← store_all dest di (escape_char c);
    json_escape_loop dest_size src d (di + Z.of_nat (length (escape_char c))).
Proof.
  intros Hc Hdi Hroom Hsize.
  simpl json_escape_loop.
  destruct (Ascii.eqb_spec c NUL) as [|_]; [contradiction|].
  rewrite !size_t_small by lia.
  replace (di <? dest_size - 2) with true by (symmetry; apply Z.ltb_lt; lia).
  rewrite !Z.geb_leb.
  replace (dest_size <=? di + 2) with false by (symmetry; apply Z.leb_gt; lia).
  unfold escape_char. simpl negb. cbv iota.
  destruct (Ascii.eqb c DQUOTE || Ascii.eqb c BACKSLASH).
  { simpl. destruct (store dest di BACKSLASH) as [d1|]; simpl; [|reflexivity].
    destruct (store d1 (di + 1) c) as [d2|]; simpl; [|reflexivity].
    reflexivity. }
  destruct (Ascii.eqb c LF).
  { simpl. destruct (store dest di BACKSLASH) as [d1|]; simpl; [|reflexivity].
    destruct (store d1 (di + 1) _) as [d2|]; simpl; [|reflexivity].
    reflexivity. }
  destruct (Ascii.eqb c CR).
  { simpl. destruct (store dest di BACKSLASH) as [d1|]; simpl; [|reflexivity].
    destruct (store d1 (di + 1) _) as [d2|]; simpl; [|reflexivity].
    reflexivity. }
  destruct (Ascii.eqb c TAB).
  { simpl. destruct (store dest di BACKSLASH) as [d1|]; simpl; [|reflexivity].
    destruct (store d1 (di + 1) _) as [d2|]; simpl; [|reflexivity].
    reflexivity. }
  destruct (uchar c <? 32).
  { simpl. rewrite Z.add_0_r. reflexivity. }
  simpl. destruct (store dest di c) as [d1|]; simpl; [|reflexivity].
  reflexivity.
Qed.

Lemma c_str_not_NUL buf : Forall (λ x, x ≠ NUL) (c_str buf).
Proof.
  induction buf as [|c buf IH]; simpl; [constructor|].
  destruct (Ascii.eqb_spec c NUL); [constructor|].
  constructor; assumption.
Qed.

Lemma c_str_terminated (s rest : list ascii) :
  Forall (λ x, x ≠ NUL) s → c_str (s ++ NUL :: rest) = s.
Proof.
  induction 1 as [|c s Hc _ IH]; simpl.
  - reflexivity.
  - destruct (Ascii.eqb_spec c NUL); [contradiction|]. rewrite IH. reflexivity.
Qed.

Lemma escaped_not_NUL (s : list ascii) :
  Forall (λ x, x ≠ NUL) s → Forall (λ x, x ≠ NUL) (flat_map escape_char s).
Proof.
  induction 1 as [|c s Hc _ IH]; simpl; [constructor|].
  apply Forall_app. split; [apply escape_char_not_NUL; exact Hc | exact IH].
Qed.

Lemma json_escape_loop_spec (dest_size : Z) (src : list ascii) :
  2 ≤ dest_size → dest_size < 2 ^ 64 →
  ∀ out rest : list ascii,
    dest_size ≤ Z.of_nat (length (out ++ rest)) →
    Z.of_nat (length out) ≤ dest_size - 1 →
    ∃ (n : nat) (written rest' : list ascii),
      json_escape_loop dest_size src (out ++ rest) (Z.of_nat (length out))
      = Some (out ++ written ++ rest', Z.of_nat (length (out ++ written)))
      ∧ written = flat_map escape_char (take n (c_str src))
      ∧ length (written ++ rest') = length rest
      ∧ Z.of_nat (length (out ++ written)) ≤ dest_size - 1
      ∧ (n ≤ length (c_str src))%nat
      ∧ (n = length (c_str src)
         ∨ dest_size - 2 ≤ Z.of_nat (length (out ++ written))).
Proof.
  intros Hmin Hmax.
  induction src as [|c src IH]; intros out rest Hbuf Hdi.
  - exists 0%nat, [], rest. simpl. rewrite app_nil_r.
    repeat split; try lia; try (left; reflexivity).
  - destruct (Ascii.eqb_spec c NUL) as [->|Hc].
    { exists 0%nat, [], rest. simpl. rewrite app_nil_r.
      repeat split; try lia; try (left; reflexivity). }
    destruct (Z_lt_le_dec (Z.of_nat (length out)) (dest_size - 2)) as [Hroom|Hfull].
    + assert (Hcs : c_str (c :: src) = c :: c_str src).
      { simpl. destruct (Ascii.eqb_spec c NUL); [contradiction|reflexivity]. }
      rewrite Hcs. clear Hcs.
      rewrite json_escape_loop_cons by (try assumption; lia).
      assert (Hk : (length (escape_char c) ≤ length rest)%nat).
      { pose proof (escape_char_length c). rewrite length_app in Hbuf. lia. }
      rewrite store_all_middle by exact Hk. simpl.
      pose proof (escape_char_length c) as Hle.
      replace (out ++ escape_char c ++ drop (length (escape_char c)) rest)
        with ((out ++ escape_char c) ++ drop (length (escape_char c)) rest)
        by (rewrite <- app_assoc; reflexivity).
      replace (Z.of_nat (length out) + Z.of_nat (length (escape_char c)))
        with (Z.of_nat (length (out ++ escape_char c)))
        by (rewrite length_app; lia).
      destruct (IH (out ++ escape_char c) (drop (length (escape_char c)) rest))
        as (n & written & rest' & Hloop & Hw & Hlen & Hend & Hn & Hstop).
      { rewrite !length_app, length_drop. rewrite length_app in Hbuf. lia. }
      { rewrite length_app. lia. }
      exists (S n), (escape_char c ++ written), rest'.
      rewrite Hloop. simpl take. simpl flat_map.
      rewrite <- Hw.
      rewrite <- !app_assoc in *.
      rewrite !length_app in *. rewrite length_drop in Hlen.
      repeat split; try lia; try reflexivity.
    + exists 0%nat, [], rest. simpl json_escape_loop.
      destruct (Ascii.eqb_spec c NUL); [contradiction|].
      rewrite size_t_small by lia.
      replace (Z.of_nat (length out) <? dest_size - 2) with false
        by (symmetry; apply Z.ltb_ge; lia).
      simpl. rewrite app_nil_r.
      repeat split; try lia; try (right; lia).
Qed.

(** The escaped text of a prefix starts the escaped text of the whole. *)
Lemma escaped_prefix (s : list ascii) (n : nat) :
  flat_map escape_char s
  = flat_map escape_char (take n s) ++ flat_map escape_char (drop n s).
Proof. rewrite <- flat_map_app, take_drop. reflexivity. Qed.

(** C8, as the code has it. For a buffer of [dest_size] characters, 2 or
    more, json_escape_string writes inside the buffer a NUL-terminated
    text shorter than [dest_size]: the escaped form of the first [n]
    characters of the source, where a double quote, a backslash, a line
    feed, a carriage return and a tab become their two-character escapes,
    another character below 0x20 is dropped and any other is copied. The
    text is cut only once it has reached [dest_size - 2] characters: it is
    whole whenever the escaped source has at most [dest_size - 2]. *)
Theorem json_escape_string_escapes (dest src : list ascii) (dest_size : Z) :
  2 ≤ dest_size → dest_size < 2 ^ 64 →
  dest_size ≤ Z.of_nat (length dest) →
  ∃ (dest' : list ascii) (n : nat),
    json_escape_string dest dest_size (Some src) = Some dest'
    ∧ length dest' = length dest
    ∧ dest' !! length (c_str dest') = Some NUL
    ∧ Z.of_nat (length (c_str dest')) < dest_size
    ∧ c_str dest' = flat_map escape_char (take n (c_str src))
    ∧ (n ≤ length (c_str src))%nat
    ∧ (n = length (c_str src)
       ∨ dest_size - 2 ≤ Z.of_nat (length (c_str dest')))
    ∧ (Z.of_nat (length (flat_map escape_char (c_str src))) ≤ dest_size - 2 →
       c_str dest' = flat_map escape_char (c_str src)).
Proof.
  intros Hmin Hmax Hbuf.
  destruct (json_escape_loop_spec dest_size src Hmin Hmax [] dest)
    as (n & written & rest' & Hloop & Hw & Hlen & Hend & Hn & Hstop).
  { exact Hbuf. }
  { simpl. lia. }
  simpl in Hloop, Hend, Hstop. change (Z.of_nat 0) with 0 in Hloop.
  unfold json_escape_string. rewrite Hloop. simpl.
  destruct rest' as [|c0 rest'].
  { rewrite app_nil_r in Hlen. lia. }
  rewrite store_middle.
  assert (Hnn : Forall (λ x, x ≠ NUL) written).
  { rewrite Hw. apply escaped_not_NUL.
    apply Forall_take. apply c_str_not_NUL. }
  exists (written ++ NUL :: rest'), n.
  rewrite c_str_terminated by exact Hnn.
  repeat split; try assumption; try lia.
  - rewrite <- Hlen. rewrite !length_app. reflexivity.
  - rewrite lookup_app_r by lia. rewrite Nat.sub_diag. reflexivity.
  - intros Hfits. rewrite (escaped_prefix (c_str src) n), <- Hw.
    destruct Hstop as [->|Hstop].
    + rewrite drop_all. simpl. rewrite app_nil_r. reflexivity.
    + rewrite (escaped_prefix (c_str src) n), <- Hw, length_app in Hfits.
      destruct (flat_map escape_char (drop n (c_str src))) as [|c l];
        [rewrite app_nil_r; reflexivity | simpl in Hfits; lia].
Qed.

(** ** nativeGetStats *)

Section stats.
Context `{Nostrdb}.

Lemma triple_length c : length (triple c) = 3%nat.
Proof. reflexivity. Qed.

Lemma flat_map_triple_length (l : list ndb_stat_counts) :
  length (flat_map triple l) = (3 * length l)%nat.
Proof. induction l as [|c l IH]; simpl; lia. Qed.

Lemma stats_table_length (stat : ndb_stat_t) :
  length (stats_table stat)
  = (3 * (length (dbs stat) + length (common_kinds stat) + 1))%nat.
Proof.
  unfold stats_table.
  rewrite !length_app, !flat_map_triple_length, triple_length. lia.
Qed.

Lemma pure_put_counts (c : ndb_stat_counts) (pre : list Z) (m : nat) :
  pure_run (put_counts c (pre ++ replicate (3 + m) 0, Z.of_nat (length pre)))
           ((pre ++ triple c) ++ replicate m 0,
            Z.of_nat (length (pre ++ triple c))).
Proof.
  unfold put_counts. simpl replicate.
  eapply pure_bind; [apply pure_array_set_middle|].
  eapply pure_bind.
  { replace (pre ++ to_jlong (count c) :: 0 :: 0 :: replicate m 0)
      with ((pre ++ [to_jlong (count c)]) ++ 0 :: 0 :: replicate m 0)
      by (rewrite <- app_assoc; reflexivity).
    replace (Z.of_nat (length pre) + 1)
      with (Z.of_nat (length (pre ++ [to_jlong (count c)])))
      by (rewrite length_app; simpl; lia).
    apply pure_array_set_middle. }
  eapply pure_bind.
  { replace ((pre ++ [to_jlong (count c)]) ++ to_jlong (key_size c) :: 0 :: replicate m 0)
      with ((pre ++ [to_jlong (count c); to_jlong (key_size c)])
              ++ 0 :: replicate m 0)
      by (rewrite <- !app_assoc; reflexivity).
    replace (Z.of_nat (length pre) + 2)
      with (Z.of_nat (length (pre ++ [to_jlong (count c); to_jlong (key_size c)])))
      by (rewrite length_app; simpl; lia).
    apply pure_array_set_middle. }
  replace ((pre ++ [to_jlong (count c); to_jlong (key_size c)])
             ++ to_jlong (value_size c) :: replicate m 0)
    with ((pre ++ triple c) ++ replicate m 0)
    by (unfold triple; rewrite <- !app_assoc; reflexivity).
  replace (Z.of_nat (length pre) + 3) with (Z.of_nat (length (pre ++ triple c)))
    by (rewrite length_app, triple_length; lia).
  apply pure_ret.
Qed.

(** The loop over one array of counts appends its triples. *)
Lemma pure_counts_loop (l : list ndb_stat_counts) (pre : list Z) (m : nat) :
  pure_run
    (for_loop (Z.of_nat (length l))
       (λ i st, c ← array_get l i; put_counts c st)
       (pre ++ replicate (3 * length l + m) 0, Z.of_nat (length pre)))
    ((pre ++ flat_map triple l) ++ replicate m 0,
     Z.of_nat (length (pre ++ flat_map triple l))).
Proof.
  set (g := λ k : nat,
         ((pre ++ flat_map triple (take k l))
            ++ replicate (3 * (length l - k) + m) 0,
          Z.of_nat (length (pre ++ flat_map triple (take k l))))).
  replace (pre ++ replicate (3 * length l + m) 0, Z.of_nat (length pre))
    with (g 0%nat)
    by (unfold g; simpl; rewrite app_nil_r, Nat.sub_0_r; reflexivity).
  replace ((pre ++ flat_map triple l) ++ replicate m 0,
           Z.of_nat (length (pre ++ flat_map triple l)))
    with (g (Z.to_nat (Z.of_nat (length l))))
    by (unfold g; rewrite Nat2Z.id, take_ge, Nat.sub_diag by lia; reflexivity).
  apply pure_for_loop. rewrite Nat2Z.id. intros k Hk.
  destruct (lookup_lt_is_Some_2 l k Hk) as [c Hc].
  eapply pure_bind; [apply pure_array_get; exact Hc|].
  unfold g.
  rewrite (take_S_r l k c Hc), flat_map_app.
  replace (flat_map triple [c]) with (triple c)
    by reflexivity.
  rewrite (app_assoc pre).
  replace (3 * (length l - k) + m)%nat
    with (3 + (3 * (length l - S k) + m))%nat by lia.
  apply pure_put_counts.
Qed.

(** What nativeGetStats does once it holds its two blocks of memory. *)
Lemma pure_stats_fill (stat : ndb_stat_t) :
  Z.of_nat (length (dbs stat)) = NDB_DBS →
  Z.of_nat (length (common_kinds stat)) = NDB_CKIND_COUNT →
  pure_run
    (st ← for_loop NDB_DBS
            (λ i st, c ← array_get (dbs stat) i; put_counts c st)
            (replicate (Z.to_nat (NDB_DBS * 3 + NDB_CKIND_COUNT * 3 + 3)) 0, 0);
     st ← for_loop NDB_CKIND_COUNT
            (λ i st, c ← array_get (common_kinds stat) i; put_counts c st)
            st;
     st ← put_counts (other_kinds stat) st;
     mret (Some (fst st)))
    (Some (stats_table stat)).
Proof.
  intros Hdbs Hkinds. rewrite <- Hdbs, <- Hkinds.
  replace (Z.to_nat (Z.of_nat (length (dbs stat)) * 3
                     + Z.of_nat (length (common_kinds stat)) * 3 + 3))
    with (3 * length (dbs stat) + (3 * length (common_kinds stat) + 3))%nat
    by lia.
  eapply pure_bind.
  { apply (pure_counts_loop (dbs stat) []). }
  eapply pure_bind.
  { apply pure_counts_loop. }
  eapply pure_bind.
  { apply (pure_put_counts _ _ 0). }
  simpl fst. simpl replicate. rewrite app_nil_r.
  unfold stats_table. simpl app at 3.
  rewrite <- !app_assoc. apply pure_ret.
Qed.

(** C7. Every successful call of nativeGetStats returns the fixed table:
    one (count, key size, value size) triple per physical table, then one
    per well-known kind, then one for the other kinds, that is
    (NDB_DBS + NDB_CKIND_COUNT + 1) * 3 values, where the two constants
    are the ones nativeGetDbCount and nativeGetCommonKindCount report;
    and the call is successful whenever the handle is not null, ndb_stat
    succeeds and memory does not run out. *)
Theorem nativeGetStats_fixed_shape (ndb_ptr : Z) (p : process) :
  let stat := (ndb_stat (engine p)).2 in
  Z.of_nat (length (dbs stat)) = NDB_DBS →
  Z.of_nat (length (common_kinds stat)) = NDB_CKIND_COUNT →
  (∀ values db_count kind_count,
     returned (Java_io_nostr_ndk_cache_nostrdb_NostrDB_nativeGetStats ndb_ptr) p
       = Done (Some values) →
     returned Java_io_nostr_ndk_cache_nostrdb_NostrDB_nativeGetDbCount p
       = Done db_count →
     returned Java_io_nostr_ndk_cache_nostrdb_NostrDB_nativeGetCommonKindCount p
       = Done kind_count →
     values = stats_table stat
     ∧ Z.of_nat (length values) = (db_count + kind_count + 1) * 3)
  ∧ (ndb_ptr ≠ 0 → (ndb_stat (engine p)).1 = 1 → never_fails p →
     returned (Java_io_nostr_ndk_cache_nostrdb_NostrDB_nativeGetStats ndb_ptr) p
       = Done (Some (stats_table stat))).
Proof.
  intros stat Hdbs Hkinds.
  pose proof (pure_stats_fill stat Hdbs Hkinds) as Hfill.
  assert (Hrun : ∀ values,
    returned (Java_io_nostr_ndk_cache_nostrdb_NostrDB_nativeGetStats ndb_ptr) p
      = Done (Some values) →
    values = stats_table stat).
  { intros values.
    unfold Java_io_nostr_ndk_cache_nostrdb_NostrDB_nativeGetStats, returned.
    destruct (ndb_ptr =? 0); [discriminate|].
    rewrite run_bind, run_get_engine. fold stat.
    destruct (ndb_stat (engine p)) as [result stat'] eqn:Hstat.
    subst stat. simpl snd in *.
    destruct (result =? 1); cbv beta iota delta [negb].
    2:{ rewrite run_bind. unfold LOGE, __android_log_print. discriminate. }
    rewrite run_bind.
    destruct (NewArray (NDB_DBS * 3 + NDB_CKIND_COUNT * 3 + 3) p)
      as [[[|]|] p1] eqn:Hnew; cbv beta iota delta [negb]; try discriminate.
    rewrite run_bind.
    destruct (malloc p1) as [[[|]|] p2] eqn:Hmalloc;
      cbv beta iota delta [negb]; try discriminate.
    rewrite Hfill. simpl. congruence. }
  split.
  - intros values db_count kind_count Hvalues Hdb Hkind.
    specialize (Hrun values Hvalues). subst values.
    split; [reflexivity|].
    unfold returned in Hdb, Hkind. simpl in Hdb, Hkind.
    injection Hdb as <-. injection Hkind as <-.
    rewrite stats_table_length. fold stat. lia.
  - intros Hptr Hok Hp.
    unfold Java_io_nostr_ndk_cache_nostrdb_NostrDB_nativeGetStats, returned.
    replace (ndb_ptr =? 0) with false by (symmetry; apply Z.eqb_neq; exact Hptr).
    rewrite run_bind, run_get_engine. fold stat.
    destruct (ndb_stat (engine p)) as [result stat'] eqn:Hstat.
    subst stat. simpl in Hok. subst result. simpl snd in *.
    change (1 =? 1) with true. cbv beta iota delta [negb].
    assert (Htotal : 0 ≤ NDB_DBS * 3 + NDB_CKIND_COUNT * 3 + 3) by lia.
    destruct (quiet_NewArray _ Htotal p Hp) as (p1 & Hnew & Hp1 & _).
    rewrite run_bind, Hnew. cbv beta iota delta [negb].
    destruct (quiet_malloc p1 Hp1) as (p2 & Hmalloc & Hp2 & _).
    rewrite run_bind, Hmalloc. cbv beta iota delta [negb].
    rewrite Hfill. reflexivity.
Qed.

End stats.

(** ** nativeGetDbName and nativeGetCommonKindName *)

Section names.
Context `{Nostrdb}.

Lemma names_length : length names = 15%nat.
Proof. reflexivity. Qed.

Lemma nativeGetDbName_out_of_range (db_index : Z) (p : process) :
  ¬ (0 ≤ db_index < NDB_DBS) →
  Java_io_nostr_ndk_cache_nostrdb_NostrDB_nativeGetDbName db_index p
  = (Done None, p).
Proof.
  intros Hout. unfold Java_io_nostr_ndk_cache_nostrdb_NostrDB_nativeGetDbName.
  rewrite Z.geb_leb.
  destruct (Z.ltb_spec db_index 0); [reflexivity|].
  destruct (Z.leb_spec NDB_DBS db_index); [reflexivity|]. lia.
Qed.

Lemma nativeGetCommonKindName_out_of_range (kind_index : Z) (p : process) :
  ¬ (0 ≤ kind_index < NDB_CKIND_COUNT) →
  Java_io_nostr_ndk_cache_nostrdb_NostrDB_nativeGetCommonKindName kind_index p
  = (Done None, p).
Proof.
  intros Hout.
  unfold Java_io_nostr_ndk_cache_nostrdb_NostrDB_nativeGetCommonKindName.
  rewrite Z.geb_leb.
  destruct (Z.ltb_spec kind_index 0); [reflexivity|].
  destruct (Z.leb_spec NDB_CKIND_COUNT kind_index); [reflexivity|]. lia.
Qed.

Lemma nativeGetDbName_in_range (db_index : Z) (p : process) :
  0 ≤ db_index < NDB_DBS →
  Java_io_nostr_ndk_cache_nostrdb_NostrDB_nativeGetDbName db_index p
  = match ndb_db_name db_index with
    | Some name => NewStringUTF name p
    | None => (Done None, p)
    end.
Proof.
  intros Hin. unfold Java_io_nostr_ndk_cache_nostrdb_NostrDB_nativeGetDbName.
  rewrite Z.geb_leb.
  destruct (Z.ltb_spec db_index 0); [lia|].
  destruct (Z.leb_spec NDB_DBS db_index); [lia|].
  simpl. destruct (ndb_db_name db_index); reflexivity.
Qed.

Lemma nativeGetCommonKindName_in_range (kind_index : Z) (p : process) :
  0 ≤ kind_index < NDB_CKIND_COUNT → NDB_CKIND_COUNT ≤ 15 →
  ∃ name, names !! Z.to_nat kind_index = Some name
    ∧ Java_io_nostr_ndk_cache_nostrdb_NostrDB_nativeGetCommonKindName
        kind_index p
      = NewStringUTF name p.
Proof.
  intros Hin Hcount.
  destruct (lookup_lt_is_Some_2 names (Z.to_nat kind_index)) as [name Hname].
  { rewrite names_length. lia. }
  exists name. split; [exact Hname|].
  unfold Java_io_nostr_ndk_cache_nostrdb_NostrDB_nativeGetCommonKindName.
  rewrite Z.geb_leb.
  destruct (Z.ltb_spec kind_index 0); [lia|].
  destruct (Z.leb_spec NDB_CKIND_COUNT kind_index); [lia|].
  simpl. rewrite run_bind.
  rewrite <- (Z2Nat.id kind_index) at 1 by lia.
  rewrite (pure_array_get names _ name Hname). reflexivity.
Qed.

Lemma NewStringUTF_no_fault (s : string) (p : process) :
  returned (NewStringUTF s) p = Done (if alloc_ok p 0%nat then Some s else None).
Proof. unfold returned, NewStringUTF. rewrite run_bind. reflexivity. Qed.

(** C9. With the table of kind names covering the well-known kinds and
    the engine naming each of its tables, a name lookup returns a name
    exactly when its index is at least 0 and below the count
    nativeGetDbCount (nativeGetCommonKindCount) reports, provided the
    string can be allocated; outside of that range it returns null in
    every process; and no lookup reads outside a table. *)
Theorem name_lookups_bounded (index : Z) (p : process) :
  NDB_CKIND_COUNT ≤ 15 →
  (∀ k, 0 ≤ k < NDB_DBS → is_Some (ndb_db_name k)) →
  ∀ db_count kind_count,
    returned Java_io_nostr_ndk_cache_nostrdb_NostrDB_nativeGetDbCount p
      = Done db_count →
    returned Java_io_nostr_ndk_cache_nostrdb_NostrDB_nativeGetCommonKindCount p
      = Done kind_count →
    let db_name :=
      returned (Java_io_nostr_ndk_cache_nostrdb_NostrDB_nativeGetDbName index) p in
    let kind_name :=
      returned
        (Java_io_nostr_ndk_cache_nostrdb_NostrDB_nativeGetCommonKindName index) p in
    (never_fails p →
       ((∃ name, db_name = Done (Some name)) ↔ 0 ≤ index < db_count)
       ∧ ((∃ name, kind_name = Done (Some name)) ↔ 0 ≤ index < kind_count))
    ∧ (¬ (0 ≤ index < db_count) → db_name = Done None)
    ∧ (¬ (0 ≤ index < kind_count) → kind_name = Done None)
    ∧ db_name ≠ Fault ∧ kind_name ≠ Fault.
Proof.
  intros Hkinds Hnamed db_count kind_count Hdb Hkind db_name kind_name.
  unfold returned in Hdb, Hkind. simpl in Hdb, Hkind.
  injection Hdb as <-. injection Hkind as <-.
  assert (Hdb_out : ¬ (0 ≤ index < NDB_DBS) → db_name = Done None).
  { intros Hout. unfold db_name, returned.
    rewrite nativeGetDbName_out_of_range by exact Hout. reflexivity. }
  assert (Hkind_out : ¬ (0 ≤ index < NDB_CKIND_COUNT) → kind_name = Done None).
  { intros Hout. unfold kind_name, returned.
    rewrite nativeGetCommonKindName_out_of_range by exact Hout. reflexivity. }
  assert (Hdb_in : 0 ≤ index < NDB_DBS →
            ∃ name, db_name
                    = Done (if alloc_ok p 0%nat then Some name else None)).
  { intros Hin. destruct (Hnamed index Hin) as [name Hname].
    exists name. unfold db_name, returned.
    rewrite nativeGetDbName_in_range, Hname by exact Hin.
    apply NewStringUTF_no_fault. }
  assert (Hkind_in : 0 ≤ index < NDB_CKIND_COUNT →
            ∃ name, kind_name
                    = Done (if alloc_ok p 0%nat then Some name else None)).
  { intros Hin.
    destruct (nativeGetCommonKindName_in_range index p Hin Hkinds)
      as (name & _ & Hrun).
    exists name. unfold kind_name, returned. rewrite Hrun.
    apply NewStringUTF_no_fault. }
  split; [intros Hp; split; split | repeat split].
  - intros [name Hsome].
    destruct (decide (0 ≤ index < NDB_DBS)) as [Hin|Hout]; [exact Hin|].
    rewrite (Hdb_out Hout) in Hsome. discriminate.
  - intros Hin. destruct (Hdb_in Hin) as [name Hrun].
    exists name. rewrite Hrun, (Hp 0%nat). reflexivity.
  - intros [name Hsome].
    destruct (decide (0 ≤ index < NDB_CKIND_COUNT)) as [Hin|Hout]; [exact Hin|].
    rewrite (Hkind_out Hout) in Hsome. discriminate.
  - intros Hin. destruct (Hkind_in Hin) as [name Hrun].
    exists name. rewrite Hrun, (Hp 0%nat). reflexivity.
  - exact Hdb_out.
  - exact Hkind_out.
  - destruct (decide (0 ≤ index < NDB_DBS)) as [Hin|Hout].
    + destruct (Hdb_in Hin) as [name ->]. discriminate.
    + rewrite (Hdb_out Hout). discriminate.
  - destruct (decide (0 ≤ index < NDB_CKIND_COUNT)) as [Hin|Hout].
    + destruct (Hkind_in Hin) as [name ->]. discriminate.
    + rewrite (Hkind_out Hout). discriminate.
Qed.

End names.

(** ** Hexadecimal rendering *)

Lemma unhex_sprintf_02x (b : byte) (rest : string) :
  unhex (sprintf_02x b ++ rest) = (bs ← unhex rest; Some (b :: bs)).
Proof. destruct b; reflexivity. Qed.

Lemma unhex_bytes (id : list byte) (js : list nat) :
  unhex (fold_right (λ j hex, sprintf_02x (nth j id Byte.x00) ++ hex)%string
           EmptyString js)
  = Some ((λ j, nth j id Byte.x00) <$> js).
Proof.
  induction js as [|j js IH]; [reflexivity|].
  cbn [fold_right]. rewrite unhex_sprintf_02x, IH. reflexivity.
Qed.

Lemma sprintf_02x_length (b : byte) (rest : string) :
  String.length (sprintf_02x b ++ rest) = S (S (String.length rest)).
Proof. reflexivity. Qed.

Lemma hex_length (id : list byte) (js : list nat) :
  String.length
    (fold_right (λ j hex, sprintf_02x (nth j id Byte.x00) ++ hex)%string
       EmptyString js)
  = (2 * length js)%nat.
Proof.
  induction js as [|j js IH]; [reflexivity|].
  cbn [fold_right length]. rewrite sprintf_02x_length, IH. lia.
Qed.

Lemma nth_seq_all {A : Type} (l : list A) (d : A) :
  (λ j, nth j l d) <$> seq 0 (length l) = l.
Proof.
  apply list_eq. intros i.
  rewrite list_lookup_fmap.
  destruct (decide (i < length l)%nat) as [Hi|Hi].
  - rewrite lookup_seq_lt by exact Hi. simpl.
    destruct (lookup_lt_is_Some_2 l i Hi) as [x Hx].
    rewrite Hx. f_equal. apply nth_lookup_Some with (d := d) in Hx. exact Hx.
  - rewrite lookup_seq_ge by lia. simpl.
    symmetry. apply lookup_ge_None. lia.
Qed.

Lemma hex_of_id_32 (id : list byte) :
  length id = 32%nat →
  String.length (hex_of_id id) = 64%nat ∧ unhex (hex_of_id id) = Some id.
Proof.
  intros Hlen. unfold hex_of_id. split.
  - rewrite hex_length. reflexivity.
  - rewrite unhex_bytes. rewrite <- Hlen at 1. rewrite nth_seq_all. reflexivity.
Qed.

(** ** nativeNoteTags *)

Section tags.
Context `{Nostrdb}.

Lemma to_uint16_small (z : Z) : 0 ≤ z < 65536 → to_uint16 z = z.
Proof. intros Hz. unfold to_uint16, wrap_unsigned. apply Z.mod_small. lia. Qed.

Lemma cells_done {A B : Type} (f : A → B) (d : B) (l : list A) :
  (λ i, default d (f <$> l !! i)) <$> seq 0 (length l) = f <$> l.
Proof.
  apply list_eq. intros i. rewrite !list_lookup_fmap.
  destruct (decide (i < length l)%nat) as [Hi|Hi].
  - rewrite lookup_seq_lt by exact Hi. simpl.
    destruct (lookup_lt_is_Some_2 l i Hi) as [x Hx]. rewrite Hx. reflexivity.
  - rewrite lookup_seq_ge by lia.
    rewrite (proj2 (lookup_ge_None l i)) by lia. reflexivity.
Qed.

Lemma quiet_tag_elements (tag : list ndb_str) (rest : list (list ndb_str)) :
  quiet
    (for_loop (Z.of_nat (length tag))
       (tag_element {| iter_tag := tag; iter_rest := rest |})
       (replicate (Z.to_nat (Z.of_nat (length tag))) None))
    (element_string <$> tag).
Proof.
  set (v := λ i : nat, default None (element_string <$> tag !! i)).
  set (g := λ k : nat, (v <$> seq 0 k) ++ replicate (length tag - k) None).
  rewrite Nat2Z.id.
  replace (replicate (length tag) None) with (g 0%nat)
    by (unfold g; simpl; rewrite Nat.sub_0_r; reflexivity).
  replace (element_string <$> tag) with (g (Z.to_nat (Z.of_nat (length tag)))).
  2:{ unfold g. rewrite Nat2Z.id, Nat.sub_diag. simpl. rewrite app_nil_r.
      apply cells_done. }
  apply quiet_for_loop. rewrite Nat2Z.id. intros k Hk.
  assert (Hstep : <[k := v k]> (g k) = g (S k))
    by (apply insert_next_cell; exact Hk).
  assert (Hlen : (k < length (g k))%nat).
  { unfold g. rewrite length_app, length_fmap, length_seq, length_replicate. lia. }
  destruct (lookup_lt_is_Some_2 tag k Hk) as [e He].
  unfold tag_element, ndb_iter_tag_str. cbn [iter_tag].
  replace (0 <=? Z.of_nat k) with true by (symmetry; apply Z.leb_le; lia).
  rewrite Nat2Z.id, He.
  assert (Hv : v k = element_string e) by (unfold v; rewrite He; reflexivity).
  destruct e as [[str|]|[id|]]; cbn [element_string] in Hv.
  - eapply quiet_bind; [apply quiet_NewStringUTF|].
    rewrite <- Hstep, Hv. apply pure_quiet, pure_array_set. exact Hlen.
  - rewrite <- Hstep, Hv.
    rewrite list_insert_id; [apply quiet_ret|].
    unfold g. rewrite lookup_app_r by (rewrite length_fmap, length_seq; lia).
    rewrite length_fmap, length_seq, Nat.sub_diag.
    apply lookup_replicate_2. lia.
  - eapply quiet_bind; [apply quiet_NewStringUTF|].
    rewrite <- Hstep, Hv. apply pure_quiet, pure_array_set. exact Hlen.
  - rewrite <- Hstep, Hv.
    rewrite list_insert_id; [apply quiet_ret|].
    unfold g. rewrite lookup_app_r by (rewrite length_fmap, length_seq; lia).
    rewrite length_fmap, length_seq, Nat.sub_diag.
    apply lookup_replicate_2. lia.
Qed.

(** The head of [rest] is what ndb_tags_iterate_next moves to. *)
Lemma tags_loop_follows_iterator (tag visited : list ndb_str)
    (rest : list (list ndb_str)) :
  ndb_tags_iterate_next {| iter_tag := visited; iter_rest := tag :: rest |}
  = (true, {| iter_tag := tag; iter_rest := rest |})
  ∧ ndb_tags_iterate_next {| iter_tag := visited; iter_rest := [] |}
    = (false, {| iter_tag := visited; iter_rest := [] |}).
Proof. split; reflexivity. Qed.

Lemma quiet_tags_loop (rest : list (list ndb_str)) :
  Forall (λ tag, Z.of_nat (length tag) < 65536) rest →
  ∀ done : jtag_array,
    quiet
      (tags_loop (Z.of_nat (length done + length rest)) rest
         (done ++ replicate (length rest) None) (Z.of_nat (length done)))
      (done ++ (tag_strings <$> rest)).
Proof.
  induction 1 as [|tag rest Htag _ IH]; intros done.
  - simpl. apply quiet_ret.
  - cbn [tags_loop].
    replace (Z.of_nat (length done) <? Z.of_nat (length done + length (tag :: rest)))
      with true by (symmetry; apply Z.ltb_lt; simpl; lia).
    cbv beta iota delta [negb].
    unfold ndb_tag_count. rewrite to_uint16_small by lia.
    eapply quiet_bind; [apply quiet_NewArray; lia|].
    cbv beta iota delta [negb].
    eapply quiet_bind; [apply quiet_tag_elements|].
    eapply quiet_bind.
    { cbn [replicate length]. apply pure_quiet, pure_array_set_middle. }
    change (Some (element_string <$> tag)) with (tag_strings tag).
    replace (done ++ tag_strings tag :: replicate (length rest) None)
      with ((done ++ [tag_strings tag])
              ++ replicate (length rest) None)
      by (rewrite <- app_assoc; reflexivity).
    replace (Z.of_nat (length done) + 1)
      with (Z.of_nat (length (done ++ [tag_strings tag])))
      by (rewrite length_app; simpl; lia).
    replace (length done + length (tag :: rest))%nat
      with (length (done ++ [tag_strings tag]) + length rest)%nat
      by (rewrite length_app; simpl; lia).
    replace (done ++ (tag_strings <$> tag :: rest))
      with ((done ++ [tag_strings tag])
              ++ (tag_strings <$> rest))
      by (rewrite <- app_assoc; reflexivity).
    apply IH.
Qed.

Lemma nativeNoteTags_of_tagless (ndb_ptr : Z) (txn : ndb_txn) (note_key : Z)
    (note : ndb_note) (p : process) :
  (ndb_get_note_by_key txn (to_uint64 note_key)).1 = Some note →
  note_tags note = [] →
  Java_io_nostr_ndk_cache_nostrdb_NostrDB_nativeNoteTags
    ndb_ptr (Some txn) note_key p = (Done None, p).
Proof.
  intros Hnote Htags.
  unfold Java_io_nostr_ndk_cache_nostrdb_NostrDB_nativeNoteTags.
  destruct (ndb_ptr =? 0); [reflexivity|].
  destruct (ndb_get_note_by_key txn (to_uint64 note_key)) as [n len].
  simpl in Hnote. subst n.
  unfold ndb_note_tags. rewrite Htags. reflexivity.
Qed.

Lemma nativeNoteTags_of_absent (ndb_ptr : Z) (txn : ndb_txn) (note_key : Z)
    (p : process) :
  (ndb_get_note_by_key txn (to_uint64 note_key)).1 = None →
  Java_io_nostr_ndk_cache_nostrdb_NostrDB_nativeNoteTags
    ndb_ptr (Some txn) note_key p = (Done None, p).
Proof.
  intros Hnote.
  unfold Java_io_nostr_ndk_cache_nostrdb_NostrDB_nativeNoteTags.
  destruct (ndb_ptr =? 0); [reflexivity|].
  destruct (ndb_get_note_by_key txn (to_uint64 note_key)) as [n len].
  simpl in Hnote. subst n. reflexivity.
Qed.

Lemma quiet_nativeNoteTags (ndb_ptr : Z) (txn : ndb_txn) (note_key : Z)
    (note : ndb_note) :
  ndb_ptr ≠ 0 →
  (ndb_get_note_by_key txn (to_uint64 note_key)).1 = Some note →
  note_tags note ≠ [] →
  Z.of_nat (length (note_tags note)) < 65536 →
  Forall (λ tag, Z.of_nat (length tag) < 65536) (note_tags note) →
  quiet (Java_io_nostr_ndk_cache_nostrdb_NostrDB_nativeNoteTags
           ndb_ptr (Some txn) note_key)
        (Some (tag_strings <$> note_tags note)).
Proof.
  intros Hptr Hnote Hsome Hcount Htags.
  unfold Java_io_nostr_ndk_cache_nostrdb_NostrDB_nativeNoteTags.
  replace (ndb_ptr =? 0) with false by (symmetry; apply Z.eqb_neq; exact Hptr).
  destruct (ndb_get_note_by_key txn (to_uint64 note_key)) as [n len].
  simpl in Hnote. subst n.
  unfold ndb_note_tags, ndb_tags_count, ndb_tags_iterate_start. cbn [iter_rest].
  rewrite to_uint16_small by lia.
  assert (Hpos : (0 < length (note_tags note))%nat).
  { destruct (note_tags note); [contradiction|simpl; lia]. }
  replace (Z.of_nat (length (note_tags note)) =? 0) with false
    by (symmetry; apply Z.eqb_neq; lia).
  eapply quiet_bind; [apply quiet_FindClass|]. cbv beta iota delta [negb].
  eapply quiet_bind; [apply quiet_FindClass|]. cbv beta iota delta [negb].
  eapply quiet_bind; [apply quiet_NewArray; lia|]. cbv beta iota delta [negb].
  eapply quiet_bind; [|apply quiet_ret].
  rewrite Nat2Z.id.
  apply (quiet_tags_loop (note_tags note) Htags []).
Qed.

(** C10. For a stored note with no tags nativeNoteTags returns null, which
    is also what it returns for a key with no note: not an empty array. *)
Theorem nativeNoteTags_tagless_is_null (ndb_ptr : Z) (txn : ndb_txn)
    (note_key absent_key : Z) (note : ndb_note) (p : process) :
  (ndb_get_note_by_key txn (to_uint64 note_key)).1 = Some note →
  note_tags note = [] →
  (ndb_get_note_by_key txn (to_uint64 absent_key)).1 = None →
  returned (Java_io_nostr_ndk_cache_nostrdb_NostrDB_nativeNoteTags
              ndb_ptr (Some txn) note_key) p = Done None
  ∧ returned (Java_io_nostr_ndk_cache_nostrdb_NostrDB_nativeNoteTags
                ndb_ptr (Some txn) absent_key) p = Done None.
Proof.
  intros Hnote Htags Habsent. unfold returned.
  rewrite (nativeNoteTags_of_tagless _ _ _ note) by assumption.
  rewrite nativeNoteTags_of_absent by assumption.
  split; reflexivity.
Qed.

(** C5. Reading the tags of a stored note yields, tag by tag and element
    by element, the inline string unchanged and the packed identifier in
    hexadecimal: 64 characters that read back as its 32 bytes. The text is
    made by the call; the note holds the bytes. (A note without tags
    yields null.) *)
Theorem nativeNoteTags_renders_elements (ndb_ptr : Z) (txn : ndb_txn)
    (note_key : Z) (note : ndb_note) (p : process) :
  ndb_ptr ≠ 0 →
  (ndb_get_note_by_key txn (to_uint64 note_key)).1 = Some note →
  Z.of_nat (length (note_tags note)) < 65536 →
  Forall (λ tag, Z.of_nat (length tag) < 65536) (note_tags note) →
  never_fails p →
  returned (Java_io_nostr_ndk_cache_nostrdb_NostrDB_nativeNoteTags
              ndb_ptr (Some txn) note_key) p
  = Done (match note_tags note with
          | [] => None
          | tags => Some (tag_strings <$> tags)
          end)
  ∧ (∀ str, element_string (NDB_PACKED_STR (Some str)) = Some str)
  ∧ (∀ id, length id = 32%nat →
       ∃ hex, element_string (NDB_PACKED_ID (Some id)) = Some hex
              ∧ String.length hex = 64%nat ∧ unhex hex = Some id).
Proof.
  intros Hptr Hnote Hcount Htags Hp.
  split; [|split].
  - destruct (note_tags note) as [|tag tags] eqn:Hnt.
    + unfold returned.
      rewrite (nativeNoteTags_of_tagless _ _ _ note) by assumption.
      reflexivity.
    + rewrite <- Hnt. apply quiet_returned; [|exact Hp].
      apply quiet_nativeNoteTags; try assumption.
      * rewrite Hnt. discriminate.
      * rewrite Hnt. exact Hcount.
      * rewrite Hnt. exact Htags.
  - reflexivity.
  - intros id Hid. exists (hex_of_id id).
    split; [reflexivity|]. apply hex_of_id_32. exact Hid.
Qed.

End tags.

(** ** nativeQuery and nativePollForNotes, for any engine *)

Section keys.
Context `{Nostrdb}.

#[local] Ltac jni_absurd := unfold mret, jni_ret; simpl; discriminate.

(** The loop that copies [n] cells of [src] through [h] into a block. *)
Lemma pure_copy_loop {A : Type} (src : list A) (h : A → Z) (n : nat) :
  (n ≤ length src)%nat →
  pure_run
    (for_loop (Z.of_nat n)
       (λ i block, x ← array_get src i; store_at block i (h x))
       (Some (replicate (Z.to_nat (Z.of_nat n)) 0)))
    (Some (h <$> take n src)).
Proof.
  intros Hn.
  set (v := λ i : nat, default 0 (h <$> src !! i)).
  set (g := λ k : nat, Some ((v <$> seq 0 k) ++ replicate (n - k) 0)).
  rewrite Nat2Z.id.
  replace (Some (replicate n 0)) with (g 0%nat)
    by (unfold g; simpl; rewrite Nat.sub_0_r; reflexivity).
  replace (Some (h <$> take n src)) with (g (Z.to_nat (Z.of_nat n))).
  2:{ unfold g. rewrite Nat2Z.id, Nat.sub_diag. simpl. rewrite app_nil_r.
      f_equal. apply list_eq. intros i. rewrite !list_lookup_fmap.
      destruct (decide (i < n)%nat) as [Hi|Hi].
      - rewrite lookup_seq_lt by exact Hi. rewrite lookup_take_lt by exact Hi.
        simpl. unfold v.
        destruct (lookup_lt_is_Some_2 src i) as [x Hx]; [lia|].
        rewrite Hx. reflexivity.
      - rewrite lookup_seq_ge by lia. rewrite lookup_take_ge by lia.
        reflexivity. }
  apply pure_for_loop. rewrite Nat2Z.id. intros k Hk.
  destruct (lookup_lt_is_Some_2 src k) as [x Hx]; [lia|].
  eapply pure_bind; [apply pure_array_get; exact Hx|].
  unfold g.
  replace (h x) with (v k) by (unfold v; rewrite Hx; reflexivity).
  rewrite <- (insert_next_cell v 0 k n Hk).
  apply pure_store_at.
  rewrite length_app, length_fmap, length_seq, length_replicate. lia.
Qed.

(** A loop keeps what each of its rounds keeps. *)
Lemma for_upto_invariant {S : Type} (P : S → Prop) (body : Z → S → jni S)
    (n : nat) :
  (∀ i s p s' p', P s → body i s p = (Done s', p') → P s') →
  ∀ i s p s' p', P s → for_upto n i body s p = (Done s', p') → P s'.
Proof.
  intros Hbody. induction n as [|n IH]; intros i s p s' p' Hs Hrun.
  - simpl in Hrun. rewrite run_ret in Hrun. congruence.
  - simpl in Hrun. rewrite run_bind in Hrun.
    destruct (body i s p) as [[s1|] p1] eqn:Hstep; [|jni_absurd].
    eapply IH; [|exact Hrun]. eapply Hbody; eassumption.
Qed.

Lemma store_at_length {A : Type} (block block' : option (list A)) (i : Z)
    (x : A) (n : nat) (p p' : process) :
  (∀ cells, block = Some cells → length cells = n) →
  store_at block i x p = (Done block', p') →
  ∀ cells, block' = Some cells → length cells = n.
Proof.
  intros Hblock Hrun cells ->.
  destruct block as [cells0|]; [|jni_absurd].
  unfold store_at, array_set in Hrun. rewrite run_bind in Hrun.
  destruct ((0 <=? i) && (i <? Z.of_nat (length cells0))); [|jni_absurd].
  rewrite run_ret in Hrun. rewrite run_ret in Hrun.
  injection Hrun as Hcells _. subst cells.
  rewrite length_insert. apply Hblock. reflexivity.
Qed.

(** The copying loop returns a block as long as the one it was given. *)
Lemma copy_loop_length {A : Type} (src : list A) (h : A → Z) (count : Z)
    (block block' : option (list Z)) (n : nat) (p p' : process) :
  (∀ cells, block = Some cells → length cells = n) →
  for_loop count (λ i blk, x ← array_get src i; store_at blk i (h x)) block p
  = (Done block', p') →
  ∀ cells, block' = Some cells → length cells = n.
Proof.
  intros Hblock Hrun. unfold for_loop in Hrun.
  eapply (for_upto_invariant
            (λ blk : option (list Z), ∀ cells, blk = Some cells → length cells = n));
    [|exact Hblock|exact Hrun].
  intros i s q s' q' Hs Hstep. cbv beta in Hstep. rewrite run_bind in Hstep.
  destruct (array_get src i q) as [[x|] q1]; [|jni_absurd].
  eapply store_at_length; eassumption.
Qed.

Lemma malloc_cells_length {A : Type} (n : Z) (x : A) (block : option (list A))
    (p p' : process) :
  malloc_cells n x p = (Done block, p') →
  ∀ cells, block = Some cells → length cells = Z.to_nat n.
Proof.
  unfold malloc_cells. rewrite run_bind.
  destruct (malloc p) as [[[|]|] p1]; rewrite ?run_ret; intros Hrun cells ->;
    try (jni_absurd).
  injection Hrun as <- _. apply length_replicate.
Qed.

Lemma nativeQuery_null_handles (txn_ptr : option ndb_txn)
    (filter_ptr : option ndb_filter) (limit : Z) (p : process) :
  txn_ptr = None ∨ filter_ptr = None →
  returned (Java_io_nostr_ndk_cache_nostrdb_NostrDB_nativeQuery
              txn_ptr filter_ptr limit) p = Done None.
Proof.
  intros [-> | ->]; [reflexivity|]. destruct txn_ptr; reflexivity.
Qed.

Lemma nativeQuery_nothing (txn : ndb_txn) (f : ndb_filter) (limit : Z)
    (p : process) :
  (ndb_query txn f limit).1 ≠ 1 ∨ (ndb_query txn f limit).2 = [] →
  returned (Java_io_nostr_ndk_cache_nostrdb_NostrDB_nativeQuery
              (Some txn) (Some f) limit) p = Done None.
Proof.
  intros Hnone.
  unfold Java_io_nostr_ndk_cache_nostrdb_NostrDB_nativeQuery, returned.
  rewrite run_bind. unfold malloc, alloc at 1. cbv beta iota.
  destruct (alloc_ok p 0%nat); [|reflexivity].
  cbv beta iota delta [negb].
  destruct (ndb_query txn f limit) as [result written]. simpl in Hnone.
  destruct Hnone as [Hresult | ->].
  - replace (result =? 1) with false by (symmetry; apply Z.eqb_neq; exact Hresult).
    reflexivity.
  - simpl. rewrite orb_true_r. reflexivity.
Qed.

Lemma nativeQuery_never_empty (txn_ptr : option ndb_txn)
    (filter_ptr : option ndb_filter) (limit : Z) (p : process) :
  returned (Java_io_nostr_ndk_cache_nostrdb_NostrDB_nativeQuery
              txn_ptr filter_ptr limit) p ≠ Done (Some []).
Proof.
  destruct txn_ptr as [txn|], filter_ptr as [f|]; try (jni_absurd).
  unfold Java_io_nostr_ndk_cache_nostrdb_NostrDB_nativeQuery, returned.
  rewrite run_bind.
  destruct (malloc p) as [[[|]|] p1]; try (jni_absurd).
  change (negb true) with false. cbv beta iota.
  destruct (ndb_query txn f limit) as [result written].
  destruct (negb (result =? 1) || (Z.of_nat (length written) =? 0)) eqn:Hgo;
    [jni_absurd|].
  apply orb_false_elim in Hgo as [_ Hcount]. apply Z.eqb_neq in Hcount.
  rewrite run_bind.
  destruct (NewArray (Z.of_nat (length written)) p1) as [[[|]|] p2];
    try (jni_absurd).
  rewrite run_bind.
  destruct (malloc_cells (Z.of_nat (length written)) 0 p2) as [[block|] p3]
    eqn:Hblock; [|jni_absurd].
  rewrite run_bind.
  destruct (for_loop _ _ block p3) as [[block'|] p4] eqn:Hloop; [|jni_absurd].
  rewrite run_ret. simpl. intros Heq. injection Heq as ->.
  pose proof (copy_loop_length _ _ _ _ _ (Z.to_nat (Z.of_nat (length written)))
                _ _ (malloc_cells_length _ _ _ _ _ Hblock) Hloop [] eq_refl)
    as Hlen.
  simpl in Hlen. lia.
Qed.

Lemma quiet_nativeQuery (txn : ndb_txn) (f : ndb_filter) (limit : Z)
    (written : list ndb_query_result) :
  ndb_query txn f limit = (1, written) → written ≠ [] →
  quiet (Java_io_nostr_ndk_cache_nostrdb_NostrDB_nativeQuery
           (Some txn) (Some f) limit)
        (Some ((λ r, to_jlong (result_note_id r)) <$> written)).
Proof.
  intros Hquery Hsome.
  unfold Java_io_nostr_ndk_cache_nostrdb_NostrDB_nativeQuery.
  eapply quiet_bind; [apply quiet_malloc|]. cbv beta iota delta [negb].
  rewrite Hquery. change (1 =? 1) with true. cbv beta iota delta [negb orb].
  replace (Z.of_nat (length written) =? 0) with false
    by (symmetry; apply Z.eqb_neq; destruct written; [contradiction|simpl; lia]).
  eapply quiet_bind; [apply quiet_NewArray; lia|]. cbv beta iota.
  eapply quiet_bind; [apply quiet_malloc_cells|].
  eapply quiet_bind; [|apply quiet_ret].
  apply pure_quiet.
  rewrite <- (take_ge written (length written)) at 3 by lia.
  apply pure_copy_loop. lia.
Qed.

Lemma nativePollForNotes_nothing (ndb_ptr sub_id max_notes : Z) (p : process) :
  ndb_ptr = 0
  ∨ (ndb_poll_for_notes (engine p) (to_uint64 sub_id) max_notes).1.1 ≤ 0 →
  returned (Java_io_nostr_ndk_cache_nostrdb_NostrDB_nativePollForNotes
              ndb_ptr sub_id max_notes) p = Done None.
Proof.
  intros Hnone.
  unfold Java_io_nostr_ndk_cache_nostrdb_NostrDB_nativePollForNotes, returned.
  destruct (Z.eqb_spec ndb_ptr 0) as [|Hptr]; [reflexivity|].
  destruct Hnone as [|Hcount]; [contradiction|].
  rewrite run_bind. unfold malloc, alloc at 1. cbv beta iota.
  destruct (alloc_ok p 0%nat); [|reflexivity].
  cbv beta iota delta [negb].
  rewrite run_bind, run_get_engine. cbn [engine].
  destruct (ndb_poll_for_notes (engine p) (to_uint64 sub_id) max_notes)
    as [[count written] e'].
  simpl in Hcount. rewrite run_bind. unfold set_engine at 1. cbv beta iota.
  replace (count <=? 0) with true by (symmetry; apply Z.leb_le; exact Hcount).
  reflexivity.
Qed.

Lemma nativePollForNotes_never_empty (ndb_ptr sub_id max_notes : Z)
    (p : process) :
  returned (Java_io_nostr_ndk_cache_nostrdb_NostrDB_nativePollForNotes
              ndb_ptr sub_id max_notes) p ≠ Done (Some []).
Proof.
  unfold Java_io_nostr_ndk_cache_nostrdb_NostrDB_nativePollForNotes, returned.
  destruct (ndb_ptr =? 0); [jni_absurd|].
  rewrite run_bind.
  destruct (malloc p) as [[[|]|] p1]; try (jni_absurd).
  change (negb true) with false. cbv beta iota.
  rewrite run_bind, run_get_engine.
  destruct (ndb_poll_for_notes (engine p1) (to_uint64 sub_id) max_notes)
    as [[count written] e'].
  rewrite run_bind. unfold set_engine at 1. cbv beta iota.
  destruct (Z.leb_spec count 0) as [|Hcount]; [jni_absurd|].
  rewrite run_bind.
  match goal with
  | |- context [NewArray count ?q] =>
    destruct (NewArray count q) as [[[|]|] p2]; try (jni_absurd)
  end.
  rewrite run_bind.
  destruct (malloc_cells count 0 p2) as [[block|] p3] eqn:Hblock;
    [|jni_absurd].
  rewrite run_bind.
  destruct (for_loop _ _ block p3) as [[block'|] p4] eqn:Hloop; [|jni_absurd].
  rewrite run_ret. simpl. intros Heq. injection Heq as ->.
  pose proof (copy_loop_length _ _ _ _ _ (Z.to_nat count)
                _ _ (malloc_cells_length _ _ _ _ _ Hblock) Hloop [] eq_refl)
    as Hlen.
  simpl in Hlen. lia.
Qed.

(** C4, as the bridge has it. When the engine finds no record for a query,
    nativeQuery returns null, which is also what it returns when a handle
    is null or the engine fails; when the engine has no key for a poll,
    nativePollForNotes returns null, as it does for a null handle.
    Neither ever returns an empty array. *)
Theorem nothing_found_is_null (txn : ndb_txn) (f : ndb_filter) (limit : Z)
    (ndb_ptr sub_id max_notes : Z) (p : process) :
  ((ndb_query txn f limit).2 = [] →
   returned (Java_io_nostr_ndk_cache_nostrdb_NostrDB_nativeQuery
               (Some txn) (Some f) limit) p = Done None)
  ∧ ((ndb_poll_for_notes (engine p) (to_uint64 sub_id) max_notes).1.1 ≤ 0 →
     returned (Java_io_nostr_ndk_cache_nostrdb_NostrDB_nativePollForNotes
                 ndb_ptr sub_id max_notes) p = Done None)
  ∧ returned (Java_io_nostr_ndk_cache_nostrdb_NostrDB_nativeQuery
                None (Some f) limit) p = Done None
  ∧ returned (Java_io_nostr_ndk_cache_nostrdb_NostrDB_nativeQuery
                (Some txn) None limit) p = Done None
  ∧ ((ndb_query txn f limit).1 ≠ 1 →
     returned (Java_io_nostr_ndk_cache_nostrdb_NostrDB_nativeQuery
                 (Some txn) (Some f) limit) p = Done None)
  ∧ returned (Java_io_nostr_ndk_cache_nostrdb_NostrDB_nativePollForNotes
                0 sub_id max_notes) p = Done None
  ∧ (∀ txn_ptr filter_ptr,
       returned (Java_io_nostr_ndk_cache_nostrdb_NostrDB_nativeQuery
                   txn_ptr filter_ptr limit) p ≠ Done (Some []))
  ∧ returned (Java_io_nostr_ndk_cache_nostrdb_NostrDB_nativePollForNotes
                ndb_ptr sub_id max_notes) p ≠ Done (Some []).
Proof.
  split; [|split; [|split; [|split; [|split; [|split; [|split]]]]]].
  - intros Hnone. apply nativeQuery_nothing. right. exact Hnone.
  - intros Hnone. apply nativePollForNotes_nothing. right. exact Hnone.
  - apply nativeQuery_null_handles. left. reflexivity.
  - apply nativeQuery_null_handles. right. reflexivity.
  - intros Hfail. apply nativeQuery_nothing. left. exact Hfail.
  - apply nativePollForNotes_nothing. left. reflexivity.
  - intros txn_ptr filter_ptr. apply nativeQuery_never_empty.
  - apply nativePollForNotes_never_empty.
Qed.

End keys.

(** ** The order of query results *)

#[global] Instance newer_first_total : Total newer_first.
Proof. intros [k1 n1] [k2 n2]. unfold newer_first. simpl. lia. Qed.

#[global] Instance newer_first_transitive : Transitive newer_first.
Proof. intros [k1 n1] [k2 n2] [k3 n3]. unfold newer_first. simpl. lia. Qed.

(** ** Matching: AND across fields, OR within a field *)

Lemma filter_matches_and_or (f : filter) (n : ndb_note) :
  filter_matches f n = true
  ↔ ∀ c, c ∈ f → ∃ e, e ∈ elements c ∧ element_matches (field c) e n = true.
Proof.
  unfold filter_matches, criterion_matches. rewrite forallb_forall. split.
  - intros Hall c Hc. apply list_elem_of_In in Hc.
    apply Hall, existsb_exists in Hc as (e & He & Hm).
    exists e. split; [apply list_elem_of_In; exact He | exact Hm].
  - intros Hall c Hc. apply list_elem_of_In in Hc.
    destruct (Hall c Hc) as (e & He & Hm).
    apply existsb_exists. exists e.
    split; [apply list_elem_of_In; exact He | exact Hm].
Qed.

(** ** Queries of the reference engine *)

Lemma spec_matches_elem (txn : gmap Z ndb_note) (f : filter) (r : Z * ndb_note) :
  r ∈ spec_matches txn f
  ↔ txn !! r.1 = Some r.2 ∧ filter_matches f r.2 = true.
Proof.
  unfold spec_matches.
  rewrite list_elem_of_In, filter_In, <- list_elem_of_In, elem_of_map_to_list'.
  reflexivity.
Qed.

Lemma spec_query_sorted (txn : gmap Z ndb_note) (f : filter) (limit : Z) :
  StronglySorted newer_first (spec_query txn f limit).
Proof.
  unfold spec_query.
  pose proof (StronglySorted_merge_sort newer_first (spec_matches txn f)) as Hs.
  rewrite <- (take_drop (Z.to_nat limit)) in Hs.
  apply StronglySorted_app_1_l in Hs. exact Hs.
Qed.

Lemma spec_query_matches (txn : gmap Z ndb_note) (f : filter) (limit : Z)
    (r : Z * ndb_note) :
  r ∈ spec_query txn f limit →
  txn !! r.1 = Some r.2 ∧ filter_matches f r.2 = true.
Proof.
  unfold spec_query. intros Hr.
  apply subseteq_take in Hr. rewrite merge_sort_Permutation in Hr.
  apply spec_matches_elem. exact Hr.
Qed.

Lemma spec_query_length (txn : gmap Z ndb_note) (f : filter) (limit : Z) :
  length (spec_query txn f limit)
  = (Z.to_nat limit `min` length (spec_matches txn f))%nat.
Proof.
  unfold spec_query.
  rewrite length_take, (Permutation_length (merge_sort_Permutation _ _)).
  reflexivity.
Qed.

Lemma spec_query_newest (txn : gmap Z ndb_note) (f : filter) (limit : Z)
    (r : Z * ndb_note) :
  r ∈ spec_matches txn f →
  r ∈ spec_query txn f limit
  ∨ (length (spec_query txn f limit) = Z.to_nat limit
     ∧ ∀ r', r' ∈ spec_query txn f limit → newer_first r' r).
Proof.
  intros Hr. unfold spec_query.
  set (sorted := merge_sort newer_first (spec_matches txn f)).
  assert (Hin : r ∈ sorted)
    by (unfold sorted; rewrite merge_sort_Permutation; exact Hr).
  pose proof (StronglySorted_merge_sort newer_first (spec_matches txn f)) as Hs.
  fold sorted in Hs.
  rewrite <- (take_drop (Z.to_nat limit) sorted) in Hin, Hs.
  apply elem_of_app in Hin as [Hin|Hin]; [left; exact Hin|right].
  split.
  - apply length_take_le.
    destruct (decide (Z.to_nat limit ≤ length sorted)%nat) as [Hle|Hgt];
      [exact Hle|].
    rewrite drop_ge in Hin by lia. inversion Hin.
  - intros r' Hr'.
    apply (StronglySorted_app_1_elem_of newer_first _ _ r' r Hs Hr' Hin).
Qed.

Lemma filter_keys_sublist (g : Z * ndb_note → bool) (l : list (Z * ndb_note)) :
  (List.filter g l).*1 `sublist_of` l.*1.
Proof.
  induction l as [|r l IH]; simpl; [constructor|].
  destruct (g r); simpl; [apply sublist_skip|apply sublist_cons]; exact IH.
Qed.

(** No record is returned twice: the keys of a result are distinct. *)
Lemma spec_query_NoDup (txn : gmap Z ndb_note) (f : filter) (limit : Z) :
  NoDup (spec_query txn f limit).*1.
Proof.
  unfold spec_query.
  eapply sublist_NoDup; [|apply fmap_sublist, sublist_take].
  rewrite merge_sort_Permutation. unfold spec_matches.
  eapply sublist_NoDup; [|apply filter_keys_sublist].
  apply NoDup_fst_map_to_list.
Qed.

(** ** Integer fields, closing and cancelling, for any engine *)

(** For the two fields that are integers, a key with no record reads as
    0 (nativeNoteCreatedAt, nativeNoteKind return no reference). *)
Lemma integer_fields_of_absent_are_zero `{Nostrdb} (ndb_ptr : Z)
    (txn : ndb_txn) (note_key : Z) (p : process) :
  (ndb_get_note_by_key txn (to_uint64 note_key)).1 = None →
  returned (Java_io_nostr_ndk_cache_nostrdb_NostrDB_nativeNoteCreatedAt
              ndb_ptr (Some txn) note_key) p = Done 0
  ∧ returned (Java_io_nostr_ndk_cache_nostrdb_NostrDB_nativeNoteKind
                ndb_ptr (Some txn) note_key) p = Done 0.
Proof.
  intros Hnone.
  unfold Java_io_nostr_ndk_cache_nostrdb_NostrDB_nativeNoteCreatedAt,
    Java_io_nostr_ndk_cache_nostrdb_NostrDB_nativeNoteKind, returned.
  destruct (ndb_ptr =? 0); [split; reflexivity|].
  destruct (ndb_get_note_by_key txn (to_uint64 note_key)) as [n len].
  simpl in Hnone. subst n. split; reflexivity.
Qed.

Lemma nativeDestroy_run `{Nostrdb} (ndb_ptr : Z) (p : process) :
  ndb_ptr ≠ 0 →
  Java_io_nostr_ndk_cache_nostrdb_NostrDB_nativeDestroy ndb_ptr p
  = (Done (),
     {| alloc_ok := alloc_ok p;
        logcat := logcat p ++ [(ANDROID_LOG_INFO, "NostrDB destroyed"%string)];
        engine := ndb_destroy (engine p) |}).
Proof.
  intros Hptr. unfold Java_io_nostr_ndk_cache_nostrdb_NostrDB_nativeDestroy.
  replace (ndb_ptr =? 0) with false by (symmetry; apply Z.eqb_neq; exact Hptr).
  reflexivity.
Qed.

Lemma nativeUnsubscribe_engine `{Nostrdb} (ndb_ptr sub_id : Z) (p : process) :
  ndb_ptr ≠ 0 →
  engine (process_after
            (Java_io_nostr_ndk_cache_nostrdb_NostrDB_nativeUnsubscribe
               ndb_ptr sub_id) p)
  = (ndb_unsubscribe (engine p) (to_uint64 sub_id)).2.
Proof.
  intros Hptr. unfold process_after,
    Java_io_nostr_ndk_cache_nostrdb_NostrDB_nativeUnsubscribe.
  replace (ndb_ptr =? 0) with false by (symmetry; apply Z.eqb_neq; exact Hptr).
  rewrite run_bind, run_get_engine.
  destruct (ndb_unsubscribe (engine p) (to_uint64 sub_id)) as [result e'].
  reflexivity.
Qed.

(** ** The bridge over the reference engine *)

Section reference.
Variable db_names : list string.
Variable note_bytes : ndb_note → list byte.
Variable unknown_code : Z.

#[local] Abbreviation E := (spec_engine db_names note_bytes unknown_code).

(** C1. A query of the reference engine through nativeQuery returns the
    keys of at most [limit] records, no record twice, most recent first
    and ties by descending key; every one is a record of the snapshot that
    matches the filter, field by field (AND) through one of the field's
    elements (OR); and a matching record that is left out is no more
    recent than any returned one, which happens only when [limit] keys
    are returned. So the records returned are the [limit] most recent
    matching ones, or all of them when there are fewer. *)
Theorem query_returns_newest_matches (txn : gmap Z ndb_note) (f : filter)
    (limit : Z) (p : @process E) :
  0 ≤ limit → never_fails p →
  ∃ rs : list (Z * ndb_note),
    keys_returned
      (returned (@Java_io_nostr_ndk_cache_nostrdb_NostrDB_nativeQuery E
                   (Some txn) (Some f) limit) p)
    = Some ((λ r, to_jlong r.1) <$> rs)
    ∧ Z.of_nat (length rs) ≤ limit
    ∧ NoDup rs.*1
    ∧ StronglySorted newer_first rs
    ∧ (∀ r, r ∈ rs →
         txn !! r.1 = Some r.2
         ∧ ∀ c, c ∈ f →
             ∃ e, e ∈ elements c ∧ element_matches (field c) e r.2 = true)
    ∧ (∀ k n, txn !! k = Some n → filter_matches f n = true →
         (k, n) ∈ rs
         ∨ (Z.of_nat (length rs) = limit ∧ ∀ r, r ∈ rs → newer_first r (k, n)))
    ∧ Z.of_nat (length rs)
      = Z.min limit (Z.of_nat (length (spec_matches txn f))).
Proof.
  intros Hlimit Hp. exists (spec_query txn f limit).
  split; [|split; [|split; [|split; [|split; [|split]]]]].
  - destruct (spec_query txn f limit) as [|r rs] eqn:Hrs.
    + match goal with
      | |- context [returned ?m p] =>
        replace (returned m p) with (Done (@None (list Z)))
      end; [reflexivity|].
      symmetry. apply (@nativeQuery_nothing E).
      right. cbn. rewrite Hrs. reflexivity.
    + match goal with
      | |- context [returned ?m p] =>
        replace (returned m p)
          with (Done (Some ((λ r0 : Z * ndb_note, to_jlong r0.1) <$> r :: rs)))
      end; [reflexivity|].
      symmetry. apply (@quiet_returned E); [|exact Hp].
      rewrite <- Hrs.
      replace ((λ r0 : Z * ndb_note, to_jlong r0.1) <$> spec_query txn f limit)
        with ((λ r0, to_jlong (result_note_id r0))
                <$> (result_of_record <$> spec_query txn f limit))
        by (rewrite <- list_fmap_compose; reflexivity).
      apply (@quiet_nativeQuery E); [reflexivity|].
      rewrite Hrs. discriminate.
  - rewrite spec_query_length. lia.
  - apply spec_query_NoDup.
  - apply spec_query_sorted.
  - intros r Hr. apply spec_query_matches in Hr as [Hin Hm].
    split; [exact Hin|]. apply filter_matches_and_or. exact Hm.
  - intros k n Hk Hm.
    destruct (spec_query_newest txn f limit (k, n)) as [Hin|[Hlen Hnew]].
    + apply spec_matches_elem. split; assumption.
    + left. exact Hin.
    + right. split; [lia|exact Hnew].
  - rewrite spec_query_length. lia.
Qed.

Lemma spec_get_by_identifier_absent (txn : gmap Z ndb_note) (id : list byte) :
  length id = 32%nat →
  (∀ k n, txn !! k = Some n → note_id n ≠ id) →
  spec_get_by_identifier txn id = None.
Proof.
  intros Hlen Habsent. unfold spec_get_by_identifier.
  rewrite take_ge by lia.
  replace (list_find (λ r : Z * ndb_note, note_id r.2 = id) (map_to_list txn))
    with (@None (nat * (Z * ndb_note))); [reflexivity|].
  symmetry. apply list_find_None, Forall_forall.
  intros [k n] Hin. apply elem_of_map_to_list in Hin. simpl.
  apply (Habsent k n Hin).
Qed.

(** C6. In every process, looking up an identifier that no record of the
    snapshot has returns null from nativeGetNoteById, and reading a field
    of a key that has no record returns null from nativeNoteContent,
    nativeNoteId, nativeNotePubkey, nativeNoteSig and nativeNoteTags:
    none of them goes wrong. *)
Theorem lookups_of_absent_are_null (ndb_ptr : Z) (txn : gmap Z ndb_note)
    (id : list byte) (note_key : Z) (p : @process E) :
  length id = 32%nat →
  (∀ k n, txn !! k = Some n → note_id n ≠ id) →
  txn !! to_uint64 note_key = None →
  returned (@Java_io_nostr_ndk_cache_nostrdb_NostrDB_nativeGetNoteById E
              ndb_ptr (Some txn) id) p = Done None
  ∧ returned (@Java_io_nostr_ndk_cache_nostrdb_NostrDB_nativeNoteContent E
                ndb_ptr (Some txn) note_key) p = Done None
  ∧ returned (@Java_io_nostr_ndk_cache_nostrdb_NostrDB_nativeNoteId E
                ndb_ptr (Some txn) note_key) p = Done None
  ∧ returned (@Java_io_nostr_ndk_cache_nostrdb_NostrDB_nativeNotePubkey E
                ndb_ptr (Some txn) note_key) p = Done None
  ∧ returned (@Java_io_nostr_ndk_cache_nostrdb_NostrDB_nativeNoteSig E
                ndb_ptr (Some txn) note_key) p = Done None
  ∧ returned (@Java_io_nostr_ndk_cache_nostrdb_NostrDB_nativeNoteTags E
                ndb_ptr (Some txn) note_key) p = Done None.
Proof.
  intros Hlen Hid Hkey.
  assert (Hlookup : @ndb_get_note_by_key E txn (to_uint64 note_key) = (None, 0)).
  { cbn. unfold spec_get_by_key. rewrite Hkey. reflexivity. }
  split; [|repeat split].
  - unfold Java_io_nostr_ndk_cache_nostrdb_NostrDB_nativeGetNoteById, returned.
    destruct (ndb_ptr =? 0); [reflexivity|].
    rewrite run_bind. unfold alloc at 1. cbv beta iota.
    destruct (alloc_ok p 0%nat); [|reflexivity].
    change (negb true) with false. cbv beta iota.
    cbn [ndb_get_note_by_id spec_engine].
    rewrite spec_get_by_identifier_absent by assumption. reflexivity.
  - unfold Java_io_nostr_ndk_cache_nostrdb_NostrDB_nativeNoteContent, returned.
    destruct (ndb_ptr =? 0); [reflexivity|]. rewrite Hlookup. reflexivity.
  - unfold Java_io_nostr_ndk_cache_nostrdb_NostrDB_nativeNoteId, returned.
    destruct (ndb_ptr =? 0); [reflexivity|]. rewrite Hlookup. reflexivity.
  - unfold Java_io_nostr_ndk_cache_nostrdb_NostrDB_nativeNotePubkey, returned.
    destruct (ndb_ptr =? 0); [reflexivity|]. rewrite Hlookup. reflexivity.
  - unfold Java_io_nostr_ndk_cache_nostrdb_NostrDB_nativeNoteSig, returned.
    destruct (ndb_ptr =? 0); [reflexivity|]. rewrite Hlookup. reflexivity.
  - unfold returned. rewrite (@nativeNoteTags_of_absent E); [reflexivity|].
    rewrite Hlookup. reflexivity.
Qed.

(** C2, as the bridge has it. nativeDestroy hands the engine to
    ndb_destroy, returns nothing and logs "NostrDB destroyed", whether or
    not snapshots are open. With a snapshot open the reference engine
    refuses and stays as it was; it is closed only when none is open. *)
Theorem nativeDestroy_returns_nothing (ndb_ptr : Z) (p : @process E) :
  ndb_ptr ≠ 0 →
  let after :=
    process_after
      (@Java_io_nostr_ndk_cache_nostrdb_NostrDB_nativeDestroy E ndb_ptr) p in
  returned (@Java_io_nostr_ndk_cache_nostrdb_NostrDB_nativeDestroy E ndb_ptr) p
  = Done ()
  ∧ logcat after
    = logcat p ++ [(ANDROID_LOG_INFO, "NostrDB destroyed"%string)]
  ∧ engine after = (spec_close (engine p)).2
  ∧ ((0 < snapshots (engine p))%nat → engine after = engine p)
  ∧ (snapshots (engine p) = 0%nat → closed (engine after) = true).
Proof.
  intros Hptr after. unfold after, returned, process_after.
  rewrite (@nativeDestroy_run E) by exact Hptr.
  cbn [fst snd logcat engine]. cbn [ndb_destroy spec_engine].
  unfold spec_close.
  repeat split.
  - intros Hopen.
    replace (0 <? snapshots (engine p))%nat with true
      by (symmetry; apply Nat.ltb_lt; exact Hopen).
    reflexivity.
  - intros Hnone. rewrite Hnone. reflexivity.
Qed.

Lemma spec_poll_count_unknown (e : spec_ndb) (subid max_count : Z) :
  subscriptions e !! subid = None →
  (@ndb_poll_for_notes E e subid max_count).1.1 = unknown_code.
Proof.
  intros Hnone. cbn. unfold spec_poll. rewrite Hnone. reflexivity.
Qed.

Lemma spec_poll_count_empty (e : spec_ndb) (subid max_count : Z) (f : filter) :
  subscriptions e !! subid = Some (f, []) →
  (@ndb_poll_for_notes E e subid max_count).1.1 = 0.
Proof.
  intros Hlive. cbn. unfold spec_poll. rewrite Hlive.
  rewrite take_nil. reflexivity.
Qed.

Lemma spec_unsubscribe_cancels (e : spec_ndb) (subid : Z) :
  subscriptions (spec_unsubscribe e subid).2 !! subid = None.
Proof.
  unfold spec_unsubscribe.
  destruct (subscriptions e !! subid) eqn:Hsub; cbn.
  - apply lookup_delete_eq.
  - exact Hsub.
Qed.

(** C3, as the bridge has it. When the engine reports an unknown
    subscription by a count that is not positive, polling an identifier
    that is not a live subscription (never handed out, or cancelled by
    nativeUnsubscribe) returns null, and so does polling a live
    subscription with nothing pending: the two cannot be told apart, and
    no error is raised. *)
Theorem poll_of_unknown_is_null (ndb_ptr unknown_id max_notes : Z)
    (p : @process E) :
  unknown_code ≤ 0 →
  subscriptions (engine p) !! to_uint64 unknown_id = None →
  returned (@Java_io_nostr_ndk_cache_nostrdb_NostrDB_nativePollForNotes E
              ndb_ptr unknown_id max_notes) p = Done None
  ∧ (∀ live_id f,
       subscriptions (engine p) !! to_uint64 live_id = Some (f, []) →
       returned (@Java_io_nostr_ndk_cache_nostrdb_NostrDB_nativePollForNotes E
                   ndb_ptr live_id max_notes) p = Done None)
  ∧ (∀ sub_id, ndb_ptr ≠ 0 →
       subscriptions
         (engine (process_after
                    (@Java_io_nostr_ndk_cache_nostrdb_NostrDB_nativeUnsubscribe
                       E ndb_ptr sub_id) p))
       !! to_uint64 sub_id = None).
Proof.
  intros Hcode Hunknown. split; [|split].
  - apply (@nativePollForNotes_nothing E). right.
    rewrite spec_poll_count_unknown by exact Hunknown. exact Hcode.
  - intros live_id f Hlive.
    apply (@nativePollForNotes_nothing E). right.
    rewrite (spec_poll_count_empty _ _ _ f) by exact Hlive. lia.
  - intros sub_id Hptr.
    rewrite (@nativeUnsubscribe_engine E) by exact Hptr.
    apply spec_unsubscribe_cancels.
Qed.

End reference.

(** ** Running native code in any process *)

Lemma to_uint64_to_jlong (k : Z) : to_uint64 (to_jlong k) = to_uint64 k.
Proof.
  unfold to_uint64, to_jlong, wrap_unsigned, wrap_signed.
  rewrite Zminus_mod_idemp_l. f_equal. lia.
Qed.

Lemma to_uint64_small (k : Z) : 0 ≤ k < 2 ^ 64 → to_uint64 k = k.
Proof. intros Hk. unfold to_uint64, wrap_unsigned. apply Z.mod_small. exact Hk. Qed.

Lemma to_jlong_small (k : Z) : - 2 ^ 63 ≤ k < 2 ^ 63 → to_jlong k = k.
Proof.
  intros Hk. unfold to_jlong, wrap_signed.
  change (2 ^ (64 - 1)) with (2 ^ 63).
  rewrite Z.mod_small by lia. lia.
Qed.

Lemma to_jint_small (k : Z) : - 2 ^ 31 ≤ k < 2 ^ 31 → to_jint k = k.
Proof.
  intros Hk. unfold to_jint, wrap_signed.
  change (2 ^ (32 - 1)) with (2 ^ 31).
  rewrite Z.mod_small by lia. lia.
Qed.

Section run.
Context `{Nostrdb}.

Lemma run_alloc (p : process) :
  alloc p = (Done (alloc_ok p 0%nat),
             {| alloc_ok := λ n, alloc_ok p (S n);
                logcat := logcat p; engine := engine p |}).
Proof. reflexivity. Qed.

Lemma run_NewArray (len : Z) (p : process) :
  0 ≤ len →
  NewArray len p
  = (Done (alloc_ok p 0%nat),
     {| alloc_ok := λ n, alloc_ok p (S n);
        logcat := logcat p; engine := engine p |}).
Proof.
  intros Hlen. unfold NewArray.
  replace (len <? 0) with false by (symmetry; apply Z.ltb_ge; lia).
  reflexivity.
Qed.

Lemma run_NewArray_negative (len : Z) (p : process) :
  len < 0 → NewArray len p = (Done false, p).
Proof.
  intros Hlen. unfold NewArray.
  replace (len <? 0) with true by (symmetry; apply Z.ltb_lt; lia).
  reflexivity.
Qed.

Lemma run_set_engine (e : ndb) (p : process) :
  set_engine e p
  = (Done (), {| alloc_ok := alloc_ok p; logcat := logcat p; engine := e |}).
Proof. reflexivity. Qed.

(** A loop each round of which returns and keeps [I] returns and keeps
    [I], whatever requests for memory fail. *)
Lemma for_upto_always {S : Type} (I : S → Prop) (body : Z → S → jni S)
    (n : nat) :
  ∀ (from : nat),
    (∀ (k : nat) (s : S) (p : process), (from ≤ k < from + n)%nat → I s →
       ∃ s' p', body (Z.of_nat k) s p = (Done s', p') ∧ I s') →
    ∀ (s : S) (p : process), I s →
      ∃ s' p', for_upto n (Z.of_nat from) body s p = (Done s', p') ∧ I s'.
Proof.
  induction n as [|n IH]; intros from Hbody s p Hs.
  - exists s, p. split; [reflexivity|exact Hs].
  - simpl for_upto. rewrite run_bind.
    destruct (Hbody from s p ltac:(lia) Hs) as (s1 & p1 & -> & Hs1).
    replace (Z.of_nat from + 1) with (Z.of_nat (Datatypes.S from)) by lia.
    apply IH; [|exact Hs1].
    intros k s2 p2 Hk. apply Hbody. lia.
Qed.

(** A loop that stores through a null pointer goes wrong in its first
    round. *)
Lemma copy_loop_null {A : Type} (src : list A) (h : A → Z) (count : Z)
    (p : process) :
  0 < count →
  for_loop count (λ i block, x ← array_get src i; store_at block i (h x))
    None p
  = (Fault, p).
Proof.
  intros Hcount. unfold for_loop.
  destruct (Z.to_nat count) as [|n] eqn:Hn; [lia|].
  simpl for_upto. rewrite !run_bind.
  unfold array_get. change (0 <=? 0) with true. cbv iota.
  destruct (src !! Z.to_nat 0) as [x|]; reflexivity.
Qed.

End run.

(** ** json_escape_string: the exact text, JSON strings, small buffers *)

Lemma escape_upto_not_NUL (room : Z) (src : list ascii) :
  Forall (λ x, x ≠ NUL) (escape_upto room src).
Proof.
  revert room. induction src as [|c src IH]; intros room; simpl; [constructor|].
  destruct (Ascii.eqb_spec c NUL) as [|Hc]; [constructor|].
  destruct (room <=? 0); [constructor|].
  apply Forall_app. split; [apply escape_char_not_NUL; exact Hc | apply IH].
Qed.

Lemma c_str_holding (text old : list ascii) :
  Forall (λ x, x ≠ NUL) text → c_str (holding text old) = text.
Proof. intros Htext. unfold holding. apply c_str_terminated. exact Htext. Qed.

Lemma holding_length (text old : list ascii) :
  (length text < length old)%nat → length (holding text old) = length old.
Proof.
  intros Hlen. unfold holding. rewrite length_app. simpl.
  rewrite length_drop. lia.
Qed.

(** The loop writes [escape_upto] after what the buffer holds at [di] and
    touches nothing else. *)
Lemma json_escape_loop_exact (dest_size : Z) (src : list ascii) :
  2 ≤ dest_size → dest_size < 2 ^ 64 →
  ∀ out rest : list ascii,
    dest_size ≤ Z.of_nat (length (out ++ rest)) →
    Z.of_nat (length out) ≤ dest_size - 1 →
    let w := escape_upto (dest_size - 2 - Z.of_nat (length out)) src in
    json_escape_loop dest_size src (out ++ rest) (Z.of_nat (length out))
    = Some ((out ++ w) ++ drop (length w) rest, Z.of_nat (length (out ++ w)))
    ∧ Z.of_nat (length (out ++ w)) ≤ dest_size - 1.
Proof.
  intros Hmin Hmax.
  induction src as [|c src IH]; intros out rest Hbuf Hdi; cbv zeta.
  - simpl. rewrite app_nil_r, drop_0. split; [reflexivity|lia].
  - destruct (Ascii.eqb_spec c NUL) as [->|Hc].
    { simpl. rewrite app_nil_r, drop_0. split; [reflexivity|lia]. }
    assert (Hupto : ∀ room,
      escape_upto room (c :: src)
      = if room <=? 0 then []
        else escape_char c
             ++ escape_upto (room - Z.of_nat (length (escape_char c))) src).
    { intros room. simpl.
      destruct (Ascii.eqb_spec c NUL); [contradiction|reflexivity]. }
    rewrite Hupto. clear Hupto.
    destruct (Z.leb_spec (dest_size - 2 - Z.of_nat (length out)) 0)
      as [Hfull|Hroom].
    + simpl json_escape_loop.
      destruct (Ascii.eqb_spec c NUL); [contradiction|].
      rewrite size_t_small by lia.
      replace (Z.of_nat (length out) <? dest_size - 2) with false
        by (symmetry; apply Z.ltb_ge; lia).
      simpl. rewrite app_nil_r, drop_0. split; [reflexivity|lia].
    + rewrite json_escape_loop_cons by (try assumption; lia).
      pose proof (escape_char_length c) as Hle.
      assert (Hk : (length (escape_char c) ≤ length rest)%nat).
      { rewrite length_app in Hbuf. lia. }
      rewrite store_all_middle by exact Hk. simpl.
      replace (out ++ escape_char c ++ drop (length (escape_char c)) rest)
        with ((out ++ escape_char c) ++ drop (length (escape_char c)) rest)
        by (rewrite <- app_assoc; reflexivity).
      replace (Z.of_nat (length out) + Z.of_nat (length (escape_char c)))
        with (Z.of_nat (length (out ++ escape_char c)))
        by (rewrite length_app; lia).
      destruct (IH (out ++ escape_char c) (drop (length (escape_char c)) rest))
        as [Hloop Hend].
      { rewrite !length_app, length_drop. rewrite length_app in Hbuf. lia. }
      { rewrite length_app. lia. }
      cbv zeta in Hloop, Hend.
      replace (dest_size - 2 - Z.of_nat (length (out ++ escape_char c)))
        with (dest_size - 2 - Z.of_nat (length out)
              - Z.of_nat (length (escape_char c))) in Hloop, Hend
        by (rewrite length_app; lia).
      rewrite Hloop.
      rewrite drop_drop, <- !app_assoc in *.
      rewrite (length_app (escape_char c)).
      split; [reflexivity|exact Hend].
Qed.

(** json_escape_string leaves the text [escape_upto] and its NUL at the
    start of the buffer, and the rest of the buffer as it was. *)
Lemma json_escape_string_exact (dest src : list ascii) (dest_size : Z) :
  2 ≤ dest_size → dest_size < 2 ^ 64 →
  dest_size ≤ Z.of_nat (length dest) →
  json_escape_string dest dest_size (Some src)
  = Some (holding (escape_upto (dest_size - 2) src) dest)
  ∧ Z.of_nat (length (escape_upto (dest_size - 2) src)) < dest_size.
Proof.
  intros Hmin Hmax Hbuf.
  destruct (json_escape_loop_exact dest_size src Hmin Hmax [] dest)
    as [Hloop Hend].
  { exact Hbuf. }
  { simpl. lia. }
  cbv zeta in Hloop, Hend.
  change (Z.of_nat (length (@nil ascii))) with 0 in Hloop, Hend.
  rewrite Z.sub_0_r in Hloop, Hend.
  set (w := escape_upto (dest_size - 2) src) in *.
  change ([] ++ dest) with dest in Hloop.
  change ([] ++ w) with w in Hloop, Hend.
  split; [|lia].
  unfold json_escape_string. rewrite Hloop.
  cbn [mbind option_bind].
  destruct (drop (length w) dest) as [|c0 rest'] eqn:Hdrop.
  { apply (f_equal length) in Hdrop. rewrite length_drop in Hdrop.
    simpl in Hdrop. lia. }
  rewrite store_middle. unfold holding. do 3 f_equal.
  replace (S (length w)) with (1 + length w)%nat by lia.
  rewrite Nat.add_comm, <- drop_drop, Hdrop. reflexivity.
Qed.

(** Where the loop stops: at the first character before which the output
    has reached [room] characters. *)
Lemma escape_upto_cut (room : Z) (src : list ascii) :
  ∃ n : nat,
    escape_upto room src = flat_map escape_char (take n (c_str src))
    ∧ (n ≤ length (c_str src))%nat
    ∧ (n = length (c_str src)
       ∨ room ≤ Z.of_nat (length (escape_upto room src)))
    ∧ ∀ m : nat, (m < n)%nat →
        Z.of_nat (length (flat_map escape_char (take m (c_str src)))) < room.
Proof.
  revert room. induction src as [|c src IH]; intros room.
  - exists 0%nat. simpl. repeat split; try lia; try (left; reflexivity).
  - simpl. destruct (Ascii.eqb_spec c NUL) as [|Hc].
    { exists 0%nat. simpl. repeat split; try lia; try (left; reflexivity). }
    destruct (Z.leb_spec room 0) as [Hfull|Hroom].
    { exists 0%nat. simpl. repeat split; try lia; try (right; exact Hfull). }
    destruct (IH (room - Z.of_nat (length (escape_char c))))
      as (n & Hw & Hn & Hstop & Hmin).
    exists (S n). simpl. rewrite <- Hw.
    split; [reflexivity|]. split; [lia|]. split.
    + destruct Hstop as [->|Hstop]; [left; reflexivity|].
      right. rewrite length_app. lia.
    + intros [|m] Hm; simpl; [lia|].
      rewrite length_app. specialize (Hmin m). lia.
Qed.

Lemma escape_upto_whole (room : Z) (s : list ascii) :
  Z.of_nat (length (flat_map escape_char (c_str s))) ≤ room →
  escape_upto room s = flat_map escape_char (c_str s).
Proof.
  revert room. induction s as [|c s IH]; intros room; simpl; [reflexivity|].
  destruct (Ascii.eqb_spec c NUL) as [|Hc]; [reflexivity|].
  simpl. rewrite length_app. intros Hfits.
  destruct (Z.leb_spec room 0) as [Hfull|Hroom].
  - destruct (escape_char c) as [|x l]; [|simpl in Hfits; lia].
    destruct (flat_map escape_char (c_str s)); [reflexivity|simpl in Hfits; lia].
  - rewrite IH by lia. reflexivity.
Qed.

(** What a parser makes of one escaped character. *)
Lemma json_unescape_escape_char (c : ascii) (rest : list ascii) :
  json_unescape (escape_char c ++ rest)
  = (if skipped c then [] else [c]) ++ json_unescape rest.
Proof.
  destruct c as [[] [] [] [] [] [] [] []]; reflexivity.
Qed.

Lemma json_string_body_escape_char (c : ascii) (rest : list ascii) :
  json_string_body (escape_char c ++ rest) = json_string_body rest.
Proof.
  destruct c as [[] [] [] [] [] [] [] []]; reflexivity.
Qed.

Lemma json_unescape_escaped (s : list ascii) :
  json_unescape (flat_map escape_char s)
  = List.filter (λ c, negb (skipped c)) s.
Proof.
  induction s as [|c s IH]; [reflexivity|].
  simpl. rewrite json_unescape_escape_char, IH.
  destruct (skipped c); reflexivity.
Qed.

Lemma json_string_body_escaped (s : list ascii) :
  json_string_body (flat_map escape_char s) = true.
Proof.
  induction s as [|c s IH]; [reflexivity|].
  simpl. rewrite json_string_body_escape_char. exact IH.
Qed.

Lemma filter_take_prefix {A : Type} (f : A → bool) (s : list A) (n : nat) :
  List.filter f (take n s) `prefix_of` List.filter f s.
Proof.
  exists (List.filter f (drop n s)).
  rewrite <- List.filter_app, take_drop. reflexivity.
Qed.

(** A store at or past the end of the buffer: the loop either has nothing
    more to write or leaves the buffer. *)
Lemma json_escape_loop_past_end (dest_size : Z) (src dest : list ascii)
    (di : Z) :
  Z.of_nat (length dest) ≤ di →
  match json_escape_loop dest_size src dest di with
  | Some (d', di') => d' = dest ∧ di' = di
  | None => True
  end.
Proof.
  intros Hdi.
  assert (Hstore : ∀ c, store dest di c = None).
  { intros c. unfold store.
    replace (di <? Z.of_nat (length dest)) with false
      by (symmetry; apply Z.ltb_ge; lia).
    rewrite andb_false_r. reflexivity. }
  induction src as [|c src IH]; simpl; [split; reflexivity|].
  rewrite !Hstore. simpl.
  repeat match goal with
         | |- context [if ?b then _ else _] => destruct b
         end; try exact I; try (split; reflexivity); exact IH.
Qed.

Lemma plain_char (c : ascii) :
  escape_char c = [c] →
  Ascii.eqb c NUL = false
  ∧ Ascii.eqb c DQUOTE || Ascii.eqb c BACKSLASH = false
  ∧ Ascii.eqb c LF = false ∧ Ascii.eqb c CR = false
  ∧ Ascii.eqb c TAB = false ∧ (uchar c <? 32) = false.
Proof.
  destruct c as [[] [] [] [] [] [] [] []]; intros Hc;
    try discriminate Hc; repeat split; reflexivity.
Qed.

(** X1. json_escape_string is exact: for a buffer of [dest_size]
    characters, 2 or more, it leaves at the start of the buffer the
    escaped form of the first [n] characters of the source and a NUL, and
    every cell after that NUL as it was; [n] is the whole source, or the
    first position at which the output has reached [dest_size - 2]
    characters. The text does not depend on what the buffer held. *)
Theorem json_escape_string_cuts_at_first_full (dest src : list ascii)
    (dest_size : Z) :
  2 ≤ dest_size → dest_size < 2 ^ 64 →
  dest_size ≤ Z.of_nat (length dest) →
  ∃ n : nat,
    let text := flat_map escape_char (take n (c_str src)) in
    json_escape_string dest dest_size (Some src) = Some (holding text dest)
    ∧ c_str (holding text dest) = text
    ∧ text = escape_upto (dest_size - 2) src
    ∧ (n ≤ length (c_str src))%nat
    ∧ (n = length (c_str src) ∨ dest_size - 2 ≤ Z.of_nat (length text))
    ∧ (∀ m : nat, (m < n)%nat →
         Z.of_nat (length (flat_map escape_char (take m (c_str src))))
         < dest_size - 2)
    ∧ (∀ other : list ascii, dest_size ≤ Z.of_nat (length other) →
         c_str <$> json_escape_string other dest_size (Some src)
         = Some text).
Proof.
  intros Hmin Hmax Hbuf.
  destruct (escape_upto_cut (dest_size - 2) src)
    as (n & Hw & Hn & Hstop & Hleast).
  destruct (json_escape_string_exact dest src dest_size Hmin Hmax Hbuf)
    as [Hrun Hlen].
  pose proof (escape_upto_not_NUL (dest_size - 2) src) as Hnn.
  exists n. cbv zeta. rewrite <- Hw.
  split; [exact Hrun|]. split; [apply c_str_holding; exact Hnn|].
  split; [reflexivity|]. split; [exact Hn|]. split; [exact Hstop|].
  split; [exact Hleast|].
  intros other Hother.
  destruct (json_escape_string_exact other src dest_size Hmin Hmax Hother)
    as [Hrun' _].
  rewrite Hrun'. simpl. rewrite c_str_holding by exact Hnn. reflexivity.
Qed.

(** X2. Whatever the source holds and wherever the text is cut, what
    json_escape_string writes is the body of a JSON string: it has no
    bare double quote and no bare character below 0x20, every backslash
    is followed by one of the letters of an escape, and the text never
    ends in the middle of an escape. A null source gives the empty
    text. *)
Theorem json_escape_string_writes_json (dest src : list ascii)
    (dest_size : Z) :
  2 ≤ dest_size → dest_size < 2 ^ 64 →
  dest_size ≤ Z.of_nat (length dest) →
  (∃ dest', json_escape_string dest dest_size (Some src) = Some dest'
            ∧ json_string_body (c_str dest') = true)
  ∧ (∃ dest', json_escape_string dest dest_size None = Some dest'
              ∧ c_str dest' = []).
Proof.
  intros Hmin Hmax Hbuf. split.
  - destruct (json_escape_string_exact dest src dest_size Hmin Hmax Hbuf)
      as [Hrun _].
    eexists. split; [exact Hrun|].
    rewrite c_str_holding by apply escape_upto_not_NUL.
    destruct (escape_upto_cut (dest_size - 2) src) as (n & -> & _).
    apply json_string_body_escaped.
  - destruct dest as [|c0 dest]; [simpl in Hbuf; lia|].
    exists (NUL :: dest). split; reflexivity.
Qed.

(** X3. Escaping and reading back: a JSON parser reads the text
    json_escape_string wrote as a prefix of the source without the
    control characters the bridge drops; as all of it when the escaped
    source has at most [dest_size - 2] characters; and as the source
    itself when, besides, the source has none of those characters. *)
Theorem json_unescape_json_escape_string (dest src : list ascii)
    (dest_size : Z) :
  2 ≤ dest_size → dest_size < 2 ^ 64 →
  dest_size ≤ Z.of_nat (length dest) →
  ∃ dest',
    json_escape_string dest dest_size (Some src) = Some dest'
    ∧ json_unescape (c_str dest')
      `prefix_of` List.filter (λ c, negb (skipped c)) (c_str src)
    ∧ (Z.of_nat (length (flat_map escape_char (c_str src))) ≤ dest_size - 2 →
       json_unescape (c_str dest')
       = List.filter (λ c, negb (skipped c)) (c_str src))
    ∧ (Z.of_nat (length (flat_map escape_char (c_str src))) ≤ dest_size - 2 →
       Forall (λ c, skipped c = false) (c_str src) →
       json_unescape (c_str dest') = c_str src).
Proof.
  intros Hmin Hmax Hbuf.
  destruct (json_escape_string_exact dest src dest_size Hmin Hmax Hbuf)
    as [Hrun _].
  eexists. split; [exact Hrun|].
  rewrite c_str_holding by apply escape_upto_not_NUL.
  assert (Hwhole :
    Z.of_nat (length (flat_map escape_char (c_str src))) ≤ dest_size - 2 →
    json_unescape (escape_upto (dest_size - 2) src)
    = List.filter (λ c, negb (skipped c)) (c_str src)).
  { intros Hfits. rewrite escape_upto_whole by exact Hfits.
    apply json_unescape_escaped. }
  split; [|split].
  - destruct (escape_upto_cut (dest_size - 2) src) as (n & -> & _).
    rewrite json_unescape_escaped. apply filter_take_prefix.
  - exact Hwhole.
  - intros Hfits Hclean. rewrite Hwhole by exact Hfits.
    clear -Hclean. induction Hclean as [|c s Hc _ IH]; [reflexivity|].
    simpl. rewrite Hc. simpl. rewrite IH. reflexivity.
Qed.

(** X4. The bound 2 on [dest_size] is needed: with a buffer of one
    character, or of none, and [dest_size] its length, a source that
    starts with a character copied as it is makes json_escape_string
    write outside the buffer ([dest_size - 2] wraps around as a
    [size_t]). *)
Theorem json_escape_string_overruns_small_buffer (dest src : list ascii)
    (dest_size : Z) (c : ascii) :
  0 ≤ dest_size < 2 →
  Z.of_nat (length dest) = dest_size →
  escape_char c = [c] →
  json_escape_string dest dest_size (Some (c :: src)) = None.
Proof.
  intros Hsize Hlen Hplain.
  destruct (plain_char c Hplain) as (Hnul & Hq & Hlf & Hcr & Htab & Hctl).
  unfold json_escape_string. simpl json_escape_loop.
  rewrite Hnul, Hq, Hlf, Hcr, Htab, Hctl.
  replace (0 <? size_t (dest_size - 2)) with true.
  2:{ symmetry. apply Z.ltb_lt. unfold size_t, wrap_unsigned.
      assert (dest_size = 0 ∨ dest_size = 1) as [-> | ->] by lia; reflexivity. }
  cbv beta iota delta [negb].
  destruct dest as [|c0 dest]; [reflexivity|].
  destruct dest as [|c1 dest]; [|simpl in Hlen; lia].
  change (store [c0] 0 c) with (Some [c]). simpl mbind.
  change (size_t (0 + 1)) with 1.
  pose proof (json_escape_loop_past_end dest_size src [c] 1) as Hpast.
  destruct (json_escape_loop dest_size src [c] 1) as [[d' di']|];
    [|reflexivity].
  destruct Hpast as [-> ->]; [simpl; lia|]. reflexivity.
Qed.

(** ** nativeGetProfileByPubkey *)

Lemma store_all_overflow (cs out rest : list ascii) :
  (length rest < length cs)%nat →
  store_all (out ++ rest) (Z.of_nat (length out)) cs = None.
Proof.
  revert out rest. induction cs as [|c cs IH]; intros out rest Hlen.
  - simpl in Hlen. lia.
  - destruct rest as [|c0 rest].
    + simpl. unfold store. rewrite app_nil_r.
      rewrite Z.ltb_irrefl, andb_false_r. reflexivity.
    + simpl store_all. rewrite store_middle. simpl.
      replace (out ++ c :: rest) with ((out ++ [c]) ++ rest)
        by (rewrite <- app_assoc; reflexivity).
      replace (Z.of_nat (length out) + 1) with (Z.of_nat (length (out ++ [c])))
        by (rewrite length_app; simpl; lia).
      apply IH. simpl in Hlen. lia.
Qed.

Lemma holds_c_str (buf text : list ascii) : holds buf text → c_str buf = text.
Proof. intros [Htext [rest ->]]. apply c_str_terminated. exact Htext. Qed.

Lemma join_cons (sep part : list ascii) (parts : list (list ascii)) :
  join sep (part :: parts) = part ++ flat_map (λ m, sep ++ m) parts.
Proof.
  revert part. induction parts as [|part' parts IH]; intros part.
  - simpl. rewrite app_nil_r. reflexivity.
  - change (join sep (part :: part' :: parts))
      with (part ++ sep ++ join sep (part' :: parts)).
    rewrite IH. simpl. rewrite <- app_assoc. reflexivity.
Qed.

(** The members the macro writes one after the other are the members of
    the fields that are present, separated by commas. *)
Lemma members_text_join (fields : list (string * option (list ascii))) :
  members_text true fields = join [","%char] (json_members fields)
  ∧ members_text false fields
    = flat_map (λ m, [","%char] ++ m) (json_members fields).
Proof.
  induction fields as [|[name [v|]] fields [IHt IHf]].
  - split; reflexivity.
  - unfold json_members in *. simpl omap. split.
    + rewrite join_cons. simpl. rewrite IHf. reflexivity.
    + simpl. rewrite IHf. reflexivity.
  - unfold json_members in *. simpl omap. simpl. split; assumption.
Qed.

Section profile.
Context `{ProfileReader}.

Lemma strcpy_run (dest src : list ascii) (p : process) :
  (length (c_str src) < length dest)%nat →
  ∃ dest', strcpy dest src p = (Done dest', p)
           ∧ holds dest' (c_str src) ∧ length dest' = length dest.
Proof.
  intros Hlen. unfold strcpy.
  pose proof (store_all_middle (c_str src ++ [NUL]) [] dest) as Hstore.
  change (Z.of_nat (length (@nil ascii))) with 0 in Hstore.
  change ([] ++ dest) with dest in Hstore.
  rewrite Hstore by (rewrite length_app; simpl; lia).
  eexists. split; [reflexivity|]. split.
  - split; [apply c_str_not_NUL|].
    cbn [app]. rewrite <- app_assoc. simpl. eexists. reflexivity.
  - cbn [app]. rewrite !length_app, length_drop, ?length_app. simpl. lia.
Qed.

Lemma strcat_run (json text src : list ascii) (p : process) :
  holds json text →
  (length text + length (c_str src) < length json)%nat →
  ∃ json', strcat json src p = (Done json', p)
           ∧ holds json' (text ++ c_str src) ∧ length json' = length json.
Proof.
  intros Hjson Hlen. unfold strcat, strlen.
  rewrite (holds_c_str json text Hjson).
  destruct Hjson as [Htext [rest ->]].
  rewrite length_app in Hlen. simpl in Hlen.
  rewrite store_all_middle by (rewrite length_app; simpl; lia).
  eexists. split; [reflexivity|]. split.
  - split; [apply Forall_app; split; [exact Htext|apply c_str_not_NUL]|].
    exists (drop (length (c_str src ++ [NUL])) (NUL :: rest)).
    rewrite <- !app_assoc. reflexivity.
  - rewrite !length_app, length_drop, ?length_app. simpl. lia.
Qed.

Lemma strcat_overflows (json text src : list ascii) (p : process) :
  holds json text →
  (length json ≤ length text + length (c_str src))%nat →
  strcat json src p = (Fault, p).
Proof.
  intros Hjson Hlen. unfold strcat, strlen.
  rewrite (holds_c_str json text Hjson).
  destruct Hjson as [Htext [rest ->]].
  rewrite length_app in Hlen. simpl in Hlen.
  rewrite store_all_overflow by (rewrite length_app; simpl; lia).
  reflexivity.
Qed.

(** One use of the macro, when the member fits in the block. *)
Lemma ADD_FIELD_fits (name : string) (value : option (list ascii))
    (json escaped text : list ascii) (first : bool) (p : process) :
  c_str (field_opening name) = field_opening name →
  holds json text →
  Z.of_nat (length escaped) = 8192 →
  (length (text ++ member_text first name value) < length json)%nat →
  ∃ json' escaped',
    ADD_FIELD name value (json, escaped, first) p
    = (Done (json', escaped',
             match value with Some _ => false | None => first end), p)
    ∧ holds json' (text ++ member_text first name value)
    ∧ length json' = length json
    ∧ Z.of_nat (length escaped') = 8192.
Proof.
  intros Hname Hjson Hesc Hlen.
  destruct value as [v|]; cbn [ADD_FIELD member_text] in *.
  2:{ exists json, escaped. rewrite app_nil_r.
      split; [reflexivity|]. split; [exact Hjson|].
      split; [reflexivity|exact Hesc]. }
  rewrite Hesc.
  destruct (json_escape_string_exact escaped v 8192) as [Hrun Hshort];
    [lia|reflexivity|lia|].
  change (8192 - 2) with 8190 in Hrun, Hshort.
  rewrite Hrun.
  set (w := escape_upto 8190 v) in *.
  assert (Hw : c_str (holding w escaped) = w)
    by (apply c_str_holding, escape_upto_not_NUL).
  assert (Hlw : Z.of_nat (length (holding w escaped)) = 8192)
    by (rewrite holding_length by lia; exact Hesc).
  unfold json_member in Hlen. fold w in Hlen.
  rewrite !length_app in Hlen. cbn [length] in Hlen.
  assert (Hcomma :
    ∃ json1, (if first then mret json else strcat json [","%char]) p
             = (Done json1, p)
             ∧ holds json1 (text ++ (if first then [] else [","%char]))
             ∧ length json1 = length json).
  { destruct first.
    - exists json. rewrite app_nil_r.
      split; [reflexivity|]. split; [exact Hjson|reflexivity].
    - apply strcat_run; [exact Hjson|]. simpl in *. lia. }
  destruct Hcomma as (json1 & Hrun1 & Hjson1 & Hlen1).
  rewrite run_bind, Hrun1.
  destruct (strcat_run json1 _ (field_opening name) p Hjson1)
    as (json2 & Hrun2 & Hjson2 & Hlen2).
  { rewrite Hname, length_app. destruct first; simpl in *; lia. }
  rewrite run_bind, Hrun2. rewrite Hname in Hjson2.
  destruct (strcat_run json2 _ (holding w escaped) p Hjson2)
    as (json3 & Hrun3 & Hjson3 & Hlen3).
  { rewrite Hw, !length_app. destruct first; simpl in *; lia. }
  rewrite run_bind, Hrun3. rewrite Hw in Hjson3.
  destruct (strcat_run json3 _ [DQUOTE] p Hjson3)
    as (json4 & Hrun4 & Hjson4 & Hlen4).
  { rewrite !length_app. destruct first; simpl in *; lia. }
  rewrite run_bind, Hrun4. rewrite run_ret.
  exists json4, (holding w escaped).
  split; [reflexivity|]. split; [|split; [lia|exact Hlw]].
  unfold json_member. fold w.
  change (c_str [DQUOTE]) with [DQUOTE] in Hjson4.
  rewrite <- !app_assoc in *. exact Hjson4.
Qed.

(** One use of the macro, when the member does not fit: one of the
    strcat calls writes past the end of the block. *)
Lemma ADD_FIELD_overflows (name : string) (value : option (list ascii))
    (json escaped text : list ascii) (first : bool) (p : process) :
  c_str (field_opening name) = field_opening name →
  holds json text →
  Z.of_nat (length escaped) = 8192 →
  (length json ≤ length (text ++ member_text first name value))%nat →
  (length text < length json)%nat →
  ADD_FIELD name value (json, escaped, first) p = (Fault, p).
Proof.
  intros Hname Hjson Hesc Hlen Htext.
  destruct value as [v|]; cbn [ADD_FIELD member_text] in *.
  2:{ rewrite app_nil_r in Hlen. lia. }
  rewrite Hesc.
  destruct (json_escape_string_exact escaped v 8192) as [Hrun Hshort];
    [lia|reflexivity|lia|].
  change (8192 - 2) with 8190 in Hrun, Hshort.
  rewrite Hrun.
  set (w := escape_upto 8190 v) in *.
  assert (Hw : c_str (holding w escaped) = w)
    by (apply c_str_holding, escape_upto_not_NUL).
  unfold json_member in Hlen. fold w in Hlen.
  rewrite !length_app in Hlen. cbn [length] in Hlen.
  assert (Hcomma :
    (if first then mret json else strcat json [","%char]) p = (Fault, p)
    ∨ ∃ json1, (if first then mret json else strcat json [","%char]) p
               = (Done json1, p)
               ∧ holds json1 (text ++ (if first then [] else [","%char]))
               ∧ length json1 = length json).
  { destruct first.
    - right. exists json. rewrite app_nil_r.
      split; [reflexivity|]. split; [exact Hjson|reflexivity].
    - destruct (decide (length text + 1 < length json)%nat) as [Hfit|Hover].
      + right. apply strcat_run; [exact Hjson|exact Hfit].
      + left. apply strcat_overflows with (text := text); [exact Hjson|].
        simpl. lia. }
  rewrite run_bind.
  destruct Hcomma as [-> | (json1 & -> & Hjson1 & Hlen1)]; [reflexivity|].
  rewrite run_bind.
  set (t1 := text ++ (if first then [] else [","%char])) in *.
  assert (Ht1 : length t1 = (length text + (if first then 0 else 1))%nat)
    by (unfold t1; rewrite length_app; destruct first; reflexivity).
  destruct (decide (length t1 + length (field_opening name) < length json1)%nat)
    as [Hfit|Hover].
  2:{ rewrite (strcat_overflows json1 t1) by (try assumption; rewrite Hname; lia).
      reflexivity. }
  destruct (strcat_run json1 t1 (field_opening name) p Hjson1)
    as (json2 & -> & Hjson2 & Hlen2); [rewrite Hname; exact Hfit|].
  rewrite Hname in Hjson2. rewrite run_bind.
  destruct (decide (length (t1 ++ field_opening name) + length w
                    < length json2)%nat) as [Hfit3|Hover].
  2:{ rewrite (strcat_overflows json2 (t1 ++ field_opening name))
        by (try assumption; rewrite Hw; lia).
      reflexivity. }
  destruct (strcat_run json2 _ (holding w escaped) p Hjson2)
    as (json3 & -> & Hjson3 & Hlen3); [rewrite Hw; exact Hfit3|].
  rewrite Hw in Hjson3. rewrite run_bind.
  rewrite (strcat_overflows json3 ((t1 ++ field_opening name) ++ w)).
  - reflexivity.
  - exact Hjson3.
  - rewrite !length_app in *. simpl. destruct first; simpl in *; lia.
Qed.

Lemma json_object_length (fields : list (string * option (list ascii))) :
  json_object fields = "{"%char :: members_text true fields ++ ["}"%char].
Proof.
  unfold json_object. destruct (members_text_join fields) as [-> _].
  reflexivity.
Qed.

#[local] Ltac add_field_step p Htotal :=
  rewrite run_bind;
  lazymatch goal with
  | Hj : holds ?json ?text, Hl : length ?json = _,
    He : Z.of_nat (length ?escaped) = 8192
    |- context [ADD_FIELD ?name ?value (?json, ?escaped, ?first) p] =>
    let Hfit := fresh "Hfit" in
    let json' := fresh "json" in
    let escaped' := fresh "escaped" in
    let Hj' := fresh "Hj" in
    let Hl' := fresh "Hl" in
    let He' := fresh "He" in
    destruct (decide (length (text ++ member_text first name value)
                      < length json)%nat) as [Hfit|Hfit];
    [ destruct (ADD_FIELD_fits name value json escaped text first p
                  eq_refl Hj He Hfit)
        as (json' & escaped' & -> & Hj' & Hl' & He');
      rewrite Hl in Hl'; clear Hj He
    | rewrite (ADD_FIELD_overflows name value json escaped text first p
                 eq_refl Hj He)
        by (rewrite ?length_app in *; cbn [length] in *; lia);
      cbv beta iota;
      rewrite (proj2 (Z.ltb_ge _ _))
        by (rewrite Htotal; rewrite ?length_app in *; cbn [length] in *; lia);
      reflexivity ]
  end.

(** What the method does once the profile is found and its two blocks of
    memory are granted: the object, when it fits in the block with its
    NUL, and otherwise a store outside the block. *)
Lemma nativeGetProfileByPubkey_run (ndb_ptr : Z) (txn : ndb_txn)
    (pubkey : list byte) (ptr : profile_bytes) (len primkey : Z)
    (record : NdbProfileRecord_table_t) (profile : NdbProfile_table_t)
    (p : process) :
  ndb_ptr ≠ 0 →
  ndb_get_profile_by_pubkey txn pubkey = (Some ptr, len, primkey) →
  NdbProfileRecord_as_root ptr = Some record →
  NdbProfileRecord_profile record = Some profile →
  alloc_ok p 0%nat = true → alloc_ok p 1%nat = true →
  let p2 := {| alloc_ok := λ n, alloc_ok p (S (S n));
               logcat := logcat p; engine := engine p |} in
  Java_io_nostr_ndk_cache_nostrdb_NostrDB_nativeGetProfileByPubkey
    ndb_ptr (Some txn) pubkey p
  = if Z.of_nat (length (json_object (profile_fields profile))) <? 32768
    then NewStringUTF
           (string_of_list_ascii (json_object (profile_fields profile))) p2
    else (Fault, p2).
Proof.
  intros Hptr Hlookup Hroot Hprofile Hmem0 Hmem1 p2.
  unfold Java_io_nostr_ndk_cache_nostrdb_NostrDB_nativeGetProfileByPubkey.
  replace (ndb_ptr =? 0) with false by (symmetry; apply Z.eqb_neq; exact Hptr).
  rewrite run_bind, run_alloc, Hmem0. cbv beta iota delta [negb].
  rewrite Hlookup, Hroot, Hprofile. cbv beta iota zeta.
  rewrite run_bind. unfold malloc_cells. rewrite run_bind.
  unfold malloc. rewrite run_alloc. cbn [alloc_ok logcat engine].
  rewrite Hmem1, run_ret. fold p2.
  set (json0 := replicate (Z.to_nat 32768) NUL).
  set (escaped0 := replicate (Z.to_nat 8192) NUL).
  assert (Hl0 : Z.of_nat (length json0) = 32768)
    by (unfold json0; rewrite length_replicate; lia).
  assert (He : Z.of_nat (length escaped0) = 8192)
    by (unfold escaped0; rewrite length_replicate; lia).
  clearbody json0 escaped0.
  pose proof (json_object_length (profile_fields profile)) as Htext.
  set (object := json_object (profile_fields profile)) in *.
  unfold profile_fields in Htext. cbn [members_text] in Htext.
  pose proof (f_equal (λ l, Z.of_nat (length l)) Htext) as Htotal.
  cbv beta in Htotal. cbn [length] in Htotal.
  rewrite ?length_app in Htotal. cbn [length] in Htotal.
  rewrite run_bind.
  destruct (strcpy_run json0 ["{"%char] p2) as (json & -> & Hj & Hl);
    [simpl; lia|].
  change (c_str ["{"%char]) with ["{"%char] in Hj.
  assert (Hl' : length json = Z.to_nat 32768) by lia.
  clear Hl Hl0. rename Hl' into Hl.
  do 9 (add_field_step p2 Htotal).
  rewrite run_bind. cbn [fst].
  lazymatch goal with
  | Hj : holds ?json ?text |- context [strcat ?json ?src p2] =>
    destruct (decide (length text + length (c_str src) < length json)%nat)
      as [Hlast|Hlast];
    [ destruct (strcat_run json text src p2 Hj Hlast)
        as (json' & -> & Hj' & Hl');
      rewrite (holds_c_str _ _ Hj')
    | rewrite (strcat_overflows json text src p2 Hj) by lia ]
  end.
  - change (c_str ["}"%char]) with ["}"%char] in *.
    rewrite (proj2 (Z.ltb_lt _ _)).
    2:{ rewrite Htotal. rewrite ?length_app in *. cbn [length] in *. lia. }
    rewrite Htext. cbn [app]. rewrite <- !app_assoc. reflexivity.
  - change (c_str ["}"%char]) with ["}"%char] in *.
    rewrite (proj2 (Z.ltb_ge _ _)).
    2:{ rewrite Htotal. rewrite ?length_app in *. cbn [length] in *. lia. }
    reflexivity.
Qed.

End profile.


Lemma escape_upto_length (room : Z) (v : list ascii) :
  (length (escape_upto room v) ≤ 2 * length v)%nat.
Proof.
  revert room. induction v as [|c v IH]; intros room; simpl; [lia|].
  destruct (Ascii.eqb c NUL); [simpl; lia|].
  destruct (room <=? 0); [simpl; lia|].
  rewrite length_app. pose proof (escape_char_length c).
  specialize (IH (room - Z.of_nat (length (escape_char c)))). lia.
Qed.

Lemma list_ascii_of_string_length (s : string) :
  length (list_ascii_of_string s) = String.length s.
Proof. induction s as [|c s IH]; simpl; [reflexivity|]. rewrite IH. reflexivity. Qed.

(** The members take the names, six characters each, and at most twice
    the characters of the values. *)
Lemma members_text_length (first : bool)
    (fields : list (string * option (list ascii))) :
  (length (members_text first fields)
   ≤ sum_list_with (λ f, String.length f.1 + 6) fields
     + 2 * sum_list_with (λ f, default 0 (length <$> f.2)) fields)%nat.
Proof.
  revert first. induction fields as [|[name [v|]] fields IH]; intros first.
  - simpl. lia.
  - cbn [members_text member_text sum_list_with fst snd fmap option_fmap
         option_map default].
    change (id (length v)) with (length v).
    rewrite !length_app. unfold json_member, field_opening.
    rewrite !length_app. cbn [length]. rewrite !length_app. cbn [length].
    rewrite list_ascii_of_string_length.
    pose proof (escape_upto_length 8190 v).
    specialize (IH false).
    destruct first; simpl length; lia.
  - cbn [members_text member_text sum_list_with fst snd fmap option_fmap
         option_map default app].
    specialize (IH first). lia.
Qed.

Section profile_object.
Context `{ProfileReader}.

(** X5. For a profile the engine finds, nativeGetProfileByPubkey returns
    one JSON object: an opening brace, one member for each field that is
    present, in the order name, display_name, about, picture, banner,
    nip05, lud16, lud06, website, separated by commas, and a closing
    brace; a member is the name between double quotes, a colon, and
    between double quotes the value as json_escape_string leaves it in
    8192 characters, which is the body of a JSON string. This holds
    whenever the object is shorter than the block of 32768 characters and
    memory does not run out. *)
Theorem nativeGetProfileByPubkey_builds_object (ndb_ptr : Z) (txn : ndb_txn)
    (pubkey : list byte) (ptr : profile_bytes) (len primkey : Z)
    (record : NdbProfileRecord_table_t) (profile : NdbProfile_table_t)
    (p : process) :
  ndb_ptr ≠ 0 →
  ndb_get_profile_by_pubkey txn pubkey = (Some ptr, len, primkey) →
  NdbProfileRecord_as_root ptr = Some record →
  NdbProfileRecord_profile record = Some profile →
  Z.of_nat (length (json_object (profile_fields profile))) < 32768 →
  never_fails p →
  returned (Java_io_nostr_ndk_cache_nostrdb_NostrDB_nativeGetProfileByPubkey
              ndb_ptr (Some txn) pubkey) p
  = Done (Some (string_of_list_ascii (json_object (profile_fields profile))))
  ∧ (∀ v, json_string_body (escape_upto 8190 v) = true
          ∧ Z.of_nat (length (escape_upto 8190 v)) < 8192).
Proof.
  intros Hptr Hlookup Hroot Hprofile Hfits Hp. split.
  - unfold returned.
    rewrite (nativeGetProfileByPubkey_run ndb_ptr txn pubkey ptr len primkey
               record profile p Hptr Hlookup Hroot Hprofile (Hp 0%nat)
               (Hp 1%nat)).
    rewrite (proj2 (Z.ltb_lt _ _) Hfits).
    unfold NewStringUTF. rewrite run_bind, run_alloc. cbn [alloc_ok].
    rewrite (Hp 2%nat). reflexivity.
  - intros v. split.
    + destruct (escape_upto_cut 8190 v) as (n & -> & _).
      apply json_string_body_escaped.
    + destruct (json_escape_string_exact (replicate (Z.to_nat 8192) NUL) v 8192)
        as [_ Hshort]; [lia|reflexivity|rewrite length_replicate; lia|].
      exact Hshort.
Qed.

(** X6. The block of 32768 characters is not checked: for a profile
    whose object needs 32768 characters or more, one of the strcat calls
    of nativeGetProfileByPubkey writes past the end of the block. *)
Theorem nativeGetProfileByPubkey_overruns_block (ndb_ptr : Z) (txn : ndb_txn)
    (pubkey : list byte) (ptr : profile_bytes) (len primkey : Z)
    (record : NdbProfileRecord_table_t) (profile : NdbProfile_table_t)
    (p : process) :
  ndb_ptr ≠ 0 →
  ndb_get_profile_by_pubkey txn pubkey = (Some ptr, len, primkey) →
  NdbProfileRecord_as_root ptr = Some record →
  NdbProfileRecord_profile record = Some profile →
  alloc_ok p 0%nat = true → alloc_ok p 1%nat = true →
  32768 ≤ Z.of_nat (length (json_object (profile_fields profile))) →
  returned (Java_io_nostr_ndk_cache_nostrdb_NostrDB_nativeGetProfileByPubkey
              ndb_ptr (Some txn) pubkey) p
  = Fault.
Proof.
  intros Hptr Hlookup Hroot Hprofile Hmem0 Hmem1 Hlong.
  unfold returned.
  rewrite (nativeGetProfileByPubkey_run ndb_ptr txn pubkey ptr len primkey
             record profile p Hptr Hlookup Hroot Hprofile Hmem0 Hmem1).
  rewrite (proj2 (Z.ltb_ge _ _) Hlong). reflexivity.
Qed.

(** X7. A profile whose fields hold 16000 characters or fewer in all is
    always rendered: its object fits in the block whatever the
    characters are. *)
Theorem nativeGetProfileByPubkey_small_profile (ndb_ptr : Z) (txn : ndb_txn)
    (pubkey : list byte) (ptr : profile_bytes) (len primkey : Z)
    (record : NdbProfileRecord_table_t) (profile : NdbProfile_table_t)
    (p : process) :
  ndb_ptr ≠ 0 →
  ndb_get_profile_by_pubkey txn pubkey = (Some ptr, len, primkey) →
  NdbProfileRecord_as_root ptr = Some record →
  NdbProfileRecord_profile record = Some profile →
  Z.of_nat (sum_list_with (λ f, default 0%nat (length <$> f.2))
              (profile_fields profile)) ≤ 16000 →
  never_fails p →
  returned (Java_io_nostr_ndk_cache_nostrdb_NostrDB_nativeGetProfileByPubkey
              ndb_ptr (Some txn) pubkey) p
  = Done (Some (string_of_list_ascii (json_object (profile_fields profile)))).
Proof.
  intros Hptr Hlookup Hroot Hprofile Hsmall Hp.
  unfold returned.
  rewrite (nativeGetProfileByPubkey_run ndb_ptr txn pubkey ptr len primkey
             record profile p Hptr Hlookup Hroot Hprofile (Hp 0%nat)
             (Hp 1%nat)).
  rewrite (proj2 (Z.ltb_lt _ _)).
  - unfold NewStringUTF. rewrite run_bind, run_alloc. cbn [alloc_ok].
    rewrite (Hp 2%nat). reflexivity.
  - rewrite json_object_length. cbn [length]. rewrite length_app. cbn [length].
    pose proof (members_text_length true (profile_fields profile)) as Hlen.
    assert (Hnames :
      sum_list_with
        (λ f : string * option (list ascii), (String.length f.1 + 6)%nat)
        (profile_fields profile) = 110%nat) by reflexivity.
    lia.
Qed.

End profile_object.

(** ** Keys, subscriptions and memory *)

Section more_keys.
Context `{Nostrdb}.

(** What nativePollForNotes does once the engine has answered with a
    positive count: the process after the first request for memory, with
    the engine the poll left. *)
Lemma nativePollForNotes_run (ndb_ptr sub_id max_notes : Z) (p : process)
    (count : Z) (written : list Z) (e' : ndb) :
  ndb_ptr ≠ 0 → alloc_ok p 0%nat = true →
  ndb_poll_for_notes (engine p) (to_uint64 sub_id) max_notes
  = (count, written, e') →
  0 < count →
  Java_io_nostr_ndk_cache_nostrdb_NostrDB_nativePollForNotes
    ndb_ptr sub_id max_notes p
  = (keys ← NewArray count;
     if keys : bool then
       long_keys ← malloc_cells count 0;
       long_keys ← for_loop count
         (λ i lk, k ← array_get written i; store_at lk i (to_jlong k))
         long_keys;
       mret long_keys
     else mret None)
      {| alloc_ok := λ n, alloc_ok p (S n); logcat := logcat p; engine := e' |}.
Proof.
  intros Hptr Hmem Hpoll Hcount.
  unfold Java_io_nostr_ndk_cache_nostrdb_NostrDB_nativePollForNotes.
  replace (ndb_ptr =? 0) with false by (symmetry; apply Z.eqb_neq; exact Hptr).
  rewrite run_bind. unfold malloc. rewrite run_alloc, Hmem.
  cbv beta iota delta [negb].
  rewrite run_bind, run_get_engine. cbn [engine]. rewrite Hpoll.
  rewrite run_bind, run_set_engine. cbn [alloc_ok logcat].
  replace (count <=? 0) with false by (symmetry; apply Z.leb_gt; exact Hcount).
  reflexivity.
Qed.

(** X8. A poll that finds keys: for any engine, when the engine answers
    with a positive count and has written that many keys,
    nativePollForNotes returns those keys, in order, each cast to a Java
    long, and leaves the engine in the state the poll put it in; cast back
    as the accessors cast them, the keys are the engine's, also from 2^63
    on, where Java sees them negative. *)
Theorem nativePollForNotes_hands_over_keys (ndb_ptr sub_id max_notes : Z)
    (p : process) (count : Z) (written : list Z) (e' : ndb) :
  ndb_ptr ≠ 0 →
  ndb_poll_for_notes (engine p) (to_uint64 sub_id) max_notes
  = (count, written, e') →
  0 < count → count ≤ Z.of_nat (length written) →
  never_fails p →
  let call :=
    Java_io_nostr_ndk_cache_nostrdb_NostrDB_nativePollForNotes
      ndb_ptr sub_id max_notes in
  let keys := to_jlong <$> take (Z.to_nat count) written in
  returned call p = Done (Some keys)
  ∧ Z.of_nat (length keys) = count
  ∧ engine (process_after call p) = e'
  ∧ logcat (process_after call p) = logcat p
  ∧ (Forall (λ k, 0 ≤ k < 2 ^ 64) written →
     to_uint64 <$> keys = take (Z.to_nat count) written).
Proof.
  intros Hptr Hpoll Hcount Hwritten Hp call keys.
  assert (Hrun : call p
    = (Done (Some keys),
       {| alloc_ok := λ n, alloc_ok p (S (S (S n)));
          logcat := logcat p; engine := e' |})).
  { unfold call.
    rewrite (nativePollForNotes_run _ _ _ _ _ _ _ Hptr (Hp 0%nat) Hpoll Hcount).
    rewrite run_bind, run_NewArray by lia. cbn [alloc_ok logcat engine].
    rewrite (Hp 1%nat). cbv iota.
    rewrite run_bind. unfold malloc_cells. rewrite run_bind.
    unfold malloc. rewrite run_alloc. cbn [alloc_ok logcat engine].
    rewrite (Hp 2%nat), run_ret. cbv iota.
    rewrite run_bind.
    replace count with (Z.of_nat (Z.to_nat count)) at 1 2 by lia.
    rewrite (pure_copy_loop written to_jlong (Z.to_nat count)) by lia.
    reflexivity. }
  unfold returned, process_after. rewrite Hrun. cbn [fst snd engine logcat].
  split; [reflexivity|]. split.
  { unfold keys. rewrite length_fmap, length_take. lia. }
  split; [reflexivity|]. split; [reflexivity|].
  intros Hrange. unfold keys. rewrite <- list_fmap_compose.
  rewrite <- (list_fmap_id (take (Z.to_nat count) written)) at 2.
  apply list_fmap_ext. intros i k Hk. cbn.
  rewrite to_uint64_to_jlong. apply to_uint64_small.
  apply lookup_take_Some in Hk as [Hk _].
  rewrite Forall_lookup in Hrange. exact (Hrange i k Hk).
Qed.

(** X9. Keys taken and not delivered: nativePollForNotes polls the engine
    before it asks for the Java array. When the array cannot be had, the
    method returns null, as for a poll that found nothing, while the
    engine is already in the state the poll left: the keys it handed over
    are lost to the caller. *)
Theorem nativePollForNotes_drops_keys_without_memory
    (ndb_ptr sub_id max_notes : Z) (p : process) (count : Z)
    (written : list Z) (e' : ndb) :
  ndb_ptr ≠ 0 →
  ndb_poll_for_notes (engine p) (to_uint64 sub_id) max_notes
  = (count, written, e') →
  0 < count →
  alloc_ok p 0%nat = true → alloc_ok p 1%nat = false →
  let call :=
    Java_io_nostr_ndk_cache_nostrdb_NostrDB_nativePollForNotes
      ndb_ptr sub_id max_notes in
  returned call p = Done None
  ∧ engine (process_after call p) = e'
  ∧ logcat (process_after call p) = logcat p.
Proof.
  intros Hptr Hpoll Hcount Hmem0 Hmem1 call.
  unfold returned, process_after, call.
  rewrite (nativePollForNotes_run _ _ _ _ _ _ _ Hptr Hmem0 Hpoll Hcount).
  rewrite run_bind, run_NewArray by lia. cbn [alloc_ok logcat engine].
  rewrite Hmem1. repeat split.
Qed.

(** X10. The two blocks for the Java longs are not tested for null:
    when the Java array is granted and the malloc that follows it fails,
    nativeQuery and nativePollForNotes store through the null pointer. *)
Theorem copy_of_keys_stores_through_null (p : process) :
  alloc_ok p 0%nat = true → alloc_ok p 1%nat = true →
  alloc_ok p 2%nat = false →
  (∀ (txn : ndb_txn) (f : ndb_filter) (limit : Z)
     (written : list ndb_query_result),
     ndb_query txn f limit = (1, written) → written ≠ [] →
     returned (Java_io_nostr_ndk_cache_nostrdb_NostrDB_nativeQuery
                 (Some txn) (Some f) limit) p = Fault)
  ∧ (∀ (ndb_ptr sub_id max_notes : Z),
       ndb_ptr ≠ 0 →
       0 < (ndb_poll_for_notes (engine p) (to_uint64 sub_id) max_notes).1.1 →
       returned (Java_io_nostr_ndk_cache_nostrdb_NostrDB_nativePollForNotes
                   ndb_ptr sub_id max_notes) p = Fault).
Proof.
  intros Hmem0 Hmem1 Hmem2. split.
  - intros txn f limit written Hquery Hsome.
    unfold returned, Java_io_nostr_ndk_cache_nostrdb_NostrDB_nativeQuery.
    rewrite run_bind. unfold malloc at 1. rewrite run_alloc, Hmem0.
    cbv beta iota delta [negb]. rewrite Hquery.
    change (1 =? 1) with true. cbv beta iota delta [negb orb].
    assert (Hcount : 0 < Z.of_nat (length written))
      by (destruct written; [contradiction|simpl; lia]).
    replace (Z.of_nat (length written) =? 0) with false
      by (symmetry; apply Z.eqb_neq; lia).
    rewrite run_bind, run_NewArray by lia. cbn [alloc_ok logcat engine].
    rewrite Hmem1. cbv iota.
    rewrite run_bind. unfold malloc_cells. rewrite run_bind.
    unfold malloc. rewrite run_alloc. cbn [alloc_ok logcat engine].
    rewrite Hmem2, run_ret. cbv iota.
    rewrite run_bind.
    rewrite (copy_loop_null written (λ r, to_jlong (result_note_id r)))
      by exact Hcount.
    reflexivity.
  - intros ndb_ptr sub_id max_notes Hptr Hcount.
    destruct (ndb_poll_for_notes (engine p) (to_uint64 sub_id) max_notes)
      as [[count written] e'] eqn:Hpoll.
    cbn [fst] in Hcount.
    unfold returned.
    rewrite (nativePollForNotes_run _ _ _ _ _ _ _ Hptr Hmem0 Hpoll Hcount).
    rewrite run_bind, run_NewArray by lia. cbn [alloc_ok logcat engine].
    rewrite Hmem1. cbv iota.
    rewrite run_bind. unfold malloc_cells. rewrite run_bind.
    unfold malloc. rewrite run_alloc. cbn [alloc_ok logcat engine].
    rewrite Hmem2, run_ret. cbv iota.
    rewrite run_bind.
    rewrite (copy_loop_null written to_jlong) by exact Hcount.
    reflexivity.
Qed.

(** X11. The identifier of a subscription survives the passage through
    Java's long: for any engine, nativeSubscribe returns the identifier
    the engine gave, cast to a long, and leaves the engine as the
    subscription left it; polling or cancelling with that long asks the
    engine about the very identifier, also from 2^63 on. *)
Theorem nativeSubscribe_identifier_reads_back (ndb_ptr : Z)
    (f : ndb_filter) (p : process) (subid : Z) (e' : ndb) :
  ndb_ptr ≠ 0 →
  ndb_subscribe (engine p) f = (subid, e') →
  0 ≤ subid < 2 ^ 64 →
  let call :=
    Java_io_nostr_ndk_cache_nostrdb_NostrDB_nativeSubscribe ndb_ptr (Some f) in
  returned call p = Done (to_jlong subid)
  ∧ engine (process_after call p) = e'
  ∧ to_uint64 (to_jlong subid) = subid
  ∧ (∀ (q : process) (max_notes : Z),
       Java_io_nostr_ndk_cache_nostrdb_NostrDB_nativePollForNotes
         ndb_ptr (to_jlong subid) max_notes q
       = Java_io_nostr_ndk_cache_nostrdb_NostrDB_nativePollForNotes
           ndb_ptr subid max_notes q)
  ∧ (∀ q : process,
       returned (Java_io_nostr_ndk_cache_nostrdb_NostrDB_nativeUnsubscribe
                   ndb_ptr (to_jlong subid)) q
       = Done (ndb_unsubscribe (engine q) subid).1
       ∧ engine (process_after
                   (Java_io_nostr_ndk_cache_nostrdb_NostrDB_nativeUnsubscribe
                      ndb_ptr (to_jlong subid)) q)
         = (ndb_unsubscribe (engine q) subid).2).
Proof.
  intros Hptr Hsub Hrange call.
  assert (Hback : to_uint64 (to_jlong subid) = subid)
    by (rewrite to_uint64_to_jlong; apply to_uint64_small; exact Hrange).
  assert (Hnot : (ndb_ptr =? 0) = false) by (apply Z.eqb_neq; exact Hptr).
  split; [|split; [|split; [exact Hback|split]]].
  - unfold returned, call,
      Java_io_nostr_ndk_cache_nostrdb_NostrDB_nativeSubscribe.
    rewrite Hnot, run_bind, run_get_engine, Hsub. reflexivity.
  - unfold process_after, call,
      Java_io_nostr_ndk_cache_nostrdb_NostrDB_nativeSubscribe.
    rewrite Hnot, run_bind, run_get_engine, Hsub. reflexivity.
  - intros q max_notes.
    unfold Java_io_nostr_ndk_cache_nostrdb_NostrDB_nativePollForNotes.
    rewrite Hback, (to_uint64_small subid Hrange). reflexivity.
  - intros q. unfold returned, process_after,
      Java_io_nostr_ndk_cache_nostrdb_NostrDB_nativeUnsubscribe.
    rewrite Hnot, Hback, run_bind, run_get_engine.
    destruct (ndb_unsubscribe (engine q) subid) as [result e2].
    split; reflexivity.
Qed.

End more_keys.

(** ** nativeInit, nativeGetNoteKeyById and the accessors *)

Section accessors.
Context `{Nostrdb}.

(** What each accessor returns for the key [to_uint64 note_key]. *)
Lemma accessors_run (ndb_ptr : Z) (txn : ndb_txn) (note_key : Z)
    (q : process) :
  ndb_ptr ≠ 0 →
  let note := (ndb_get_note_by_key txn (to_uint64 note_key)).1 in
  returned (Java_io_nostr_ndk_cache_nostrdb_NostrDB_nativeNoteKind
              ndb_ptr (Some txn) note_key) q
  = Done (from_option (λ n, to_jint (note_kind n)) 0 note)
  ∧ returned (Java_io_nostr_ndk_cache_nostrdb_NostrDB_nativeNoteCreatedAt
                ndb_ptr (Some txn) note_key) q
    = Done (from_option (λ n, to_jlong (note_created_at n)) 0 note)
  ∧ (never_fails q →
     returned (Java_io_nostr_ndk_cache_nostrdb_NostrDB_nativeNoteContent
                 ndb_ptr (Some txn) note_key) q
     = Done (note_content <$> note)
     ∧ returned (Java_io_nostr_ndk_cache_nostrdb_NostrDB_nativeNoteId
                   ndb_ptr (Some txn) note_key) q
       = Done ((λ n, take 32 (note_id n)) <$> note)
     ∧ returned (Java_io_nostr_ndk_cache_nostrdb_NostrDB_nativeNotePubkey
                   ndb_ptr (Some txn) note_key) q
       = Done ((λ n, take 32 (note_pubkey n)) <$> note)
     ∧ returned (Java_io_nostr_ndk_cache_nostrdb_NostrDB_nativeNoteSig
                   ndb_ptr (Some txn) note_key) q
       = Done ((λ n, take 64 (note_sig n)) <$> note)).
Proof.
  intros Hptr note.
  assert (Hnot : (ndb_ptr =? 0) = false) by (apply Z.eqb_neq; exact Hptr).
  unfold returned,
    Java_io_nostr_ndk_cache_nostrdb_NostrDB_nativeNoteKind,
    Java_io_nostr_ndk_cache_nostrdb_NostrDB_nativeNoteCreatedAt,
    Java_io_nostr_ndk_cache_nostrdb_NostrDB_nativeNoteContent,
    Java_io_nostr_ndk_cache_nostrdb_NostrDB_nativeNoteId,
    Java_io_nostr_ndk_cache_nostrdb_NostrDB_nativeNotePubkey,
    Java_io_nostr_ndk_cache_nostrdb_NostrDB_nativeNoteSig.
  rewrite Hnot. subst note.
  destruct (ndb_get_note_by_key txn (to_uint64 note_key)) as [[n|] len];
    cbn [fst from_option fmap option_fmap option_map].
  - split; [reflexivity|]. split; [reflexivity|]. intros Hq.
    unfold ndb_note_content, ndb_note_id, ndb_note_pubkey, ndb_note_sig,
      NewStringUTF.
    rewrite !run_bind, !run_NewArray, !run_alloc by lia.
    rewrite (Hq 0%nat). repeat split; reflexivity.
  - repeat split; reflexivity.
Qed.

(** X12. The two integer fields: for a stored note nativeNoteKind returns
    its kind and nativeNoteCreatedAt its time, cast to a Java int and a
    Java long, whatever happens to memory; a kind from 2^31 on and a time
    from 2^63 on come out negative; and, the methods returning 0 for a key
    with no record, a stored note of kind 0 (a profile) or of time 0
    reads like a missing one. *)
Theorem integer_fields_of_stored_note (ndb_ptr : Z) (txn : ndb_txn)
    (note_key absent_key : Z) (note : ndb_note) (p : process) :
  ndb_ptr ≠ 0 →
  (ndb_get_note_by_key txn (to_uint64 note_key)).1 = Some note →
  (ndb_get_note_by_key txn (to_uint64 absent_key)).1 = None →
  let kind_of key :=
    returned (Java_io_nostr_ndk_cache_nostrdb_NostrDB_nativeNoteKind
                ndb_ptr (Some txn) key) p in
  let created_at_of key :=
    returned (Java_io_nostr_ndk_cache_nostrdb_NostrDB_nativeNoteCreatedAt
                ndb_ptr (Some txn) key) p in
  kind_of note_key = Done (to_jint (note_kind note))
  ∧ created_at_of note_key = Done (to_jlong (note_created_at note))
  ∧ (0 ≤ note_kind note < 2 ^ 31 → kind_of note_key = Done (note_kind note))
  ∧ (2 ^ 31 ≤ note_kind note < 2 ^ 32 →
     kind_of note_key = Done (note_kind note - 2 ^ 32))
  ∧ (0 ≤ note_created_at note < 2 ^ 63 →
     created_at_of note_key = Done (note_created_at note))
  ∧ (2 ^ 63 ≤ note_created_at note < 2 ^ 64 →
     created_at_of note_key = Done (note_created_at note - 2 ^ 64))
  ∧ (note_kind note = 0 → kind_of note_key = kind_of absent_key)
  ∧ (note_created_at note = 0 →
     created_at_of note_key = created_at_of absent_key).
Proof.
  intros Hptr Hnote Habsent kind_of created_at_of.
  destruct (accessors_run ndb_ptr txn note_key p Hptr) as (Hkind & Htime & _).
  destruct (accessors_run ndb_ptr txn absent_key p Hptr)
    as (Hkind0 & Htime0 & _).
  cbv zeta in *. rewrite Hnote in Hkind, Htime.
  rewrite Habsent in Hkind0, Htime0. cbn [from_option] in *.
  subst kind_of created_at_of. cbv beta.
  rewrite Hkind, Htime, Hkind0, Htime0.
  split; [reflexivity|]. split; [reflexivity|].
  split; [intros Hk; rewrite to_jint_small by lia; reflexivity|].
  split.
  { intros Hk. do 2 f_equal. unfold to_jint, wrap_signed.
    change (2 ^ (32 - 1)) with (2 ^ 31).
    replace (note_kind note + 2 ^ 31)
      with (note_kind note - 2 ^ 31 + 1 * 2 ^ 32) by lia.
    rewrite Z.mod_add by lia. rewrite Z.mod_small by lia. lia. }
  split; [intros Hk; rewrite to_jlong_small by lia; reflexivity|].
  split.
  { intros Hk. do 2 f_equal. unfold to_jlong, wrap_signed.
    change (2 ^ (64 - 1)) with (2 ^ 63).
    replace (note_created_at note + 2 ^ 63)
      with (note_created_at note - 2 ^ 63 + 1 * 2 ^ 64) by lia.
    rewrite Z.mod_add by lia. rewrite Z.mod_small by lia. lia. }
  split; intros ->; reflexivity.
Qed.

(** The conversion of a [size_t] to [jsize] keeps the low 32 bits. *)
Lemma to_jint_wraps (len k : Z) :
  0 ≤ len - k * 2 ^ 32 < 2 ^ 31 → to_jint len = len - k * 2 ^ 32.
Proof.
  intros Hlen. unfold to_jint, wrap_signed. change (2 ^ (32 - 1)) with (2 ^ 31).
  replace (len + 2 ^ 31) with (len - k * 2 ^ 32 + 2 ^ 31 + k * 2 ^ 32) by lia.
  rewrite Z.mod_add by lia. rewrite Z.mod_small by lia. lia.
Qed.

(** X13. nativeGetNoteById copies the note as the engine holds it, with
    the length [len] the engine reports converted from [size_t] to
    [jsize]: null when [len] is zero, although the note was found;
    otherwise, when the converted length is not negative, the first
    [(jsize)len] bytes at the note if NewByteArray grants the array and
    null if it does not. The converted length is [len] below 2^31; from
    2^32 on it is [len] less a multiple of 2^32, so that a note of
    2^32 + 4 bytes is returned as 4 bytes and one of 2^32 bytes as an
    empty array, not as null. *)
Theorem nativeGetNoteById_copies_the_record (ndb_ptr : Z) (txn : ndb_txn)
    (id : list byte) (note : ndb_note) (len primkey : Z) (p : process) :
  ndb_ptr ≠ 0 →
  ndb_get_note_by_id txn id = (Some note, len, primkey) →
  alloc_ok p 0%nat = true →
  let call :=
    Java_io_nostr_ndk_cache_nostrdb_NostrDB_nativeGetNoteById
      ndb_ptr (Some txn) id in
  (len = 0 → returned call p = Done None)
  ∧ (len ≠ 0 → 0 ≤ to_jint len → alloc_ok p 1%nat = true →
     returned call p
     = Done (Some (take (Z.to_nat (to_jint len)) (ndb_note_bytes note))))
  ∧ (len ≠ 0 → 0 ≤ to_jint len → alloc_ok p 1%nat = false →
     returned call p = Done None)
  ∧ (0 ≤ len < 2 ^ 31 → to_jint len = len)
  ∧ (∀ k, 0 ≤ len - k * 2 ^ 32 < 2 ^ 31 → to_jint len = len - k * 2 ^ 32)
  ∧ (∀ k, 0 < k → 0 ≤ len - k * 2 ^ 32 < 2 ^ 31 → alloc_ok p 1%nat = true →
     returned call p
     = Done (Some (take (Z.to_nat (len - k * 2 ^ 32)) (ndb_note_bytes note))))
  ∧ (len = 2 ^ 32 → alloc_ok p 1%nat = true →
     returned call p = Done (Some [])).
Proof.
  intros Hptr Hfound Hmem0 call.
  assert (Hrun : call p
    = (if len =? 0 then mret None
       else result ← NewArray (to_jint len);
            if result : bool
            then mret (Some (take (Z.to_nat (to_jint len))
                               (ndb_note_bytes note)))
            else mret None)
        {| alloc_ok := λ n, alloc_ok p (S n);
           logcat := logcat p; engine := engine p |}).
  { unfold call, Java_io_nostr_ndk_cache_nostrdb_NostrDB_nativeGetNoteById.
    replace (ndb_ptr =? 0) with false
      by (symmetry; apply Z.eqb_neq; exact Hptr).
    rewrite run_bind, run_alloc, Hmem0. cbv beta iota delta [negb].
    rewrite Hfound. reflexivity. }
  assert (Hcopy : len ≠ 0 → 0 ≤ to_jint len → alloc_ok p 1%nat = true →
    returned call p
    = Done (Some (take (Z.to_nat (to_jint len)) (ndb_note_bytes note)))).
  { intros Hlen Hsize Hmem1. unfold returned. rewrite Hrun.
    replace (len =? 0) with false by (symmetry; apply Z.eqb_neq; exact Hlen).
    rewrite run_bind, run_NewArray by exact Hsize. cbn [alloc_ok].
    rewrite Hmem1. reflexivity. }
  split; [|split; [exact Hcopy|split; [|split; [|split; [|split]]]]].
  - intros ->. unfold returned. rewrite Hrun. reflexivity.
  - intros Hlen Hsize Hmem1. unfold returned. rewrite Hrun.
    replace (len =? 0) with false by (symmetry; apply Z.eqb_neq; exact Hlen).
    rewrite run_bind, run_NewArray by exact Hsize. cbn [alloc_ok].
    rewrite Hmem1. reflexivity.
  - intros Hlen. apply to_jint_small. lia.
  - intros k Hk. apply to_jint_wraps. exact Hk.
  - intros k Hk Hlen Hmem1.
    rewrite <- (to_jint_wraps len k Hlen).
    apply Hcopy; [lia | rewrite (to_jint_wraps len k Hlen); lia | exact Hmem1].
  - intros -> Hmem1.
    rewrite Hcopy; [reflexivity | lia | reflexivity | exact Hmem1].
Qed.

End accessors.

Section opening.
Context `{NostrdbOpen}.

(** X14. From an identifier to the note by way of its key: for any
    engine, nativeGetNoteKeyById returns the key the engine finds, cast to
    a Java long, and each accessor called with that long reads the note
    the engine stores under the very key (cast back, the long is the key,
    also from 2^63 on): its kind and its time cast to int and long, and,
    when memory does not run out, its content, the 32 bytes of its
    identifier and of its author and the 64 bytes of its signature; for a
    key with no note, 0 and null. *)
Theorem nativeGetNoteKeyById_key_reads_note (ndb_ptr : Z) (txn : ndb_txn)
    (id : list byte) (p : process) :
  let key := ndb_get_notekey_by_id txn id in
  let note := (ndb_get_note_by_key txn key).1 in
  ndb_ptr ≠ 0 → alloc_ok p 0%nat = true → 0 ≤ key < 2 ^ 64 →
  ∃ j : Z,
    returned (Java_io_nostr_ndk_cache_nostrdb_NostrDB_nativeGetNoteKeyById
                (Some txn) id) p = Done j
    ∧ to_uint64 j = key
    ∧ ∀ q : process,
        returned (Java_io_nostr_ndk_cache_nostrdb_NostrDB_nativeNoteKind
                    ndb_ptr (Some txn) j) q
        = Done (from_option (λ n, to_jint (note_kind n)) 0 note)
        ∧ returned (Java_io_nostr_ndk_cache_nostrdb_NostrDB_nativeNoteCreatedAt
                      ndb_ptr (Some txn) j) q
          = Done (from_option (λ n, to_jlong (note_created_at n)) 0 note)
        ∧ (never_fails q →
           returned (Java_io_nostr_ndk_cache_nostrdb_NostrDB_nativeNoteContent
                       ndb_ptr (Some txn) j) q
           = Done (note_content <$> note)
           ∧ returned (Java_io_nostr_ndk_cache_nostrdb_NostrDB_nativeNoteId
                         ndb_ptr (Some txn) j) q
             = Done ((λ n, take 32 (note_id n)) <$> note)
           ∧ returned (Java_io_nostr_ndk_cache_nostrdb_NostrDB_nativeNotePubkey
                         ndb_ptr (Some txn) j) q
             = Done ((λ n, take 32 (note_pubkey n)) <$> note)
           ∧ returned (Java_io_nostr_ndk_cache_nostrdb_NostrDB_nativeNoteSig
                         ndb_ptr (Some txn) j) q
             = Done ((λ n, take 64 (note_sig n)) <$> note)).
Proof.
  intros key note Hptr Hmem Hrange.
  exists (to_jlong key).
  assert (Hback : to_uint64 (to_jlong key) = key)
    by (rewrite to_uint64_to_jlong; apply to_uint64_small; exact Hrange).
  split; [|split; [exact Hback|]].
  - unfold returned,
      Java_io_nostr_ndk_cache_nostrdb_NostrDB_nativeGetNoteKeyById.
    rewrite run_bind, run_alloc, Hmem. reflexivity.
  - intros q.
    pose proof (accessors_run ndb_ptr txn (to_jlong key) q Hptr) as Hacc.
    cbv zeta in Hacc. rewrite Hback in Hacc. exact Hacc.
Qed.

(** X15. nativeInit. When the path cannot be had, or ndb_init does not
    return 1, the method returns 0 and leaves one error line. When
    ndb_init returns 1 the engine is open, and the method then writes its
    log line from the characters of the path, which it has released just
    before: it reads memory it no longer owns. So 0 is the only value the
    method returns without that read. *)
Theorem nativeInit_reads_the_released_path (db_path : string)
    (map_size ingester_threads : Z) (p : process) :
  let config :=
    ndb_config_set_ingest_threads
      (ndb_config_set_mapsize ndb_default_config (size_t map_size))
      ingester_threads in
  let opened := ndb_init db_path config in
  let call :=
    Java_io_nostr_ndk_cache_nostrdb_NostrDB_nativeInit
      db_path map_size ingester_threads in
  returned call p
  = (if alloc_ok p 0%nat
     then if opened.1.1 =? 1 then Fault else Done 0
     else Done 0)
  ∧ logcat (process_after call p)
    = logcat p
      ++ (if alloc_ok p 0%nat
          then if opened.1.1 =? 1 then []
               else [(ANDROID_LOG_ERROR,
                      ("ndb_init failed with result: "
                       ++ sprintf_d opened.1.1)%string)]
          else [(ANDROID_LOG_ERROR, "Failed to get db_path string"%string)])
  ∧ engine (process_after call p)
    = (if alloc_ok p 0%nat then opened.2 else engine p)
  ∧ (∀ handle, returned call p = Done handle → handle = 0).
Proof.
  intros config opened call.
  assert (Hrun : call p
    = (if alloc_ok p 0%nat
       then if opened.1.1 =? 1
            then (Fault,
                  {| alloc_ok := λ n, alloc_ok p (S n);
                     logcat := logcat p; engine := opened.2 |})
            else (Done 0,
                  {| alloc_ok := λ n, alloc_ok p (S n);
                     logcat := logcat p
                       ++ [(ANDROID_LOG_ERROR,
                            ("ndb_init failed with result: "
                             ++ sprintf_d opened.1.1)%string)];
                     engine := opened.2 |})
       else (Done 0,
             {| alloc_ok := λ n, alloc_ok p (S n);
                logcat := logcat p
                  ++ [(ANDROID_LOG_ERROR,
                       "Failed to get db_path string"%string)];
                engine := engine p |}))).
  { unfold call, Java_io_nostr_ndk_cache_nostrdb_NostrDB_nativeInit.
    rewrite run_bind. unfold GetStringUTFChars.
    rewrite run_bind, run_alloc.
    destruct (alloc_ok p 0%nat); rewrite run_ret; [|reflexivity].
    cbv beta iota zeta. rewrite run_bind.
    unfold read_utf at 1. cbn [utf_released utf_text]. rewrite run_ret.
    fold config. fold opened.
    destruct opened as [[result ndb] e]. cbn [fst snd].
    rewrite run_bind, run_set_engine. cbn [alloc_ok logcat engine].
    destruct (result =? 1); reflexivity. }
  unfold returned, process_after. rewrite Hrun.
  destruct (alloc_ok p 0%nat); [destruct (opened.1.1 =? 1)|];
    cbn [fst snd logcat engine]; rewrite ?app_nil_r;
    repeat split; try reflexivity; intros handle Hdone;
    first [discriminate Hdone | injection Hdone as <-; reflexivity].
Qed.

End opening.

(** ** nativeNoteTags when requests for memory fail *)

Lemma cells_of_nothing (tag : list ndb_str) :
  Forall2 cell_of tag (replicate (length tag) None).
Proof.
  induction tag as [|e tag IH]; simpl; constructor;
    [left; reflexivity | exact IH].
Qed.

Lemma cells_of_insert (tag : list ndb_str) (cells : list (option string))
    (k : nat) (e : ndb_str) (cell : option string) :
  Forall2 cell_of tag cells → tag !! k = Some e → cell_of e cell →
  Forall2 cell_of tag (<[k := cell]> cells).
Proof.
  intros Hcells He Hcell.
  rewrite <- (list_insert_id tag k e He).
  apply Forall2_insert; assumption.
Qed.

Section tags_memory.
Context `{Nostrdb}.

(** One element of a tag: the round returns, and the cell is the string
    of the element or stays null. *)
Lemma tag_element_always (tag : list ndb_str) (rest : list (list ndb_str))
    (k : nat) (cells : list (option string)) (p : process) :
  (k < length tag)%nat → Forall2 cell_of tag cells →
  ∃ cells' p',
    tag_element {| iter_tag := tag; iter_rest := rest |} (Z.of_nat k) cells p
    = (Done cells', p')
    ∧ Forall2 cell_of tag cells'.
Proof.
  intros Hk Hcells.
  destruct (lookup_lt_is_Some_2 tag k Hk) as [e He].
  pose proof (Forall2_length _ _ _ Hcells) as Hlen.
  unfold tag_element, ndb_iter_tag_str. cbn [iter_tag].
  replace (0 <=? Z.of_nat k) with true by (symmetry; apply Z.leb_le; lia).
  rewrite Nat2Z.id, He.
  assert (Hset : ∀ (s : string) (q : process),
    cell_of e (Some s) →
    ∃ cells' p', array_set cells (Z.of_nat k) (Some s) q = (Done cells', p')
                 ∧ Forall2 cell_of tag cells').
  { intros s q Hs. eexists _, q.
    rewrite (pure_array_set cells k (Some s)) by lia.
    split; [reflexivity|]. eapply cells_of_insert; eassumption. }
  destruct e as [[str|]|[id|]].
  - unfold NewStringUTF. rewrite !run_bind, run_alloc.
    destruct (alloc_ok p 0%nat); rewrite run_ret.
    + apply Hset. right. reflexivity.
    + eexists _, _. split; [reflexivity|exact Hcells].
  - eexists _, _. split; [reflexivity|exact Hcells].
  - unfold NewStringUTF. rewrite !run_bind, run_alloc.
    destruct (alloc_ok p 0%nat); rewrite run_ret.
    + apply Hset. right. reflexivity.
    + eexists _, _. split; [reflexivity|exact Hcells].
  - eexists _, _. split; [reflexivity|exact Hcells].
Qed.

(** The loop over the tags: a tag whose array is refused is passed over
    without a slot being used, so that the rows filled are those of a
    sublist of the tags, at the start of the array. *)
Lemma tags_loop_always (rest : list (list ndb_str)) :
  Forall (λ tag, Z.of_nat (length tag) < 65536) rest →
  ∀ (done : jtag_array) (m : nat) (p : process),
    (length rest ≤ m)%nat →
    ∃ (rows : jtag_array) (kept : list (list ndb_str)) (p' : process),
      tags_loop (Z.of_nat (length done + m)) rest
        (done ++ replicate m None) (Z.of_nat (length done)) p
      = (Done (done ++ rows ++ replicate (m - length rows) None), p')
      ∧ kept `sublist_of` rest
      ∧ Forall2 row_of kept rows.
Proof.
  induction 1 as [|tag rest Htag _ IH]; intros done m p Hm.
  - exists [], [], p. simpl. rewrite Nat.sub_0_r.
    split; [reflexivity|]. split; constructor.
  - cbn [tags_loop].
    cbn [length] in Hm.
    replace (Z.of_nat (length done) <? Z.of_nat (length done + m))
      with true by (symmetry; apply Z.ltb_lt; lia).
    cbv beta iota delta [negb].
    unfold ndb_tag_count. rewrite to_uint16_small by lia.
    rewrite run_bind, run_NewArray by lia.
    destruct (alloc_ok p 0%nat); cbv beta iota delta [negb].
    + rewrite run_bind.
      destruct (for_upto_always (S := jstring_array) (Forall2 cell_of tag)
                  (tag_element {| iter_tag := tag; iter_rest := rest |})
                  (Z.to_nat (Z.of_nat (length tag))) 0)
        with (s := replicate (Z.to_nat (Z.of_nat (length tag))) (@None string))
             (p := {| alloc_ok := λ n, alloc_ok p (S n);
                      logcat := logcat p; engine := engine p |})
        as (cells & p1 & Hloop & Hcells).
      { intros k s q Hk Hs. apply tag_element_always; [lia|exact Hs]. }
      { rewrite Nat2Z.id. apply cells_of_nothing. }
      unfold for_loop. change (Z.of_nat 0) with 0 in Hloop. rewrite Hloop.
      destruct m as [|m]; [lia|].
      rewrite run_bind. cbn [replicate].
      rewrite (pure_array_set_middle done (replicate m None) None (Some cells)).
      destruct (IH (done ++ [Some cells]) m p1 ltac:(lia))
        as (rows & kept & p' & Hrest & Hkept & Hrows).
      exists (Some cells :: rows), (tag :: kept), p'.
      split; [|split].
      * replace (Z.of_nat (length done) + 1)
          with (Z.of_nat (length (done ++ [Some cells])))
          by (rewrite length_app; simpl; lia).
        replace (length done + S m)%nat
          with (length (done ++ [Some cells]) + m)%nat
          by (rewrite length_app; simpl; lia).
        replace (done ++ Some cells :: replicate m None)
          with ((done ++ [Some cells]) ++ replicate m None)
          by (rewrite <- app_assoc; reflexivity).
        rewrite Hrest. rewrite <- app_assoc. reflexivity.
      * apply sublist_skip. exact Hkept.
      * constructor; [|exact Hrows]. exists cells. split; [reflexivity|exact Hcells].
    + destruct (IH done m
                  {| alloc_ok := λ n, alloc_ok p (S n);
                     logcat := logcat p; engine := engine p |} ltac:(lia))
        as (rows & kept & p' & Hrest & Hkept & Hrows).
      exists rows, kept, p'.
      split; [exact Hrest|]. split; [|exact Hrows].
      apply sublist_cons. exact Hkept.
Qed.

(** X16. nativeNoteTags when memory runs out, in any process: the method
    never goes wrong; it returns null or an array with one slot for each
    tag of the note; the rows it filled come first and the slots after
    them are null; the rows are those of a sublist of the tags, in order
    (a tag whose array was refused is passed over and the tags after it
    move up, so that row [i] need not be tag [i]); and in a row each cell
    is the string of its element or null. *)
Theorem nativeNoteTags_with_failing_requests (ndb_ptr : Z) (txn : ndb_txn)
    (note_key : Z) (note : ndb_note) (p : process) :
  (ndb_get_note_by_key txn (to_uint64 note_key)).1 = Some note →
  Z.of_nat (length (note_tags note)) < 65536 →
  Forall (λ tag, Z.of_nat (length tag) < 65536) (note_tags note) →
  returned (Java_io_nostr_ndk_cache_nostrdb_NostrDB_nativeNoteTags
              ndb_ptr (Some txn) note_key) p = Done None
  ∨ ∃ (rows : jtag_array) (kept : list (list ndb_str)),
      returned (Java_io_nostr_ndk_cache_nostrdb_NostrDB_nativeNoteTags
                  ndb_ptr (Some txn) note_key) p
      = Done (Some (rows ++ replicate (length (note_tags note) - length rows)
                              None))
      ∧ (length rows ≤ length (note_tags note))%nat
      ∧ kept `sublist_of` note_tags note
      ∧ Forall2 row_of kept rows.
Proof.
  intros Hnote Hcount Htags.
  assert (Hrun : ∃ r p',
    Java_io_nostr_ndk_cache_nostrdb_NostrDB_nativeNoteTags
      ndb_ptr (Some txn) note_key p = (Done r, p')
    ∧ (r = None
       ∨ ∃ (rows : jtag_array) (kept : list (list ndb_str)),
           r = Some (rows ++ replicate (length (note_tags note) - length rows)
                               None)
           ∧ kept `sublist_of` note_tags note
           ∧ Forall2 row_of kept rows)).
  { unfold Java_io_nostr_ndk_cache_nostrdb_NostrDB_nativeNoteTags.
    destruct (ndb_ptr =? 0);
      [eexists _, _; split; [reflexivity|left; reflexivity]|].
    destruct (ndb_get_note_by_key txn (to_uint64 note_key)) as [n len].
    simpl in Hnote. subst n.
    unfold ndb_note_tags, ndb_tags_count, ndb_tags_iterate_start.
    cbn [iter_rest].
    rewrite to_uint16_small by lia.
    destruct (Z.of_nat (length (note_tags note)) =? 0);
      [eexists _, _; split; [reflexivity|left; reflexivity]|].
    rewrite run_bind. unfold FindClass at 1. rewrite run_alloc.
    destruct (alloc_ok p 0%nat); cbv beta iota delta [negb];
      [|eexists _, _; split; [reflexivity|left; reflexivity]].
    rewrite run_bind. unfold FindClass at 1. rewrite run_alloc.
    cbn [alloc_ok logcat engine].
    destruct (alloc_ok p 1%nat); cbv beta iota delta [negb];
      [|eexists _, _; split; [reflexivity|left; reflexivity]].
    rewrite run_bind, run_NewArray by lia. cbn [alloc_ok logcat engine].
    destruct (alloc_ok p 2%nat); cbv beta iota delta [negb];
      [|eexists _, _; split; [reflexivity|left; reflexivity]].
    rewrite run_bind, Nat2Z.id.
    destruct (tags_loop_always (note_tags note) Htags []
                (length (note_tags note))
                {| alloc_ok := λ n, alloc_ok p (S (S (S n)));
                   logcat := logcat p; engine := engine p |} ltac:(lia))
      as (rows & kept & p' & Hloop & Hkept & Hrows).
    cbn [length app Nat.add] in Hloop. change (Z.of_nat 0) with 0 in Hloop.
    rewrite Hloop. eexists _, _. split; [reflexivity|].
    right. exists rows, kept. split; [reflexivity|]. split; assumption. }
  destruct Hrun as (r & p' & Hrun & [-> | (rows & kept & -> & Hkept & Hrows)]);
    unfold returned; rewrite Hrun; [left; reflexivity|].
  right. exists rows, kept. split; [reflexivity|]. split; [|split; assumption].
  rewrite <- (Forall2_length _ _ _ Hrows).
  apply sublist_length. exact Hkept.
Qed.

End tags_memory.

(** ** nativeQuery, for any engine *)

Section query_keys.
Context `{Nostrdb}.

(** X17. A query that finds records: for any engine, when ndb_query
    returns 1 and has written results, nativeQuery returns one Java long
    for each result, in the order of the results: the key of the
    record, cast; cast back as the accessors cast it, it is the key, also
    from 2^63 on. Neither the engine nor the log is touched. *)
Theorem nativeQuery_hands_over_keys (txn : ndb_txn) (f : ndb_filter)
    (limit : Z) (written : list ndb_query_result) (p : process) :
  ndb_query txn f limit = (1, written) → written ≠ [] →
  never_fails p →
  let call :=
    Java_io_nostr_ndk_cache_nostrdb_NostrDB_nativeQuery
      (Some txn) (Some f) limit in
  let keys := (λ r, to_jlong (result_note_id r)) <$> written in
  returned call p = Done (Some keys)
  ∧ length keys = length written
  ∧ engine (process_after call p) = engine p
  ∧ logcat (process_after call p) = logcat p
  ∧ (Forall (λ r, 0 ≤ result_note_id r < 2 ^ 64) written →
     to_uint64 <$> keys = result_note_id <$> written).
Proof.
  intros Hquery Hsome Hp call keys.
  destruct (quiet_nativeQuery txn f limit written Hquery Hsome p Hp)
    as (p' & Hrun & _ & Hengine & Hlog).
  unfold returned, process_after, call. rewrite Hrun. cbn [fst snd].
  split; [reflexivity|]. split; [apply length_fmap|].
  split; [exact Hengine|]. split; [exact Hlog|].
  intros Hrange. unfold keys. rewrite <- list_fmap_compose.
  apply list_fmap_ext. intros i r Hr. cbn.
  rewrite to_uint64_to_jlong. apply to_uint64_small.
  rewrite Forall_lookup in Hrange. exact (Hrange i r Hr).
Qed.

End query_keys.

Section profile_absent.
Context `{ProfileReader}.

(** X18. No profile, and an empty one: when the engine has no profile
    for the author, or the stored bytes are no profile record, or the
    record holds no profile, nativeGetProfileByPubkey returns null in any
    process; for a profile none of whose nine fields is set it returns
    the object with no member. *)
Theorem nativeGetProfileByPubkey_without_fields (ndb_ptr : Z) (txn : ndb_txn)
    (pubkey : list byte) (p : process) :
  ndb_ptr ≠ 0 →
  let found := (ndb_get_profile_by_pubkey txn pubkey).1.1 in
  let profile :=
    (found ≫= NdbProfileRecord_as_root) ≫= NdbProfileRecord_profile in
  let call :=
    Java_io_nostr_ndk_cache_nostrdb_NostrDB_nativeGetProfileByPubkey
      ndb_ptr (Some txn) pubkey in
  (profile = None → returned call p = Done None)
  ∧ (∀ pr, profile = Some pr →
       Forall (λ f : string * option (list ascii), f.2 = None)
         (profile_fields pr) →
       never_fails p →
       returned call p = Done (Some "{}"%string)).
Proof.
  intros Hptr found profile call. split.
  - intros Hnone. unfold returned, call,
      Java_io_nostr_ndk_cache_nostrdb_NostrDB_nativeGetProfileByPubkey.
    replace (ndb_ptr =? 0) with false
      by (symmetry; apply Z.eqb_neq; exact Hptr).
    rewrite run_bind, run_alloc.
    destruct (alloc_ok p 0%nat); cbv beta iota delta [negb]; [|reflexivity].
    subst profile found.
    destruct (ndb_get_profile_by_pubkey txn pubkey) as [[[ptr|] len] primkey];
      cbn [fst mbind option_bind] in Hnone; [|reflexivity].
    destruct (NdbProfileRecord_as_root ptr) as [record|];
      cbn [mbind option_bind] in Hnone; [|reflexivity].
    destruct (NdbProfileRecord_profile record); [discriminate|reflexivity].
  - intros pr Hsome Hempty Hp. subst profile found.
    destruct (ndb_get_profile_by_pubkey txn pubkey) as [[[ptr|] len] primkey]
      eqn:Hlookup; cbn [fst mbind option_bind] in Hsome; [|discriminate].
    destruct (NdbProfileRecord_as_root ptr) as [record|] eqn:Hroot;
      cbn [mbind option_bind] in Hsome; [|discriminate].
    assert (Hobject : json_object (profile_fields pr) = ["{"; "}"]%char).
    { unfold profile_fields in *.
      repeat match goal with
             | Hall : Forall _ (_ :: _) |- _ =>
               apply Forall_cons in Hall as [? Hall]
             end.
      cbn [snd] in *.
      repeat match goal with Hf : _ = None |- _ => rewrite Hf end.
      reflexivity. }
    unfold returned, call.
    rewrite (nativeGetProfileByPubkey_run ndb_ptr txn pubkey ptr len primkey
               record pr p Hptr Hlookup Hroot Hsome (Hp 0%nat) (Hp 1%nat)).
    rewrite Hobject. cbn [length]. change (Z.of_nat 2 <? 32768) with true.
    cbv iota. unfold NewStringUTF. rewrite run_bind, run_alloc.
    cbn [alloc_ok]. rewrite (Hp 2%nat). reflexivity.
Qed.

End profile_absent.

(** * The properties on the small store *)

Lemma demo_never_fails (open_snapshots : nat) :
  never_fails (demo_process open_snapshots).
Proof. intros n. reflexivity. Qed.

(** Limit 2 over kinds = {1}, authors = {alice}: three notes match, the
    two of timestamp 300 are returned, key 5 before key 2. *)
Example demo_query :
  returned (@Java_io_nostr_ndk_cache_nostrdb_NostrDB_nativeQuery demo_engine
              (Some demo_txn) (Some demo_filter) 2) (demo_process 0)
  = Done (Some [5; 2]).
Proof. vm_compute. reflexivity. Qed.

(** Section 8: "after ingesting 15 kind-1 events from A and 5 kind-1
    events from B, query returns exactly 10 keys, all authored by A,
    newest-first". *)
Example scenario_query :
  returned (@Java_io_nostr_ndk_cache_nostrdb_NostrDB_nativeQuery demo_engine
              (Some scenario_txn) (Some demo_filter) 10) (demo_process 0)
  = Done (Some [15; 14; 13; 12; 11; 10; 9; 8; 7; 6]).
Proof. vm_compute. reflexivity. Qed.

(** A snapshot begun through nativeBeginQuery is counted by the engine,
    and ended through nativeEndQuery it no longer is. *)
Example demo_snapshot_opened :
  engine (process_after
            (@Java_io_nostr_ndk_cache_nostrdb_NostrDB_nativeBeginQuery
               demo_engine 1) (demo_process 0))
  = demo_ndb 1
  ∧ engine (process_after
              (@Java_io_nostr_ndk_cache_nostrdb_NostrDB_nativeEndQuery
                 demo_engine (Some demo_txn)) (demo_process 1))
    = demo_ndb 0.
Proof. split; reflexivity. Qed.

(** Polling drains the pending keys, oldest first. *)
Example demo_poll_pending :
  let first :=
    @Java_io_nostr_ndk_cache_nostrdb_NostrDB_nativePollForNotes
      demo_engine 1 1 2
      (@Build_process demo_engine (λ _, true) [] demo_ndb_pending) in
  first.1 = Done (Some [7; 8])
  ∧ returned (@Java_io_nostr_ndk_cache_nostrdb_NostrDB_nativePollForNotes
                demo_engine 1 1 2) first.2 = Done (Some [9]).
Proof. vm_compute. split; reflexivity. Qed.

(** A key of 2^63 or more reaches Java as a negative [long]. *)
Example demo_key_wraps : to_jlong (2 ^ 63 + 5) = - 2 ^ 63 + 5.
Proof. reflexivity. Qed.

Example demo_tags_read :
  returned (@Java_io_nostr_ndk_cache_nostrdb_NostrDB_nativeNoteTags demo_engine
              1 (Some demo_txn) 1) (demo_process 0)
  = Done (Some
      [ Some [ Some "e"%string;
               Some "c3c3c3c3c3c3c3c3c3c3c3c3c3c3c3c3c3c3c3c3c3c3c3c3c3c3c3c3c3c3c3c3"%string ];
        Some [ Some "t"%string; Some "nostr"%string ] ]).
Proof. vm_compute. reflexivity. Qed.

(** A buffer of 8 characters holds 6 and the NUL; the seventh would not
    leave room for an escape. *)
Example demo_escape :
  c_str <$> json_escape_string (replicate 8 "x"%char) 8
              (Some ["a"; DQUOTE; "b"; LF; "c"; "d"; "e"]%char)
  = Some ["a"; BACKSLASH; DQUOTE; "b"; BACKSLASH; "n"]%char.
Proof. vm_compute. reflexivity. Qed.

(** The control character 1 is dropped, the byte 233 is kept. *)
Example demo_escape_control :
  c_str <$> json_escape_string (replicate 16 "x"%char) 16
              (Some ["a"; "001"; TAB; "233"; BACKSLASH]%char)
  = Some ["a"; BACKSLASH; "t"; "233"; BACKSLASH; BACKSLASH]%char.
Proof. vm_compute. reflexivity. Qed.

(** With [dest_size] 1 the bound [dest_size - 2] wraps around and the
    loop writes past the buffer. *)
Example demo_escape_overflow :
  json_escape_string ["x"%char] 1 (Some ["a"; "b"; "c"]%char) = None.
Proof. vm_compute. reflexivity. Qed.

(** C1 on the small store. *)
Lemma query_returns_newest_matches_witness :
  0 ≤ 2 ∧ never_fails (demo_process 0)
  ∧ ∃ rs : list (Z * ndb_note),
      keys_returned
        (returned (@Java_io_nostr_ndk_cache_nostrdb_NostrDB_nativeQuery
                     demo_engine (Some demo_txn) (Some demo_filter) 2)
           (demo_process 0))
      = Some ((λ r, to_jlong r.1) <$> rs)
      ∧ Z.of_nat (length rs) ≤ 2
      ∧ NoDup rs.*1
      ∧ StronglySorted newer_first rs
      ∧ (∀ r, r ∈ rs →
           demo_txn !! r.1 = Some r.2
           ∧ ∀ c, c ∈ demo_filter →
               ∃ e, e ∈ elements c ∧ element_matches (field c) e r.2 = true)
      ∧ (∀ k n, demo_txn !! k = Some n → filter_matches demo_filter n = true →
           (k, n) ∈ rs
           ∨ (Z.of_nat (length rs) = 2 ∧ ∀ r, r ∈ rs → newer_first r (k, n)))
      ∧ Z.of_nat (length rs)
        = Z.min 2 (Z.of_nat (length (spec_matches demo_txn demo_filter))).
Proof.
  split; [lia|]. split; [apply demo_never_fails|].
  apply (query_returns_newest_matches (replicate 16 "db"%string)
           (λ n, note_id n ++ note_pubkey n ++ note_sig n) 0
           demo_txn demo_filter 2 (demo_process 0)).
  - lia.
  - apply demo_never_fails.
Defined.

(** C2 on the small store, one snapshot open. *)
Lemma nativeDestroy_returns_nothing_witness :
  1 ≠ 0
  ∧ returned (@Java_io_nostr_ndk_cache_nostrdb_NostrDB_nativeDestroy
                demo_engine 1) (demo_process 1) = Done ()
  ∧ logcat (process_after
              (@Java_io_nostr_ndk_cache_nostrdb_NostrDB_nativeDestroy
                 demo_engine 1) (demo_process 1))
    = [] ++ [(ANDROID_LOG_INFO, "NostrDB destroyed"%string)].
Proof.
  split; [lia|].
  pose proof (nativeDestroy_returns_nothing (replicate 16 "db"%string)
                (λ n, note_id n ++ note_pubkey n ++ note_sig n) 0
                1 (demo_process 1) ltac:(lia)) as (Hret & Hlog & _).
  split; [exact Hret | exact Hlog].
Defined.

(** With and without a snapshot open, nativeDestroy gives its caller the
    same: nothing tells that the engine was busy. *)
Lemma close_does_not_report_busy :
  ¬ close_reports_busy (replicate 16 "db"%string)
      (λ n, note_id n ++ note_pubkey n ++ note_sig n) 0.
Proof.
  intros [is_busy Hbusy].
  pose proof (Hbusy 1 (demo_process 1) ltac:(lia)) as Hopen.
  pose proof (Hbusy 1 (demo_process 0) ltac:(lia)) as Hidle.
  vm_compute in Hopen, Hidle.
  destruct Hopen as [_ Hopen]. destruct Hidle as [Hidle _].
  specialize (Hopen ltac:(lia)). specialize (Hidle Hopen). lia.
Qed.

(** C3 on the small store: 2 is no subscription, 1 is live and empty. *)
Lemma poll_of_unknown_is_null_witness :
  0 ≤ 0
  ∧ subscriptions (demo_ndb 0) !! to_uint64 2 = None
  ∧ returned (@Java_io_nostr_ndk_cache_nostrdb_NostrDB_nativePollForNotes
                demo_engine 1 2 10) (demo_process 0) = Done None
  ∧ returned (@Java_io_nostr_ndk_cache_nostrdb_NostrDB_nativePollForNotes
                demo_engine 1 1 10) (demo_process 0) = Done None.
Proof.
  assert (Hnone : subscriptions (demo_ndb 0) !! to_uint64 2 = None)
    by (vm_compute; reflexivity).
  split; [lia|]. split; [exact Hnone|].
  pose proof (poll_of_unknown_is_null (replicate 16 "db"%string)
                (λ n, note_id n ++ note_pubkey n ++ note_sig n) 0
                1 2 10 (demo_process 0) ltac:(lia) Hnone)
    as (Hunknown & Hlive & _).
  split; [exact Hunknown|].
  apply (Hlive 1 demo_filter). vm_compute. reflexivity.
Defined.

(** Polling 2, which is no subscription, and polling 1, which is live
    with nothing pending, return the same null: whether the engine reports
    the unknown identifier as 0 or as -1. *)
Lemma poll_does_not_tell_unknown_from_empty :
  ¬ poll_tells_unknown_from_empty (replicate 16 "db"%string)
      (λ n, note_id n ++ note_pubkey n ++ note_sig n) 0
  ∧ ¬ poll_tells_unknown_from_empty (replicate 16 "db"%string)
        (λ n, note_id n ++ note_pubkey n ++ note_sig n) (-1).
Proof.
  split; intros Htells.
  - apply (Htells (demo_process 0) 1 2 1 10 demo_filter).
    + lia.
    + vm_compute. reflexivity.
    + vm_compute. reflexivity.
    + vm_compute. reflexivity.
  - apply (Htells
             (@Build_process
                (spec_engine (replicate 16 "db"%string)
                   (λ n, note_id n ++ note_pubkey n ++ note_sig n) (-1))
                (λ _, true) [] (demo_ndb 0))
             1 2 1 10 demo_filter).
    + lia.
    + vm_compute. reflexivity.
    + vm_compute. reflexivity.
    + vm_compute. reflexivity.
Qed.

(** C4 on the small store: no note has kind 7, subscription 1 has nothing
    pending. *)
Lemma nothing_found_is_null_witness :
  (@ndb_query demo_engine demo_txn demo_filter_no_match 10).2 = []
  ∧ (@ndb_poll_for_notes demo_engine (demo_ndb 0) (to_uint64 1) 10).1.1 ≤ 0
  ∧ returned (@Java_io_nostr_ndk_cache_nostrdb_NostrDB_nativeQuery demo_engine
                (Some demo_txn) (Some demo_filter_no_match) 10)
      (demo_process 0) = Done None
  ∧ returned (@Java_io_nostr_ndk_cache_nostrdb_NostrDB_nativePollForNotes
                demo_engine 1 1 10) (demo_process 0) = Done None.
Proof.
  assert (Hquery : (@ndb_query demo_engine demo_txn demo_filter_no_match 10).2 = [])
    by (vm_compute; reflexivity).
  assert (Hpoll : (@ndb_poll_for_notes demo_engine (demo_ndb 0) (to_uint64 1) 10).1.1 ≤ 0)
    by (vm_compute; discriminate).
  split; [exact Hquery|]. split; [exact Hpoll|].
  pose proof (@nothing_found_is_null demo_engine demo_txn demo_filter_no_match
                10 1 1 10 (demo_process 0)) as (Hq & Hp & _).
  split; [exact (Hq Hquery) | exact (Hp Hpoll)].
Defined.

(** The query for kind 7 returns null, not an empty array. *)
Lemma nothing_found_is_not_an_empty_sequence :
  ¬ nothing_found_is_an_empty_sequence (replicate 16 "db"%string)
      (λ n, note_id n ++ note_pubkey n ++ note_sig n) 0.
Proof.
  intros Hempty.
  destruct (Hempty (demo_process 0) demo_txn demo_filter_no_match 10 1 1 10
              (demo_never_fails 0) ltac:(lia) ltac:(lia) ltac:(lia))
    as [Hquery _].
  specialize (Hquery ltac:(vm_compute; reflexivity)).
  vm_compute in Hquery. discriminate.
Qed.

(** C5 on the small store: the tags of note 1. *)
Lemma nativeNoteTags_renders_elements_witness :
  1 ≠ 0
  ∧ (@ndb_get_note_by_key demo_engine demo_txn (to_uint64 1)).1
    = Some (demo_note Byte.x01 alice 100 1 demo_tags)
  ∧ never_fails (demo_process 0)
  ∧ returned (@Java_io_nostr_ndk_cache_nostrdb_NostrDB_nativeNoteTags
                demo_engine 1 (Some demo_txn) 1) (demo_process 0)
    = Done (Some (tag_strings <$> demo_tags)).
Proof.
  assert (Hnote : (@ndb_get_note_by_key demo_engine demo_txn (to_uint64 1)).1
                  = Some (demo_note Byte.x01 alice 100 1 demo_tags))
    by (vm_compute; reflexivity).
  split; [lia|]. split; [exact Hnote|]. split; [apply demo_never_fails|].
  apply (@nativeNoteTags_renders_elements demo_engine 1 demo_txn 1
           (demo_note Byte.x01 alice 100 1 demo_tags) (demo_process 0)).
  - lia.
  - exact Hnote.
  - simpl. lia.
  - repeat constructor; simpl; lia.
  - apply demo_never_fails.
Defined.

(** C6 on the small store: no note has the identifier 77...77, no note
    has key 9. *)
Lemma lookups_of_absent_are_null_witness :
  length (replicate 32 Byte.x77) = 32%nat
  ∧ demo_txn !! to_uint64 9 = None
  ∧ returned (@Java_io_nostr_ndk_cache_nostrdb_NostrDB_nativeGetNoteById
                demo_engine 1 (Some demo_txn) (replicate 32 Byte.x77))
      (demo_process 0) = Done None
  ∧ returned (@Java_io_nostr_ndk_cache_nostrdb_NostrDB_nativeNoteContent
                demo_engine 1 (Some demo_txn) 9) (demo_process 0) = Done None.
Proof.
  assert (Hkey : demo_txn !! to_uint64 9 = None) by (vm_compute; reflexivity).
  split; [reflexivity|]. split; [exact Hkey|].
  pose proof (lookups_of_absent_are_null (replicate 16 "db"%string)
                (λ n, note_id n ++ note_pubkey n ++ note_sig n) 0
                1 demo_txn (replicate 32 Byte.x77) 9 (demo_process 0)
                eq_refl) as Hnull.
  destruct Hnull as (Hid & Hcontent & _).
  - intros k n Hk. apply elem_of_map_to_list in Hk.
    vm_compute in Hk.
    repeat (apply elem_of_cons in Hk as [Hk|Hk];
            [injection Hk as -> ->; discriminate|]).
    inversion Hk.
  - exact Hkey.
  - split; [exact Hid | exact Hcontent].
Defined.

(** C7 on the small store. *)
Lemma nativeGetStats_fixed_shape_witness :
  Z.of_nat (length (dbs demo_stat)) = 16
  ∧ Z.of_nat (length (common_kinds demo_stat)) = 15
  ∧ returned (@Java_io_nostr_ndk_cache_nostrdb_NostrDB_nativeGetStats
                demo_engine 1) (demo_process 0)
    = Done (Some (stats_table demo_stat))
  ∧ length (stats_table demo_stat) = 96%nat.
Proof.
  split; [reflexivity|]. split; [reflexivity|].
  pose proof (@nativeGetStats_fixed_shape demo_engine 1 (demo_process 0)
                eq_refl eq_refl) as [_ Hruns].
  split; [|reflexivity].
  apply Hruns; [lia | reflexivity | apply demo_never_fails].
Defined.

(** C8 on a buffer of 8 characters. *)
Lemma json_escape_string_escapes_witness :
  2 ≤ 8 ∧ 8 < 2 ^ 64 ∧ 8 ≤ Z.of_nat (length (replicate 8 "x"%char))
  ∧ ∃ (dest' : list ascii) (n : nat),
      json_escape_string (replicate 8 "x"%char) 8
        (Some ["a"; DQUOTE; "b"; LF; "c"; "d"; "e"]%char) = Some dest'
      ∧ length dest' = length (replicate 8 "x"%char)
      ∧ dest' !! length (c_str dest') = Some NUL
      ∧ Z.of_nat (length (c_str dest')) < 8
      ∧ c_str dest'
        = flat_map escape_char
            (take n (c_str ["a"; DQUOTE; "b"; LF; "c"; "d"; "e"]%char))
      ∧ (n ≤ length (c_str ["a"; DQUOTE; "b"; LF; "c"; "d"; "e"]%char))%nat
      ∧ (n = length (c_str ["a"; DQUOTE; "b"; LF; "c"; "d"; "e"]%char)
         ∨ 8 - 2 ≤ Z.of_nat (length (c_str dest')))
      ∧ (Z.of_nat
           (length (flat_map escape_char
                      (c_str ["a"; DQUOTE; "b"; LF; "c"; "d"; "e"]%char)))
         ≤ 8 - 2 →
         c_str dest'
         = flat_map escape_char
             (c_str ["a"; DQUOTE; "b"; LF; "c"; "d"; "e"]%char)).
Proof.
  split; [lia|]. split; [reflexivity|]. split; [simpl; lia|].
  apply (json_escape_string_escapes (replicate 8 "x"%char)
           ["a"; DQUOTE; "b"; LF; "c"; "d"; "e"]%char 8).
  - lia.
  - reflexivity.
  - simpl. lia.
Defined.

(** "abcdefg" and its NUL fit in 8 characters, but the loop stops at 6:
    the text is cut to "abcdef". *)
Lemma json_escape_string_cuts_early : ¬ escapes_whatever_fits.
Proof.
  intros Hfits.
  specialize (Hfits (replicate 8 "x"%char)
                ["a"; "b"; "c"; "d"; "e"; "f"; "g"]%char 8
                ltac:(lia) ltac:(reflexivity) ltac:(simpl; lia)
                ltac:(simpl; lia)).
  vm_compute in Hfits. discriminate.
Qed.

(** C9 on the small store: index 15 names a table, not a kind. *)
Lemma name_lookups_bounded_witness :
  @NDB_CKIND_COUNT demo_engine ≤ 15
  ∧ (∃ name,
       returned (@Java_io_nostr_ndk_cache_nostrdb_NostrDB_nativeGetDbName
                   demo_engine 15) (demo_process 0) = Done (Some name))
  ∧ returned (@Java_io_nostr_ndk_cache_nostrdb_NostrDB_nativeGetCommonKindName
                demo_engine 15) (demo_process 0) = Done None.
Proof.
  assert (Hkinds : @NDB_CKIND_COUNT demo_engine ≤ 15) by (simpl; lia).
  split; [exact Hkinds|].
  assert (Hnamed : ∀ k, 0 ≤ k < @NDB_DBS demo_engine →
                        is_Some (@ndb_db_name demo_engine k)).
  { intros k Hk. cbn in Hk |- *.
    replace (0 <=? k) with true by (symmetry; apply Z.leb_le; lia).
    apply lookup_lt_is_Some. simpl. lia. }
  pose proof (@name_lookups_bounded demo_engine 15 (demo_process 0)
                Hkinds Hnamed 16 15 eq_refl eq_refl)
    as (Hin & _ & Hkind_out & _).
  destruct (Hin (demo_never_fails 0)) as [[_ Hdb] _].
  split; [apply Hdb; lia | apply Hkind_out; lia].
Defined.

(** C10 on the small store: note 2 has no tags, no note has key 9. *)
Lemma nativeNoteTags_tagless_is_null_witness :
  (@ndb_get_note_by_key demo_engine demo_txn (to_uint64 2)).1
  = Some (demo_note Byte.x02 alice 300 1 [])
  ∧ (@ndb_get_note_by_key demo_engine demo_txn (to_uint64 9)).1 = None
  ∧ returned (@Java_io_nostr_ndk_cache_nostrdb_NostrDB_nativeNoteTags
                demo_engine 1 (Some demo_txn) 2) (demo_process 0) = Done None
  ∧ returned (@Java_io_nostr_ndk_cache_nostrdb_NostrDB_nativeNoteTags
                demo_engine 1 (Some demo_txn) 9) (demo_process 0) = Done None.
Proof.
  assert (Hnote : (@ndb_get_note_by_key demo_engine demo_txn (to_uint64 2)).1
                  = Some (demo_note Byte.x02 alice 300 1 []))
    by (vm_compute; reflexivity).
  assert (Habsent : (@ndb_get_note_by_key demo_engine demo_txn (to_uint64 9)).1
                    = None)
    by (vm_compute; reflexivity).
  split; [exact Hnote|]. split; [exact Habsent|].
  apply (@nativeNoteTags_tagless_is_null demo_engine 1 demo_txn 2 9
           (demo_note Byte.x02 alice 300 1 []) (demo_process 0));
    [exact Hnote | reflexivity | exact Habsent].
Defined.

(** * The further properties on the small store *)

(** A buffer of 8 characters: "abcdefgh" is cut after "abcdef", whatever
    the buffer held. *)
Lemma json_escape_string_cuts_at_first_full_witness :
  2 ≤ 8 ∧ 8 < 2 ^ 64 ∧ 8 ≤ Z.of_nat (length (replicate 8 "x"%char))
  ∧ c_str <$> json_escape_string (replicate 8 "x"%char) 8
                (Some (list_ascii_of_string "abcdefgh"))
    = Some (list_ascii_of_string "abcdef")
  ∧ json_escape_string (replicate 8 "x"%char) 8
      (Some (list_ascii_of_string "abc"))
    = Some (list_ascii_of_string "abc" ++ NUL :: replicate 4 "x"%char).
Proof.
  split; [lia|]. split; [reflexivity|]. split; [simpl; lia|].
  split.
  - destruct (json_escape_string_cuts_at_first_full (replicate 8 "x"%char)
                (list_ascii_of_string "abcdefgh") 8)
      as (n & Hrun & Htext & Hupto & _); [lia|reflexivity|simpl; lia|].
    cbv zeta in Hrun, Htext, Hupto.
    rewrite Hrun. cbn [fmap option_fmap option_map]. rewrite Htext, Hupto.
    reflexivity.
  - destruct (json_escape_string_cuts_at_first_full (replicate 8 "x"%char)
                (list_ascii_of_string "abc") 8)
      as (n & Hrun & _ & Hupto & _); [lia|reflexivity|simpl; lia|].
    cbv zeta in Hrun, Hupto. rewrite Hrun, Hupto. reflexivity.
Defined.

Lemma json_escape_string_writes_json_witness :
  2 ≤ 8 ∧ 8 < 2 ^ 64 ∧ 8 ≤ Z.of_nat (length (replicate 8 "x"%char))
  ∧ ∃ dest',
      json_escape_string (replicate 8 "x"%char) 8
        (Some ["a"; DQUOTE; "b"; LF; BACKSLASH; "c"]%char) = Some dest'
      ∧ json_string_body (c_str dest') = true.
Proof.
  split; [lia|]. split; [reflexivity|]. split; [simpl; lia|].
  apply (json_escape_string_writes_json (replicate 8 "x"%char)
           ["a"; DQUOTE; "b"; LF; BACKSLASH; "c"]%char 8);
    [lia|reflexivity|simpl; lia].
Defined.

Lemma json_unescape_json_escape_string_witness :
  2 ≤ 16 ∧ 16 < 2 ^ 64 ∧ 16 ≤ Z.of_nat (length (replicate 16 "x"%char))
  ∧ ∃ dest',
      json_escape_string (replicate 16 "x"%char) 16
        (Some ["a"; DQUOTE; "b"; LF; BACKSLASH; "c"]%char) = Some dest'
      ∧ json_unescape (c_str dest')
        = ["a"; DQUOTE; "b"; LF; BACKSLASH; "c"]%char.
Proof.
  split; [lia|]. split; [reflexivity|]. split; [simpl; lia|].
  destruct (json_unescape_json_escape_string (replicate 16 "x"%char)
              ["a"; DQUOTE; "b"; LF; BACKSLASH; "c"]%char 16)
    as (dest' & Hrun & _ & _ & Hclean); [lia|reflexivity|simpl; lia|].
  exists dest'. split; [exact Hrun|].
  apply Hclean; [simpl; lia|]. repeat constructor.
Defined.

Lemma json_escape_string_overruns_small_buffer_witness :
  0 ≤ 1 < 2 ∧ Z.of_nat (length ["x"%char]) = 1
  ∧ escape_char "a"%char = ["a"%char]
  ∧ json_escape_string ["x"%char] 1 (Some ["a"%char; "b"%char]) = None.
Proof.
  split; [lia|]. split; [reflexivity|]. split; [reflexivity|].
  apply (json_escape_string_overruns_small_buffer ["x"%char] ["b"%char] 1
           "a"%char); [lia|reflexivity|reflexivity].
Defined.

(** The object of the short profile: three members, the value of about
    escaped, the empty website kept. *)
Example demo_profile_object :
  json_object (@profile_fields demo_engine (demo_profiles demo_short_profile)
                 demo_short_profile)
  = list_ascii_of_string "{"
    ++ [DQUOTE] ++ list_ascii_of_string "name" ++ [DQUOTE]
    ++ list_ascii_of_string ":"
    ++ [DQUOTE] ++ list_ascii_of_string "fiatjaf" ++ [DQUOTE]
    ++ list_ascii_of_string ","
    ++ [DQUOTE] ++ list_ascii_of_string "about" ++ [DQUOTE]
    ++ list_ascii_of_string ":"
    ++ [DQUOTE] ++ [BACKSLASH; DQUOTE] ++ list_ascii_of_string "hi"
    ++ [BACKSLASH; DQUOTE] ++ list_ascii_of_string "\n" ++ [DQUOTE]
    ++ list_ascii_of_string ","
    ++ [DQUOTE] ++ list_ascii_of_string "website" ++ [DQUOTE]
    ++ list_ascii_of_string ":"
    ++ [DQUOTE] ++ [DQUOTE]
    ++ list_ascii_of_string "}".
Proof. vm_compute. reflexivity. Qed.

Lemma nativeGetProfileByPubkey_builds_object_witness :
  1 ≠ 0 ∧ never_fails (demo_process 0)
  ∧ returned
      (@Java_io_nostr_ndk_cache_nostrdb_NostrDB_nativeGetProfileByPubkey
         demo_engine (demo_profiles demo_short_profile) 1 (Some demo_txn) alice)
      (demo_process 0)
    = Done (Some (string_of_list_ascii
                    (json_object
                       (@profile_fields demo_engine
                          (demo_profiles demo_short_profile)
                          demo_short_profile)))).
Proof.
  split; [lia|]. split; [apply demo_never_fails|].
  apply (@nativeGetProfileByPubkey_builds_object demo_engine
           (demo_profiles demo_short_profile) 1 demo_txn alice
           demo_short_profile 0 0 demo_short_profile demo_short_profile
           (demo_process 0)).
  - lia.
  - reflexivity.
  - reflexivity.
  - reflexivity.
  - vm_compute. reflexivity.
  - apply demo_never_fails.
Defined.

(** Four values of 8190 characters and more do not fit in 32768. *)
Lemma nativeGetProfileByPubkey_overruns_block_witness :
  1 ≠ 0
  ∧ 32768 ≤ Z.of_nat (length (json_object
                                (@profile_fields demo_engine
                                   (demo_profiles demo_long_profile)
                                   demo_long_profile)))
  ∧ returned
      (@Java_io_nostr_ndk_cache_nostrdb_NostrDB_nativeGetProfileByPubkey
         demo_engine (demo_profiles demo_long_profile) 1 (Some demo_txn) alice)
      (demo_process 0)
    = Fault.
Proof.
  assert (Hlong : 32768 ≤ Z.of_nat (length (json_object
                                (@profile_fields demo_engine
                                   (demo_profiles demo_long_profile)
                                   demo_long_profile))))
    by (vm_compute; discriminate).
  split; [lia|]. split; [exact Hlong|].
  apply (@nativeGetProfileByPubkey_overruns_block demo_engine
           (demo_profiles demo_long_profile) 1 demo_txn alice
           demo_long_profile 0 0 demo_long_profile demo_long_profile
           (demo_process 0)).
  - lia.
  - reflexivity.
  - reflexivity.
  - reflexivity.
  - reflexivity.
  - reflexivity.
  - exact Hlong.
Defined.

Lemma nativeGetProfileByPubkey_small_profile_witness :
  1 ≠ 0 ∧ never_fails (demo_process 0)
  ∧ Z.of_nat (sum_list_with
                (λ f : string * option (list ascii),
                   default 0%nat (length <$> f.2))
                (@profile_fields demo_engine (demo_profiles demo_short_profile)
                   demo_short_profile)) ≤ 16000
  ∧ returned
      (@Java_io_nostr_ndk_cache_nostrdb_NostrDB_nativeGetProfileByPubkey
         demo_engine (demo_profiles demo_short_profile) 1 (Some demo_txn) alice)
      (demo_process 0)
    = Done (Some (string_of_list_ascii
                    (json_object
                       (@profile_fields demo_engine
                          (demo_profiles demo_short_profile)
                          demo_short_profile)))).
Proof.
  assert (Hsmall :
    Z.of_nat (sum_list_with
                (λ f : string * option (list ascii),
                   default 0%nat (length <$> f.2))
                (@profile_fields demo_engine (demo_profiles demo_short_profile)
                   demo_short_profile)) ≤ 16000)
    by (vm_compute; discriminate).
  split; [lia|]. split; [apply demo_never_fails|]. split; [exact Hsmall|].
  apply (@nativeGetProfileByPubkey_small_profile demo_engine
           (demo_profiles demo_short_profile) 1 demo_txn alice
           demo_short_profile 0 0 demo_short_profile demo_short_profile
           (demo_process 0)).
  - lia.
  - reflexivity.
  - reflexivity.
  - reflexivity.
  - exact Hsmall.
  - apply demo_never_fails.
Defined.

Lemma nativeGetProfileByPubkey_without_fields_witness :
  1 ≠ 0 ∧ never_fails (demo_process 0)
  ∧ returned
      (@Java_io_nostr_ndk_cache_nostrdb_NostrDB_nativeGetProfileByPubkey
         demo_engine (demo_profiles demo_empty_profile) 1 (Some demo_txn) alice)
      (demo_process 0)
    = Done (Some "{}"%string).
Proof.
  split; [lia|]. split; [apply demo_never_fails|].
  pose proof (@nativeGetProfileByPubkey_without_fields demo_engine
                (demo_profiles demo_empty_profile) 1 demo_txn alice
                (demo_process 0) ltac:(lia)) as [_ Hempty].
  apply (Hempty demo_empty_profile).
  - reflexivity.
  - repeat constructor.
  - apply demo_never_fails.
Defined.

(** Subscription 1 holds the keys 7, 8 and 9; a poll for two of them. *)
Lemma nativePollForNotes_hands_over_keys_witness :
  1 ≠ 0
  ∧ never_fails (demo_process_failing [] demo_ndb_pending)
  ∧ returned (@Java_io_nostr_ndk_cache_nostrdb_NostrDB_nativePollForNotes
                demo_engine 1 1 2)
      (demo_process_failing [] demo_ndb_pending)
    = Done (Some [7; 8])
  ∧ subscriptions
      (engine (process_after
                 (@Java_io_nostr_ndk_cache_nostrdb_NostrDB_nativePollForNotes
                    demo_engine 1 1 2)
                 (demo_process_failing [] demo_ndb_pending))) !! 1
    = Some (demo_filter, [9]).
Proof.
  assert (Hp : never_fails (demo_process_failing [] demo_ndb_pending))
    by (intros n; reflexivity).
  split; [lia|]. split; [exact Hp|].
  pose proof (@nativePollForNotes_hands_over_keys demo_engine 1 1 2
                (demo_process_failing [] demo_ndb_pending) 2 [7; 8]
                (spec_poll demo_ndb_pending 1 2).2
                ltac:(lia) eq_refl ltac:(lia) ltac:(simpl; lia) Hp)
    as (Hret & _ & Hengine & _).
  split; [exact Hret|]. rewrite Hengine. vm_compute. reflexivity.
Defined.

(** The same poll when the Java array is refused: null, and the keys 7
    and 8 are no longer pending. *)
Lemma nativePollForNotes_drops_keys_without_memory_witness :
  1 ≠ 0
  ∧ returned (@Java_io_nostr_ndk_cache_nostrdb_NostrDB_nativePollForNotes
                demo_engine 1 1 2)
      (demo_process_failing [1%nat] demo_ndb_pending)
    = Done None
  ∧ subscriptions
      (engine (process_after
                 (@Java_io_nostr_ndk_cache_nostrdb_NostrDB_nativePollForNotes
                    demo_engine 1 1 2)
                 (demo_process_failing [1%nat] demo_ndb_pending))) !! 1
    = Some (demo_filter, [9]).
Proof.
  split; [lia|].
  pose proof (@nativePollForNotes_drops_keys_without_memory demo_engine 1 1 2
                (demo_process_failing [1%nat] demo_ndb_pending) 2 [7; 8]
                (spec_poll demo_ndb_pending 1 2).2
                ltac:(lia) eq_refl ltac:(lia) eq_refl eq_refl)
    as (Hret & Hengine & _).
  split; [exact Hret|]. rewrite Hengine. vm_compute. reflexivity.
Defined.

Lemma copy_of_keys_stores_through_null_witness :
  returned (@Java_io_nostr_ndk_cache_nostrdb_NostrDB_nativeQuery demo_engine
              (Some demo_txn) (Some demo_filter) 2)
    (demo_process_failing [2%nat] demo_ndb_pending)
  = Fault
  ∧ returned (@Java_io_nostr_ndk_cache_nostrdb_NostrDB_nativePollForNotes
                demo_engine 1 1 2)
      (demo_process_failing [2%nat] demo_ndb_pending)
    = Fault.
Proof.
  pose proof (@copy_of_keys_stores_through_null demo_engine
                (demo_process_failing [2%nat] demo_ndb_pending)
                eq_refl eq_refl eq_refl) as [Hquery Hpoll].
  split.
  - apply (Hquery demo_txn demo_filter 2
             (result_of_record <$> spec_query demo_txn demo_filter 2)).
    + reflexivity.
    + vm_compute. discriminate.
  - apply Hpoll; [lia|]. vm_compute. reflexivity.
Defined.

Lemma nativeSubscribe_identifier_reads_back_witness :
  1 ≠ 0 ∧ 0 ≤ 2 < 2 ^ 64
  ∧ returned (@Java_io_nostr_ndk_cache_nostrdb_NostrDB_nativeSubscribe
                demo_engine 1 (Some demo_filter)) (demo_process 0)
    = Done 2.
Proof.
  split; [lia|]. split; [lia|].
  pose proof (@nativeSubscribe_identifier_reads_back demo_engine 1 demo_filter
                (demo_process 0) 2 (spec_subscribe (demo_ndb 0) demo_filter).2
                ltac:(lia) eq_refl ltac:(lia)) as (Hret & _).
  exact Hret.
Defined.

(** Note 4 is of kind 0 and no note has key 9: both read as kind 0. *)
Lemma integer_fields_of_stored_note_witness :
  1 ≠ 0
  ∧ (@ndb_get_note_by_key demo_engine demo_txn (to_uint64 4)).1
    = Some (demo_note Byte.x04 alice 200 0 [])
  ∧ (@ndb_get_note_by_key demo_engine demo_txn (to_uint64 9)).1 = None
  ∧ returned (@Java_io_nostr_ndk_cache_nostrdb_NostrDB_nativeNoteKind
                demo_engine 1 (Some demo_txn) 4) (demo_process 0)
    = returned (@Java_io_nostr_ndk_cache_nostrdb_NostrDB_nativeNoteKind
                  demo_engine 1 (Some demo_txn) 9) (demo_process 0)
  ∧ returned (@Java_io_nostr_ndk_cache_nostrdb_NostrDB_nativeNoteCreatedAt
                demo_engine 1 (Some demo_txn) 4) (demo_process 0)
    = Done 200.
Proof.
  assert (Hnote : (@ndb_get_note_by_key demo_engine demo_txn (to_uint64 4)).1
                  = Some (demo_note Byte.x04 alice 200 0 []))
    by (vm_compute; reflexivity).
  assert (Habsent :
    (@ndb_get_note_by_key demo_engine demo_txn (to_uint64 9)).1 = None)
    by (vm_compute; reflexivity).
  split; [lia|]. split; [exact Hnote|]. split; [exact Habsent|].
  pose proof (@integer_fields_of_stored_note demo_engine 1 demo_txn 4 9
                (demo_note Byte.x04 alice 200 0 []) (demo_process 0)
                ltac:(lia) Hnote Habsent)
    as (_ & _ & _ & _ & Htime & _ & Hkind & _).
  cbv zeta beta in Htime, Hkind.
  split; [apply Hkind; reflexivity|].
  apply Htime. simpl. lia.
Defined.

(** The record of note 1 is laid out on 128 bytes; reported with
    2^32 + 128 bytes, it is returned as its first 128 bytes all the
    same. *)
Lemma nativeGetNoteById_copies_the_record_witness :
  1 ≠ 0
  ∧ returned (@Java_io_nostr_ndk_cache_nostrdb_NostrDB_nativeGetNoteById
                demo_engine 1 (Some demo_txn) (replicate 32 Byte.x01))
      (demo_process 0)
    = Done (Some (replicate 32 Byte.x01 ++ alice ++ replicate 64 Byte.x01))
  ∧ @ndb_get_note_by_id demo_engine_wide demo_txn (replicate 32 Byte.x01)
    = (Some (demo_note Byte.x01 alice 100 1 demo_tags), 128 + 2 ^ 32, 1)
  ∧ returned (@Java_io_nostr_ndk_cache_nostrdb_NostrDB_nativeGetNoteById
                demo_engine_wide 1 (Some demo_txn) (replicate 32 Byte.x01))
      (@Build_process demo_engine_wide (λ _, true) [] (demo_ndb 0))
    = Done (Some (replicate 32 Byte.x01 ++ alice ++ replicate 64 Byte.x01)).
Proof.
  split; [lia|].
  assert (Hfound :
    @ndb_get_note_by_id demo_engine demo_txn (replicate 32 Byte.x01)
    = (Some (demo_note Byte.x01 alice 100 1 demo_tags), 128, 1))
    by (vm_compute; reflexivity).
  assert (Hwide :
    @ndb_get_note_by_id demo_engine_wide demo_txn (replicate 32 Byte.x01)
    = (Some (demo_note Byte.x01 alice 100 1 demo_tags), 128 + 2 ^ 32, 1))
    by (vm_compute; reflexivity).
  pose proof (@nativeGetNoteById_copies_the_record demo_engine 1 demo_txn
                (replicate 32 Byte.x01)
                (demo_note Byte.x01 alice 100 1 demo_tags) 128 1
                (demo_process 0) ltac:(lia) Hfound eq_refl)
    as (_ & Hcopy & _).
  pose proof (@nativeGetNoteById_copies_the_record demo_engine_wide 1 demo_txn
                (replicate 32 Byte.x01)
                (demo_note Byte.x01 alice 100 1 demo_tags) (128 + 2 ^ 32) 1
                (@Build_process demo_engine_wide (λ _, true) [] (demo_ndb 0))
                ltac:(lia) Hwide eq_refl)
    as (_ & _ & _ & _ & _ & Hcut & _).
  cbv zeta in Hcopy, Hcut.
  specialize (Hcopy ltac:(lia) ltac:(vm_compute; discriminate) eq_refl).
  specialize (Hcut 1 ltac:(lia) ltac:(lia) eq_refl).
  split; [etrans; [exact Hcopy|]; reflexivity|].
  split; [exact Hwide|].
  etrans; [exact Hcut|]. reflexivity.
Defined.

(** From the identifier of note 3 to its key and to its author. *)
Lemma nativeGetNoteKeyById_key_reads_note_witness :
  1 ≠ 0
  ∧ ∃ j,
      returned (@Java_io_nostr_ndk_cache_nostrdb_NostrDB_nativeGetNoteKeyById
                  demo_engine demo_open (Some demo_txn) (replicate 32 Byte.x03))
        (demo_process 0) = Done j
      ∧ j = 3
      ∧ returned (@Java_io_nostr_ndk_cache_nostrdb_NostrDB_nativeNotePubkey
                    demo_engine 1 (Some demo_txn) j) (demo_process 0)
        = Done (Some bob).
Proof.
  split; [lia|].
  assert (Hkey : @ndb_get_notekey_by_id demo_engine demo_open demo_txn
                   (replicate 32 Byte.x03) = 3)
    by (vm_compute; reflexivity).
  destruct (@nativeGetNoteKeyById_key_reads_note demo_engine demo_open 1
              demo_txn (replicate 32 Byte.x03) (demo_process 0))
    as (j & Hret & Hback & Hread).
  - lia.
  - reflexivity.
  - rewrite Hkey. lia.
  - exists j. split; [exact Hret|].
    assert (Hj : j = 3).
    { unfold returned in Hret. vm_compute in Hret. congruence. }
    split; [exact Hj|].
    destruct (Hread (demo_process 0)) as (_ & _ & Hfields).
    destruct (Hfields (demo_never_fails 0)) as (_ & _ & Hpubkey & _).
    etrans; [exact Hpubkey|]. rewrite Hkey. vm_compute. reflexivity.
Defined.

(** Opening the store at /data/nostrdb succeeds, and the log line is
    then written from the released path; the empty path is refused. *)
Lemma nativeInit_reads_the_released_path_witness :
  returned (@Java_io_nostr_ndk_cache_nostrdb_NostrDB_nativeInit
              demo_engine demo_open "/data/nostrdb" (2 ^ 30) 2)
    (demo_process 0)
  = Fault
  ∧ returned (@Java_io_nostr_ndk_cache_nostrdb_NostrDB_nativeInit
                demo_engine demo_open EmptyString (2 ^ 30) 2)
      (demo_process 0)
    = Done 0
  ∧ logcat (process_after
              (@Java_io_nostr_ndk_cache_nostrdb_NostrDB_nativeInit
                 demo_engine demo_open EmptyString (2 ^ 30) 2)
              (demo_process 0))
    = [(ANDROID_LOG_ERROR, "ndb_init failed with result: 0"%string)].
Proof.
  pose proof (@nativeInit_reads_the_released_path demo_engine demo_open
                "/data/nostrdb" (2 ^ 30) 2 (demo_process 0)) as (Hopen & _).
  pose proof (@nativeInit_reads_the_released_path demo_engine demo_open
                EmptyString (2 ^ 30) 2 (demo_process 0))
    as (Hrefused & Hlog & _).
  split; [exact Hopen|]. split; [exact Hrefused|exact Hlog].
Defined.

(** The array of the first tag of note 1 is refused (the requests before
    it are the two classes and the outer array): the second tag is in
    row 0 and row 1 is null. *)
Example demo_tags_move_up :
  returned (@Java_io_nostr_ndk_cache_nostrdb_NostrDB_nativeNoteTags
              demo_engine 1 (Some demo_txn) 1)
    (demo_process_failing [3%nat] (demo_ndb 0))
  = Done (Some [Some [Some "t"%string; Some "nostr"%string]; None]).
Proof. vm_compute. reflexivity. Qed.

Lemma nativeNoteTags_with_failing_requests_witness :
  (@ndb_get_note_by_key demo_engine demo_txn (to_uint64 1)).1
  = Some (demo_note Byte.x01 alice 100 1 demo_tags)
  ∧ ∃ (rows : jtag_array) (kept : list (list ndb_str)),
      returned (@Java_io_nostr_ndk_cache_nostrdb_NostrDB_nativeNoteTags
                  demo_engine 1 (Some demo_txn) 1)
        (demo_process_failing [3%nat] (demo_ndb 0))
      = Done (Some (rows ++ replicate (2 - length rows) None))
      ∧ (length rows ≤ 2)%nat
      ∧ kept `sublist_of` demo_tags
      ∧ Forall2 row_of kept rows.
Proof.
  assert (Hnote : (@ndb_get_note_by_key demo_engine demo_txn (to_uint64 1)).1
                  = Some (demo_note Byte.x01 alice 100 1 demo_tags))
    by (vm_compute; reflexivity).
  split; [exact Hnote|].
  destruct (@nativeNoteTags_with_failing_requests demo_engine 1 demo_txn 1
              (demo_note Byte.x01 alice 100 1 demo_tags)
              (demo_process_failing [3%nat] (demo_ndb 0)) Hnote)
    as [Hnull | Hrows].
  - simpl. lia.
  - repeat constructor; simpl; lia.
  - unfold returned in Hnull. vm_compute in Hnull. discriminate Hnull.
  - exact Hrows.
Defined.

Lemma nativeQuery_hands_over_keys_witness :
  never_fails (demo_process 0)
  ∧ returned (@Java_io_nostr_ndk_cache_nostrdb_NostrDB_nativeQuery demo_engine
                (Some demo_txn) (Some demo_filter) 2) (demo_process 0)
    = Done (Some [5; 2]).
Proof.
  split; [apply demo_never_fails|].
  pose proof (@nativeQuery_hands_over_keys demo_engine demo_txn demo_filter 2
                (result_of_record <$> spec_query demo_txn demo_filter 2)
                (demo_process 0) eq_refl) as Hkeys.
  destruct Hkeys as (Hret & _).
  - vm_compute. discriminate.
  - apply demo_never_fails.
  - etrans; [exact Hret|]. vm_compute. reflexivity.
Defined.
